(** * p2p-chat static file server ([server.py])

    [server.py] is a thin subclass of the Python standard library's
    [http.server.SimpleHTTPRequestHandler], run under
    [socketserver.TCPServer].  The two overridden methods ([end_headers],
    [log_message]), the module constants and [start_server] are embedded
    from [server.py]; the inherited methods they plug into are embedded from
    CPython 3.11 ([http/server.py], [socketserver.py], [posixpath.py]),
    method by method and under the library's names.

    Conventions.
    - A Python [str] or [bytes] value is a [string]; character-set
      conversions (iso-8859-1 decoding of the request line, latin-1 and
      UTF-8 encoding of the output) are not represented.
    - A handler method is a state transformer over the handler object
      (monad [M]); an early [return] is the else-less branch of an [if].
    - Library functions whose result depends on tables or on the clock
      ([urllib.parse.unquote], [mimetypes.guess_type], [repr], [int],
      [email.utils], ...) are fields of the record [pylib].
    - The file system is a function from path names to nodes. *)

From Stdlib Require Import String Ascii List ZArith Bool Lia DecimalString.
Import ListNotations.
Open Scope list_scope.
Open Scope string_scope.

(** ** Python string primitives *)

Module Str.

Definition dq : string := String (ascii_of_nat 34) "".
Definition CR : ascii := ascii_of_nat 13.
Definition LF : ascii := ascii_of_nat 10.
Definition CRLF : string := String CR (String LF "").
Definition slash : ascii := "/"%char.

(** [str.isspace] on the code points below 256 (the request line is
    decoded as iso-8859-1). *)
Definition isspace (c : ascii) : bool :=
  let n := nat_of_ascii c in
  (((9 <=? n) && (n <=? 13)) || ((28 <=? n) && (n <=? 32))
   || (n =? 133) || (n =? 160))%nat.

(** [s.split(sep)] for a one-character separator. *)
Fixpoint split (sep : ascii) (s : string) : list string :=
  match s with
  | "" => [""]
  | String c s' =>
      if Ascii.eqb c sep then "" :: split sep s'
      else match split sep s' with
           | w :: ws => String c w :: ws
           | [] => [String c ""]
           end
  end.

(** [s.split(sep, 1)[0]]. *)
Fixpoint before (sep : ascii) (s : string) : string :=
  match s with
  | "" => ""
  | String c s' => if Ascii.eqb c sep then "" else String c (before sep s')
  end.

(** [s.split(sep, 1)[1]]; [None] is Python's IndexError. *)
Fixpoint after (sep : ascii) (s : string) : option string :=
  match s with
  | "" => None
  | String c s' => if Ascii.eqb c sep then Some s' else after sep s'
  end.

(** [s.split()]: split on runs of white space, no empty words. *)
Fixpoint split_ws (s : string) : list string :=
  match s with
  | "" => []
  | String c s' =>
      if isspace c then split_ws s'
      else match s' with
           | "" => [String c ""]
           | String c' _ =>
               if isspace c' then String c "" :: split_ws s'
               else match split_ws s' with
                    | w :: ws => String c w :: ws
                    | [] => [String c ""]
                    end
           end
  end.

(** [s.rstrip(chars)] and [s.lstrip(chars)], the character set as a test. *)
Fixpoint rstrip (p : ascii -> bool) (s : string) : string :=
  match s with
  | "" => ""
  | String c s' =>
      match rstrip p s' with
      | "" => if p c then "" else String c ""
      | r => String c r
      end
  end.

Fixpoint lstrip (p : ascii -> bool) (s : string) : string :=
  match s with
  | "" => ""
  | String c s' => if p c then lstrip p s' else s
  end.

Definition is_crlf (c : ascii) : bool := Ascii.eqb c CR || Ascii.eqb c LF.
Definition is_slash (c : ascii) : bool := Ascii.eqb c slash.

Definition startswith (pre s : string) : bool := String.prefix pre s.

(** [s.endswith(c)] for a one-character suffix. *)
Fixpoint endswith (c : ascii) (s : string) : bool :=
  match s with
  | "" => false
  | String a "" => Ascii.eqb a c
  | String _ s' => endswith c s'
  end.

(** [s.lower()] on ASCII letters. *)
Definition lower_char (c : ascii) : ascii :=
  let n := nat_of_ascii c in
  if ((65 <=? n) && (n <=? 90))%nat then ascii_of_nat (n + 32) else c.

Fixpoint lower (s : string) : string :=
  match s with
  | "" => ""
  | String c s' => String (lower_char c) (lower s')
  end.

(** [sep.join(ws)]. *)
Definition join (sep : string) (ws : list string) : string :=
  String.concat sep ws.

(** [s.find(c) >= 0]. *)
Fixpoint contains (c : ascii) (s : string) : bool :=
  match s with
  | "" => false
  | String a s' => Ascii.eqb a c || contains c s'
  end.

(** [str(n)] for a non-negative integer. *)
Definition of_nat (n : nat) : string :=
  NilZero.string_of_uint (Nat.to_uint n).

Definition of_N (n : N) : string :=
  NilZero.string_of_uint (N.to_uint n).

(** [s * n]. *)
Fixpoint repeat (s : string) (n : nat) : string :=
  match n with
  | O => ""
  | S n' => s ++ repeat s n'
  end.

(** [html.escape(s, quote=False)]. *)
Fixpoint html_escape (s : string) : string :=
  match s with
  | "" => ""
  | String c s' =>
      (if Ascii.eqb c "&"%char then "&amp;"
       else if Ascii.eqb c "<"%char then "&lt;"
       else if Ascii.eqb c ">"%char then "&gt;"
       else String c "") ++ html_escape s'
  end.

End Str.

(** ** [posixpath] *)

Module posixpath.

(** [posixpath.join(a, b)]. *)
Definition join (a b : string) : string :=
  if Str.startswith "/" b then b
  else if (a =? "") || Str.endswith Str.slash a then a ++ b
  else a ++ "/" ++ b.

(** The loop of [normpath] over the components; [new_comps] is kept
    reversed, so [new_comps[-1]] is its head. *)
Fixpoint normpath_loop (initial_slashes : nat) (comps new_comps : list string)
  : list string :=
  match comps with
  | [] => rev new_comps
  | comp :: rest =>
      if (comp =? "") || (comp =? ".") then
        normpath_loop initial_slashes rest new_comps
      else if negb (comp =? "..")
              || ((initial_slashes =? 0)%nat
                  && match new_comps with [] => true | _ => false end)
              || match new_comps with
                 | top :: _ => top =? ".."
                 | [] => false
                 end
      then normpath_loop initial_slashes rest (comp :: new_comps)
      else normpath_loop initial_slashes rest (tl new_comps)
  end.

Definition normpath (path : string) : string :=
  if path =? "" then "."
  else
    let initial_slashes :=
      if Str.startswith "/" path then
        if Str.startswith "//" path && negb (Str.startswith "///" path)
        then 2 else 1
      else 0 in
    let comps := normpath_loop initial_slashes (Str.split Str.slash path) [] in
    let path := Str.join "/" comps in
    let path :=
      match initial_slashes with
      | 0 => path
      | 1 => "/" ++ path
      | _ => "//" ++ path
      end in
    if path =? "" then "." else path.

(** [posixpath.dirname(p)]: the head up to the last slash, trailing
    slashes removed unless the head is all slashes. *)
Fixpoint head_to_last_slash (p : string) : string :=
  match p with
  | "" => ""
  | String c p' =>
      if Str.contains Str.slash p then String c (head_to_last_slash p')
      else ""
  end.

Definition dirname (p : string) : string :=
  let head := head_to_last_slash p in
  match Str.rstrip Str.is_slash head with
  | "" => head
  | stripped => stripped
  end.

(** [posixpath.splitext(p)[1]]: the text of the last path component from
    its last dot on, provided a character other than a dot precedes that
    dot (leading dots do not start an extension). *)
Fixpoint basename (p : string) : string :=
  match p with
  | "" => ""
  | String c p' =>
      if Str.contains Str.slash p' then basename p'
      else if Ascii.eqb c Str.slash then p' else p
  end.

Fixpoint ext_scan (seen_name : bool) (name : string) : string :=
  match name with
  | "" => ""
  | String c name' =>
      if Ascii.eqb c "."%char then
        if Str.contains "."%char name' then ext_scan seen_name name'
        else if seen_name then name else ""
      else ext_scan true name'
  end.

Definition splitext_ext (p : string) : string := ext_scan false (basename p).

End posixpath.

(** ** Library functions taken as given

    The functions of the Python library that the handler calls and whose
    values come from tables, locale or the clock. *)

Record dir_entry := {
  entry_name : string;       (* a name returned by [os.listdir] *)
  entry_isdir : bool;        (* [os.path.isdir] of the entry *)
  entry_islink : bool        (* [os.path.islink] of the entry *)
}.

Record pylib := {
  (* [urllib.parse.unquote(path, errors='surrogatepass')], falling back
     to [urllib.parse.unquote(path)] on UnicodeDecodeError *)
  unquote : string -> string;
  (* [repr(s)] of a str, as in ["%r" % s] *)
  py_repr : string -> string;
  (* [int(s)]; [None] is ValueError *)
  py_int : string -> option Z;
  (* [BaseHTTPRequestHandler.sys_version], "Python/3.11.2" *)
  sys_version : string;
  (* [email.utils.formatdate(t, usegmt=True)]; [None] is [time.time()] *)
  formatdate : option Z -> string;
  (* [mimetypes.guess_type(path)[0]] *)
  mimetypes_guess_type : string -> option string;
  (* [email.utils.parsedate_to_datetime(v)] as seconds since the epoch when
     it succeeds with a UTC or naive result; [None] when the value is
     ill-formed or carries another time zone *)
  parsedate_utc : string -> option Z;
  (* [urllib.parse.urlsplit(url).path] *)
  urlsplit_path : string -> string;
  (* [urlunsplit] of [urlsplit(url)] with ['/'] appended to the path *)
  urlunsplit_slash : string -> string;
  (* [sys.getfilesystemencoding()] *)
  getfilesystemencoding : string;
  (* the encoded HTML page built by [list_directory] from the request
     path, the directory path and the sorted entries *)
  listing_page : string -> string -> list dir_entry -> string
}.

(** ** File system *)

Inductive node :=
| Missing                                   (* no such file or directory *)
| File (data : string) (mtime : Z)          (* regular file, readable *)
| NoAccess                                  (* regular file, [open] fails *)
| Dir (listing : option (list dir_entry)).  (* [None]: [os.listdir] fails *)

Definition filesystem := string -> node.

Module os.

Definition isdir (fs : filesystem) (p : string) : bool :=
  match fs p with Dir _ => true | _ => false end.

Definition isfile (fs : filesystem) (p : string) : bool :=
  match fs p with File _ _ | NoAccess => true | _ => false end.

(** [open(p, 'rb')] with [os.fstat]: the bytes, [st_size] and [st_mtime];
    [None] is OSError. *)
Definition open_rb (fs : filesystem) (p : string) : option (string * nat * Z) :=
  match fs p with
  | File data mtime => Some (data, String.length data, mtime)
  | _ => None
  end.

Definition listdir (fs : filesystem) (p : string) : option (list dir_entry) :=
  match fs p with Dir l => l | _ => None end.

End os.

(** ** [http.HTTPStatus]: phrase and description of the codes in use *)

Module HTTPStatus.

Definition OK := 200.
Definition NO_CONTENT := 204.
Definition RESET_CONTENT := 205.
Definition MOVED_PERMANENTLY := 301.
Definition NOT_MODIFIED := 304.
Definition BAD_REQUEST := 400.
Definition NOT_FOUND := 404.
Definition REQUEST_URI_TOO_LONG := 414.
Definition REQUEST_HEADER_FIELDS_TOO_LARGE := 431.
Definition NOT_IMPLEMENTED := 501.
Definition HTTP_VERSION_NOT_SUPPORTED := 505.

(** [BaseHTTPRequestHandler.responses], on the codes the handler sends. *)
Definition responses (code : nat) : option (string * string) :=
  if (code =? 200)%nat then Some ("OK", "Request fulfilled, document follows")
  else if (code =? 204)%nat then
    Some ("No Content", "Request fulfilled, nothing follows")
  else if (code =? 205)%nat then
    Some ("Reset Content", "Clear input form for further input")
  else if (code =? 301)%nat then
    Some ("Moved Permanently", "Object moved permanently -- see URI list")
  else if (code =? 304)%nat then
    Some ("Not Modified", "Document has not changed since given time")
  else if (code =? 400)%nat then
    Some ("Bad Request", "Bad request syntax or unsupported method")
  else if (code =? 404)%nat then
    Some ("Not Found", "Nothing matches the given URI")
  else if (code =? 414)%nat then
    Some ("Request-URI Too Long", "URI is too long")
  else if (code =? 431)%nat then
    Some ("Request Header Fields Too Large",
          "The server is unwilling to process the request because its header fields are too large")
  else if (code =? 501)%nat then
    Some ("Not Implemented", "Server does not support this operation")
  else if (code =? 505)%nat then
    Some ("HTTP Version Not Supported", "Cannot fulfill request")
  else None.

End HTTPStatus.

(** ** The handler object *)

(** A line appended to [_headers_buffer]; [render_hline] is the text the
    library formats. *)
Inductive hline :=
| StatusLine (version : string) (code : nat) (message : string)
| HeaderLine (keyword value : string)
| EndOfHeaders.

Definition render_hline (l : hline) : string :=
  match l with
  | StatusLine v c m => v ++ " " ++ Str.of_nat c ++ " " ++ m ++ Str.CRLF
  | HeaderLine k v => k ++ ": " ++ v ++ Str.CRLF
  | EndOfHeaders => Str.CRLF
  end.

(** One [wfile.write]: the joined header buffer, or body bytes. *)
Inductive chunk :=
| WHeaders (lines : list hline)
| WBody (data : string).

Definition render_chunk (c : chunk) : string :=
  match c with
  | WHeaders ls => String.concat "" (map render_hline ls)
  | WBody d => d
  end.

(** What [http.client.parse_headers] makes of the header section. *)
Inductive header_result :=
| HeadersOK (hs : list (string * string))
| LineTooLong (err : string)
| TooManyHeaders (err : string).

(** What the client sends for one request: the line [rfile.readline]
    returns, and its header section. *)
Record raw_request := {
  raw_requestline : string;
  raw_headers : header_result
}.

Record handler := mkHandler {
  client_address : string * N;
  rfile : list raw_request;
  requestline : string;
  request_version : string;
  command : option string;
  path : string;
  headers : list (string * string);
  close_connection : bool;
  _headers_buffer : list hline;
  wfile : list chunk;
  stdout : list string            (* one element per [print] call *)
}.

Definition set_rfile v h := mkHandler (client_address h) v (requestline h)
  (request_version h) (command h) (path h) (headers h) (close_connection h)
  (_headers_buffer h) (wfile h) (stdout h).
Definition set_requestline v h := mkHandler (client_address h) (rfile h) v
  (request_version h) (command h) (path h) (headers h) (close_connection h)
  (_headers_buffer h) (wfile h) (stdout h).
Definition set_request_version v h := mkHandler (client_address h) (rfile h)
  (requestline h) v (command h) (path h) (headers h) (close_connection h)
  (_headers_buffer h) (wfile h) (stdout h).
Definition set_command v h := mkHandler (client_address h) (rfile h)
  (requestline h) (request_version h) v (path h) (headers h)
  (close_connection h) (_headers_buffer h) (wfile h) (stdout h).
Definition set_path v h := mkHandler (client_address h) (rfile h)
  (requestline h) (request_version h) (command h) v (headers h)
  (close_connection h) (_headers_buffer h) (wfile h) (stdout h).
Definition set_headers v h := mkHandler (client_address h) (rfile h)
  (requestline h) (request_version h) (command h) (path h) v
  (close_connection h) (_headers_buffer h) (wfile h) (stdout h).
Definition set_close_connection v h := mkHandler (client_address h) (rfile h)
  (requestline h) (request_version h) (command h) (path h) (headers h) v
  (_headers_buffer h) (wfile h) (stdout h).
Definition set_headers_buffer v h := mkHandler (client_address h) (rfile h)
  (requestline h) (request_version h) (command h) (path h) (headers h)
  (close_connection h) v (wfile h) (stdout h).
Definition set_wfile v h := mkHandler (client_address h) (rfile h)
  (requestline h) (request_version h) (command h) (path h) (headers h)
  (close_connection h) (_headers_buffer h) v (stdout h).
Definition set_stdout v h := mkHandler (client_address h) (rfile h)
  (requestline h) (request_version h) (command h) (path h) (headers h)
  (close_connection h) (_headers_buffer h) (wfile h) v.

(** [self.path], for use where a local variable is named [path]. *)
Definition self_path (h : handler) : string := path h.

(** *** The monad of handler methods *)

Definition M (A : Type) : Type := handler -> A * handler.

Definition ret {A} (a : A) : M A := fun h => (a, h).
Definition bind {A B} (m : M A) (k : A -> M B) : M B :=
  fun h => let (a, h') := m h in k a h'.
Definition gets {A} (f : handler -> A) : M A := fun h => (f h, h).
Definition modify (f : handler -> handler) : M unit := fun h => (tt, f h).
Definition when (b : bool) (m : M unit) : M unit := if b then m else ret tt.
Definition exec {A} (m : M A) (h : handler) : handler := snd (m h).

Declare Scope monad_scope.
Delimit Scope monad_scope with monad.
Notation "x <- m ;; k" := (bind m (fun x => k))
  (at level 61, m at next level, right associativity) : monad_scope.
Notation "m ;; k" := (bind m (fun _ => k))
  (at level 61, right associativity) : monad_scope.
Open Scope monad_scope.

(** Python's [>=] on strings and on pairs of integers. *)
Definition str_ge (a b : string) : bool :=
  match String.compare a b with Lt => false | _ => true end.

Definition pair_ge (a b : Z * Z) : bool :=
  ((fst b <? fst a) || ((fst a =? fst b) && (snd b <=? snd a)))%Z.

(** [self.headers.get(name)]: header names compare case-insensitively. *)
Fixpoint headers_get (name : string) (hs : list (string * string))
  : option string :=
  match hs with
  | [] => None
  | (k, v) :: hs' =>
      if Str.lower k =? Str.lower name then Some v else headers_get name hs'
  end.

Definition headers_contains (name : string) (hs : list (string * string))
  : bool :=
  match headers_get name hs with Some _ => true | None => false end.

(** ** [http.server] *)

Module http_server.

Section Handler.

Variable L : pylib.
Variable fs : filesystem.

(** Attributes and methods reached through [self], which a subclass may
    override. *)
Variable server_version : string.
Variable directory : string.
Variable self_end_headers : M unit.
Variable self_log_message : string -> M unit.
Variable self_do : string -> option (M unit).   (* [getattr(self, 'do_' + command)] *)

(** *** [BaseHTTPRequestHandler] *)

Definition protocol_version : string := "HTTP/1.0".
Definition default_request_version : string := "HTTP/0.9".
Definition error_content_type : string := "text/html;charset=utf-8".

Definition nl : string := String Str.LF "".

(** [DEFAULT_ERROR_MESSAGE % {'code': .., 'message': .., 'explain': ..}]. *)
Definition error_message_format (code : nat) (message explain : string)
  : string :=
  "<!DOCTYPE HTML>" ++ nl ++
  "<html lang=" ++ Str.dq ++ "en" ++ Str.dq ++ ">" ++ nl ++
  "    <head>" ++ nl ++
  "        <meta charset=" ++ Str.dq ++ "utf-8" ++ Str.dq ++ ">" ++ nl ++
  "        <title>Error response</title>" ++ nl ++
  "    </head>" ++ nl ++
  "    <body>" ++ nl ++
  "        <h1>Error response</h1>" ++ nl ++
  "        <p>Error code: " ++ Str.of_nat code ++ "</p>" ++ nl ++
  "        <p>Message: " ++ message ++ ".</p>" ++ nl ++
  "        <p>Error code explanation: " ++ Str.of_nat code ++ " - "
    ++ explain ++ ".</p>" ++ nl ++
  "    </body>" ++ nl ++
  "</html>" ++ nl.

Definition address_string : M string :=
  gets (fun h => fst (client_address h)).

Definition version_string : string := server_version ++ " " ++ sys_version L.

Definition date_time_string (timestamp : option Z) : string :=
  formatdate L timestamp.

(** [log_request(code)]: the format ['"%s" %s %s'] applied to the request
    line, the code and the default size ['-']. *)
Definition log_request (code : nat) : M unit :=
  rl <- gets requestline ;;
  self_log_message
    (Str.dq ++ rl ++ Str.dq ++ " " ++ Str.of_nat code ++ " " ++ "-").

(** [log_error(format, *args)], the message already formatted. *)
Definition log_error (message : string) : M unit := self_log_message message.

Definition send_response_only (code : nat) (message : option string)
  : M unit :=
  rv <- gets request_version ;;
  when (negb (rv =? "HTTP/0.9"))
    (let message :=
       match message with
       | Some m => m
       | None => match HTTPStatus.responses code with
                 | Some (phrase, _) => phrase
                 | None => ""
                 end
       end in
     modify (fun h => set_headers_buffer
       (_headers_buffer h ++ [StatusLine protocol_version code message])%list h)).

Definition send_header (keyword value : string) : M unit :=
  rv <- gets request_version ;;
  when (negb (rv =? "HTTP/0.9"))
    (modify (fun h => set_headers_buffer
       (_headers_buffer h ++ [HeaderLine keyword value])%list h)) ;;
  when (Str.lower keyword =? "connection")
    (if Str.lower value =? "close" then modify (set_close_connection true)
     else when (Str.lower value =? "keep-alive")
            (modify (set_close_connection false))).

Definition flush_headers : M unit :=
  modify (fun h =>
    set_headers_buffer [] (set_wfile (wfile h ++ [WHeaders (_headers_buffer h)])%list h)).

Definition end_headers : M unit :=
  rv <- gets request_version ;;
  when (negb (rv =? "HTTP/0.9"))
    (modify (fun h => set_headers_buffer
       (_headers_buffer h ++ [EndOfHeaders])%list h) ;;
     flush_headers).

Definition send_response (code : nat) (message : option string) : M unit :=
  log_request code ;;
  send_response_only code message ;;
  send_header "Server" version_string ;;
  send_header "Date" (date_time_string None).

Definition wfile_write (data : string) : M unit :=
  modify (fun h => set_wfile (wfile h ++ [WBody data])%list h).

Definition is_HEAD (cmd : option string) : bool :=
  match cmd with Some c => c =? "HEAD" | None => false end.

Definition send_error (code : nat) (message explain : option string)
  : M unit :=
  let (shortmsg, longmsg) :=
    match HTTPStatus.responses code with
    | Some p => p
    | None => ("???", "???")
    end in
  let message := match message with Some m => m | None => shortmsg end in
  let explain := match explain with Some e => e | None => longmsg end in
  log_error ("code " ++ Str.of_nat code ++ ", message " ++ message) ;;
  send_response code (Some message) ;;
  send_header "Connection" "close" ;;
  let body :=
    if ((200 <=? code) && negb ((code =? HTTPStatus.NO_CONTENT)
          || (code =? HTTPStatus.RESET_CONTENT)
          || (code =? HTTPStatus.NOT_MODIFIED)))%nat
    then Some (error_message_format code (Str.html_escape message)
                 (Str.html_escape explain))
    else None in
  match body with
  | Some b =>
      send_header "Content-Type" error_content_type ;;
      send_header "Content-Length" (Str.of_nat (String.length b))
  | None => ret tt
  end ;;
  self_end_headers ;;
  cmd <- gets command ;;
  match body with
  | Some b => when (negb (is_HEAD cmd) && negb (b =? "")) (wfile_write b)
  | None => ret tt
  end.

(** The [try] block of [parse_request] on the version word: the text after
    ['HTTP/'] and the pair of integers; [None] stands for the ValueError
    and IndexError the [except] clause catches. *)
Definition parse_version (version : string) : option (string * (Z * Z)) :=
  if negb (Str.startswith "HTTP/" version) then None
  else match Str.after Str.slash version with
       | None => None
       | Some base_version_number =>
           match Str.split "."%char base_version_number with
           | [major; minor] =>
               match py_int L major, py_int L minor with
               | Some a, Some b => Some (base_version_number, (a, b))
               | _, _ => None
               end
           | _ => None
           end
       end.

Definition handle_expect_100 : M bool :=
  send_response_only 100 None ;;
  self_end_headers ;;
  ret true.

Definition parse_request (raw : raw_request) : M bool :=
  modify (set_command None) ;;
  modify (set_request_version default_request_version) ;;
  modify (set_close_connection true) ;;
  let requestline := Str.rstrip Str.is_crlf (raw_requestline raw) in
  modify (set_requestline requestline) ;;
  let words := Str.split_ws requestline in
  if (length words =? 0)%nat then ret false
  else
    versioned <-
      (if (3 <=? length words)%nat then
         let version := last words "" in
         match parse_version version with
         | None =>
             send_error HTTPStatus.BAD_REQUEST
               (Some ("Bad request version (" ++ py_repr L version ++ ")"))
               None ;;
             ret false
         | Some (base_version_number, version_number) =>
             when (pair_ge version_number (1, 1)%Z
                   && str_ge protocol_version "HTTP/1.1")
               (modify (set_close_connection false)) ;;
             if pair_ge version_number (2, 0)%Z then
               send_error HTTPStatus.HTTP_VERSION_NOT_SUPPORTED
                 (Some ("Invalid HTTP version (" ++ base_version_number ++ ")"))
                 None ;;
               ret false
             else modify (set_request_version version) ;; ret true
         end
       else ret true) ;;
    if negb versioned then ret false
    else if negb ((2 <=? length words) && (length words <=? 3))%nat then
      send_error HTTPStatus.BAD_REQUEST
        (Some ("Bad request syntax (" ++ py_repr L requestline ++ ")")) None ;;
      ret false
    else
      let command := nth 0 words "" in
      let path := nth 1 words "" in
      simple <-
        (if (length words =? 2)%nat then
           modify (set_close_connection true) ;;
           if negb (command =? "GET") then
             send_error HTTPStatus.BAD_REQUEST
               (Some ("Bad HTTP/0.9 request type (" ++ py_repr L command ++ ")"))
               None ;;
             ret false
           else ret true
         else ret true) ;;
      if negb simple then ret false
      else
        modify (set_command (Some command)) ;;
        modify (set_path path) ;;
        when (Str.startswith "//" path)
          (modify (set_path ("/" ++ Str.lstrip Str.is_slash path))) ;;
        match raw_headers raw with
        | LineTooLong err =>
            send_error HTTPStatus.REQUEST_HEADER_FIELDS_TOO_LARGE
              (Some "Line too long") (Some err) ;;
            ret false
        | TooManyHeaders err =>
            send_error HTTPStatus.REQUEST_HEADER_FIELDS_TOO_LARGE
              (Some "Too many headers") (Some err) ;;
            ret false
        | HeadersOK hs =>
            modify (set_headers hs) ;;
            let conntype :=
              match headers_get "Connection" hs with Some v => v | None => "" end in
            (if Str.lower conntype =? "close" then
               modify (set_close_connection true)
             else when ((Str.lower conntype =? "keep-alive")
                        && str_ge protocol_version "HTTP/1.1")
                    (modify (set_close_connection false))) ;;
            let expect :=
              match headers_get "Expect" hs with Some v => v | None => "" end in
            rv <- gets request_version ;;
            if (Str.lower expect =? "100-continue")
               && str_ge protocol_version "HTTP/1.1" && str_ge rv "HTTP/1.1"
            then handle_expect_100
            else ret true
        end.

(** [handle_one_request]; an exhausted [rfile] is [readline] returning
    [b'']. No socket timeout is configured, so the TimeoutError clause is
    not represented. *)
Definition handle_one_request : M unit :=
  rf <- gets rfile ;;
  match rf with
  | [] => modify (set_close_connection true)
  | raw :: rest =>
      modify (set_rfile rest) ;;
      if (65536 <? N.of_nat (String.length (raw_requestline raw)))%N then
        modify (set_requestline "") ;;
        modify (set_request_version "") ;;
        modify (set_command (Some "")) ;;
        send_error HTTPStatus.REQUEST_URI_TOO_LONG None None
      else if raw_requestline raw =? "" then
        modify (set_close_connection true)
      else
        parsed <- parse_request raw ;;
        if negb parsed then ret tt
        else
          cmd <- gets command ;;
          let cmd := match cmd with Some c => c | None => "" end in
          match self_do cmd with
          | None =>
              send_error HTTPStatus.NOT_IMPLEMENTED
                (Some ("Unsupported method (" ++ py_repr L cmd ++ ")")) None
          | Some method => method
          end
  end.

(** [handle]: the [while not self.close_connection] loop, bounded by the
    number of requests waiting in [rfile]. *)
Fixpoint handle_loop (fuel : nat) : M unit :=
  match fuel with
  | O => ret tt
  | S fuel' =>
      closed <- gets close_connection ;;
      if closed then ret tt
      else handle_one_request ;; handle_loop fuel'
  end.

Definition handle : M unit :=
  modify (set_close_connection true) ;;
  handle_one_request ;;
  n <- gets (fun h => length (rfile h)) ;;
  handle_loop (S n).

(** *** [SimpleHTTPRequestHandler] *)

Definition extensions_map (ext : string) : option string :=
  if ext =? ".gz" then Some "application/gzip"
  else if ext =? ".Z" then Some "application/octet-stream"
  else if ext =? ".bz2" then Some "application/x-bzip2"
  else if ext =? ".xz" then Some "application/x-xz"
  else None.

Definition guess_type (path : string) : string :=
  let ext := posixpath.splitext_ext path in
  match extensions_map ext with
  | Some t => t
  | None =>
      match extensions_map (Str.lower ext) with
      | Some t => t
      | None =>
          match mimetypes_guess_type L path with
          | Some guess =>
              if guess =? "" then "application/octet-stream" else guess
          | None => "application/octet-stream"
          end
      end
  end.

(** The body of the [for word in words] loop of [translate_path]. *)
Definition translate_step (path word : string) : string :=
  if negb (posixpath.dirname word =? "") || (word =? ".") || (word =? "..")
  then path
  else posixpath.join path word.

Definition translate_path (path : string) : string :=
  let path := Str.before "?"%char path in
  let path := Str.before "#"%char path in
  let trailing_slash := Str.endswith Str.slash (Str.rstrip Str.isspace path) in
  let path := unquote L path in
  let path := posixpath.normpath path in
  let words := Str.split Str.slash path in
  let words := filter (fun w => negb (w =? "")) words in
  let path := fold_left translate_step words directory in
  if trailing_slash then path ++ "/" else path.

(** [copyfile(f, self.wfile)]: [shutil.copyfileobj] writes the data read,
    and nothing for an empty file. *)
Definition copyfile (data : string) : M unit :=
  when (negb (data =? "")) (wfile_write data).

Definition list_directory (path : string) : M (option string) :=
  match os.listdir fs path with
  | None =>
      send_error HTTPStatus.NOT_FOUND
        (Some "No permission to list directory") None ;;
      ret None
  | Some entries =>
      reqpath <- gets self_path ;;
      let enc := getfilesystemencoding L in
      let encoded := listing_page L reqpath path entries in
      send_response HTTPStatus.OK None ;;
      send_header "Content-type" ("text/html; charset=" ++ enc) ;;
      send_header "Content-Length" (Str.of_nat (String.length encoded)) ;;
      self_end_headers ;;
      ret (Some encoded)
  end.

(** The test of the "use browser cache if possible" block of [send_head]:
    the request has If-Modified-Since and no If-None-Match, the date
    parses, and the file was last modified at or before it. *)
Definition not_modified_since (hs : list (string * string)) (mtime : Z)
  : bool :=
  if headers_contains "If-Modified-Since" hs
     && negb (headers_contains "If-None-Match" hs)
  then
    match headers_get "If-Modified-Since" hs with
    | Some v =>
        match parsedate_utc L v with
        | Some ims => (mtime <=? ims)%Z
        | None => false
        end
    | None => false
    end
  else false.

(** [send_head] from [ctype = self.guess_type(path)] on: the file at
    [path] is opened and announced. *)
Definition send_head_file (path : string) : M (option string) :=
  let ctype := guess_type path in
  if Str.endswith Str.slash path then
    send_error HTTPStatus.NOT_FOUND (Some "File not found") None ;;
    ret None
  else
    match os.open_rb fs path with
    | None =>
        send_error HTTPStatus.NOT_FOUND (Some "File not found") None ;;
        ret None
    | Some (data, size, mtime) =>
        hs <- gets headers ;;
        if not_modified_since hs mtime then
          send_response HTTPStatus.NOT_MODIFIED None ;;
          self_end_headers ;;
          ret None
        else
          send_response HTTPStatus.OK None ;;
          send_header "Content-type" ctype ;;
          send_header "Content-Length" (Str.of_nat size) ;;
          send_header "Last-Modified" (date_time_string (Some mtime)) ;;
          self_end_headers ;;
          ret (Some data)
    end.

Definition send_head : M (option string) :=
  reqpath <- gets self_path ;;
  let path := translate_path reqpath in
  if os.isdir fs path then
    if negb (Str.endswith Str.slash (urlsplit_path L reqpath)) then
      send_response HTTPStatus.MOVED_PERMANENTLY None ;;
      send_header "Location" (urlunsplit_slash L reqpath) ;;
      send_header "Content-Length" "0" ;;
      self_end_headers ;;
      ret None
    else if os.isfile fs (posixpath.join path "index.html") then
      send_head_file (posixpath.join path "index.html")
    else if os.isfile fs (posixpath.join path "index.htm") then
      send_head_file (posixpath.join path "index.htm")
    else list_directory path
  else send_head_file path.

Definition do_GET : M unit :=
  f <- send_head ;;
  match f with
  | Some data => copyfile data
  | None => ret tt
  end.

Definition do_HEAD : M unit :=
  send_head ;; ret tt.

End Handler.

End http_server.

(** ** [socketserver.TCPServer] *)

Module socketserver.

Inductive socket_state := Created | Bound | Listening | Closed.

Record TCPServer := {
  server_address : string * N;
  socket : socket_state
}.

(** The host: which TCP ports another socket already holds. *)
Record host := { port_in_use : N -> bool }.

(** [server_bind]: [allow_reuse_address] is False, so [socket.bind] raises
    OSError (address already in use) on a held port; [None] is that
    exception. *)
Definition server_bind (os : host) (s : TCPServer) : option TCPServer :=
  if port_in_use os (snd (server_address s)) then None
  else Some {| server_address := server_address s; socket := Bound |}.

(** [server_activate]: [socket.listen(request_queue_size)]. *)
Definition server_activate (s : TCPServer) : TCPServer :=
  {| server_address := server_address s; socket := Listening |}.

(** [server_close]: [socket.close()]. *)
Definition server_close (s : TCPServer) : TCPServer :=
  {| server_address := server_address s; socket := Closed |}.

(** [TCPServer.__init__] with [bind_and_activate=True]: on an exception of
    [server_bind] the socket is closed and the exception raised again
    ([inl]). *)
Definition init (os : host) (address : string * N) : TCPServer + TCPServer :=
  let s := {| server_address := address; socket := Created |} in
  match server_bind os s with
  | None => inl (server_close s)
  | Some s' => inr (server_activate s')
  end.

End socketserver.

(** ** [server.py] *)

Module server.

Definition PORT : N := 13883%N.

(** A client connection as the server meets it: one whose requests arrive
    and whose stream then ends, or one that stays open without sending a
    request line, on which [rfile.readline] does not return (no socket
    timeout is set). *)
Inductive connection :=
| Conn (peer : string * N) (requests : list raw_request)
| Stalled (peer : string * N).

Inductive status :=
| Exited (code : N)     (* the process has ended with this exit status *)
| Waiting               (* in [serve_forever], waiting for a connection *)
| InHandler.            (* in [serve_forever], inside a handler that waits
                           for its client *)

Record process := {
  printed : list string;            (* standard output, one per [print] *)
  httpd : socketserver.TCPServer;
  served : list (list chunk);       (* bytes written per connection handled *)
  state : status
}.

Section Program.

Variable L : pylib.
Variable fs : filesystem.
(** [Path(__file__).parent], the directory that holds [server.py]. *)
Variable parent : string.

Definition DIRECTORY : string := posixpath.join parent "src".

(** *** [class MyHTTPRequestHandler(http.server.SimpleHTTPRequestHandler)] *)

Definition server_version : string := "SimpleHTTP/0.6".

Definition end_headers : M unit :=
  http_server.send_header "Access-Control-Allow-Origin" "*" ;;
  http_server.send_header "Access-Control-Allow-Methods" "GET, POST, OPTIONS" ;;
  http_server.send_header "Access-Control-Allow-Headers" "Content-Type" ;;
  http_server.end_headers.

(** [log_message(format, *args)], with [message = format % args]. *)
Definition log_message (message : string) : M unit :=
  addr <- http_server.address_string ;;
  modify (fun h =>
    set_stdout (stdout h ++ [("[请求] " ++ addr ++ " - " ++ message)%string])%list h).

(** The inherited methods, with [self] bound to this class. *)
Definition send_error : nat -> option string -> option string -> M unit :=
  http_server.send_error L server_version end_headers log_message.

Definition translate_path : string -> string :=
  http_server.translate_path L DIRECTORY.

Definition send_head : M (option string) :=
  http_server.send_head L fs server_version DIRECTORY end_headers log_message.

Definition do_GET : M unit :=
  http_server.do_GET L fs server_version DIRECTORY end_headers log_message.

Definition do_HEAD : M unit :=
  http_server.do_HEAD L fs server_version DIRECTORY end_headers log_message.

(** [getattr(self, 'do_' + command)]: the class has [do_GET] and
    [do_HEAD] and no other [do_] method. *)
Definition method (cmd : string) : option (M unit) :=
  if cmd =? "GET" then Some do_GET
  else if cmd =? "HEAD" then Some do_HEAD
  else None.

Definition parse_request : raw_request -> M bool :=
  http_server.parse_request L server_version end_headers log_message.

Definition handle_one_request : M unit :=
  http_server.handle_one_request L server_version end_headers log_message
    method.

Definition handle : M unit :=
  http_server.handle L server_version end_headers log_message method.

(** The handler object as [__init__] leaves it before [handle] runs;
    [out] is what the process has printed so far. *)
Definition new_handler (client : string * N) (requests : list raw_request)
    (out : list string) : handler :=
  {| client_address := client; rfile := requests; requestline := "";
     request_version := ""; command := None; path := ""; headers := [];
     close_connection := true; _headers_buffer := []; wfile := [];
     stdout := out |}.

(** [MyHTTPRequestHandler(request, client_address, server)]:
    [BaseRequestHandler.__init__] runs [handle]. *)
Definition MyHTTPRequestHandler (client : string * N)
    (requests : list raw_request) (out : list string) : handler :=
  exec handle (new_handler client requests out).

(** *** [start_server] *)

(** [serve_forever] over the connections that arrive, in order.
    [TCPServer.process_request] is [finish_request] followed by
    [shutdown_request], run by the loop itself: the next connection is
    accepted when the handler has returned.  The result is the output so
    far, the bytes written per connection, and whether the loop is held
    inside a handler. *)
Fixpoint serve_forever (conns : list connection) (out : list string)
    (done : list (list chunk)) : list string * list (list chunk) * bool :=
  match conns with
  | [] => (out, done, false)
  | Conn peer requests :: rest =>
      let h := MyHTTPRequestHandler peer requests out in
      serve_forever rest (stdout h) (done ++ [wfile h])%list
  | Stalled peer :: rest => (out, done, true)
  end.

Definition banner : list string :=
  [ Str.repeat "=" 60;
    "静态服务器已启动";
    Str.repeat "=" 60;
    "访问地址: http://localhost:" ++ Str.of_N PORT;
    "访问地址: http://127.0.0.1:" ++ Str.of_N PORT;
    "工作目录: " ++ DIRECTORY;
    "按 Ctrl+C 停止服务器";
    Str.repeat "=" 60 ].

(** [start_server()] as the whole process: [os] is the host at start,
    [conns] the connections that arrive, [interrupt] whether Ctrl+C is
    pressed after them.  An OSError out of the [TCPServer] constructor is
    caught nowhere: the interpreter prints the traceback and ends with
    exit status 1.  KeyboardInterrupt ends [serve_forever]; the [with]
    block closes the server and the process ends with status 0. *)
Definition start_server (os : socketserver.host) (conns : list connection)
    (interrupt : bool) : process :=
  match socketserver.init os ("", PORT) with
  | inl closed =>
      {| printed := []; httpd := closed; served := []; state := Exited 1 |}
  | inr httpd =>
      let '(out, done, held) := serve_forever conns banner [] in
      if interrupt then
        {| printed :=
             (out ++ [(http_server.nl ++ http_server.nl ++ "服务器已停止")%string])%list;
           httpd := socketserver.server_close httpd;
           served := done; state := Exited 0 |}
      else
        {| printed := out; httpd := httpd; served := done;
           state := if held then InHandler else Waiting |}
  end.

End Program.

End server.

(** ** Vocabulary of the properties *)

(** The three headers [end_headers] of [server.py] adds. *)
Definition cors_headers : list hline :=
  [ HeaderLine "Access-Control-Allow-Origin" "*";
    HeaderLine "Access-Control-Allow-Methods" "GET, POST, OPTIONS";
    HeaderLine "Access-Control-Allow-Headers" "Content-Type" ].

Definition cors_key (k : string) : bool :=
  (k =? "Access-Control-Allow-Origin")
  || (k =? "Access-Control-Allow-Methods")
  || (k =? "Access-Control-Allow-Headers").

(** A header line under a keyword other than the three above. *)
Definition library_header (l : hline) : Prop :=
  match l with
  | HeaderLine k _ => cors_key k = false
  | _ => False
  end.

(** A header block as every response of this server carries it: the
    status line, the library's headers, the three CORS headers, the blank
    line. *)
Inductive response_head : list hline -> Prop :=
| response_head_intro v c m hs :
    Forall library_header hs ->
    response_head (StatusLine v c m :: hs ++ cors_headers ++ [EndOfHeaders])%list.

Definition is_body (c : chunk) : Prop :=
  match c with WBody _ => True | WHeaders _ => False end.

(** The status code of a response, read from the status line of its
    header block. *)
Definition status_of (response : list chunk) : option nat :=
  match response with
  | WHeaders (StatusLine _ code _ :: _) :: _ => Some code
  | _ => None
  end.

(** The header lines of a response. *)
Definition headers_of (response : list chunk) : list hline :=
  match response with
  | WHeaders (_ :: lines) :: _ => lines
  | _ => []
  end.

(** The body of a response: the body bytes written, in order. *)
Fixpoint body_of (response : list chunk) : string :=
  match response with
  | [] => ""
  | WBody d :: rest => d ++ body_of rest
  | WHeaders _ :: rest => body_of rest
  end.

(** Stages of a handler at work on a request whose [request_version] is
    [v]: nothing written yet; a header block under construction; the
    header block written (none under HTTP/0.9) and only body bytes after
    it. *)
Definition Idle (h : handler) : Prop :=
  wfile h = [] /\ _headers_buffer h = [].

Definition Fresh (v : string) (h : handler) : Prop :=
  request_version h = v /\ wfile h = [] /\ _headers_buffer h = []
  /\ close_connection h = true.

Definition Building (v : string) (h : handler) : Prop :=
  request_version h = v /\ wfile h = [] /\ close_connection h = true
  /\ if v =? "HTTP/0.9" then _headers_buffer h = []
     else exists pv c m hs,
         _headers_buffer h = StatusLine pv c m :: hs
         /\ Forall library_header hs.

Definition Done (v : string) (h : handler) : Prop :=
  request_version h = v /\ _headers_buffer h = []
  /\ close_connection h = true
  /\ if v =? "HTTP/0.9" then Forall is_body (wfile h)
     else exists block rest,
         wfile h = WHeaders block :: rest
         /\ response_head block /\ Forall is_body rest.

(** Partial correctness of a method: from a state in [P], the result and
    the final state are in [Q].  Methods are total functions, so this is
    total correctness. *)
Definition hoare {A} (P : handler -> Prop) (m : M A)
    (Q : A -> handler -> Prop) : Prop :=
  forall h, P h -> Q (fst (m h)) (snd (m h)).

(** A request line the parser accepts with a version word: the command,
    the path, the version word [v], and a header section that parses. *)
Definition versioned_request (L : pylib) (raw : raw_request)
    (cmd p v : string) (hs : list (string * string)) : Prop :=
  (65536 <? N.of_nat (String.length (raw_requestline raw)))%N = false
  /\ Str.split_ws (Str.rstrip Str.is_crlf (raw_requestline raw)) = [cmd; p; v]
  /\ (exists base vn, http_server.parse_version L v = Some (base, vn)
                      /\ pair_ge vn (2, 0)%Z = false)
  /\ raw_headers raw = HeadersOK hs.

(** [self.path] as [parse_request] stores it. *)
Definition stored_path (p : string) : string :=
  if Str.startswith "//" p then "/" ++ Str.lstrip Str.is_slash p else p.

(** What [send_error] writes: the header block unless the request is
    HTTP/0.9, then the error page unless the command is HEAD. *)
Definition error_page (code : nat) (message : string) : string :=
  http_server.error_message_format code (Str.html_escape message)
    (Str.html_escape
       match HTTPStatus.responses code with
       | Some (_, long) => long
       | None => "???"
       end).

Definition error_response (L : pylib) (v : string) (code : nat)
    (message : string) (head_only : bool) : list chunk :=
  ((if v =? "HTTP/0.9" then []
    else [WHeaders
            ([ StatusLine "HTTP/1.0" code message;
               HeaderLine "Server" ("SimpleHTTP/0.6 " ++ sys_version L);
               HeaderLine "Date" (formatdate L None);
               HeaderLine "Connection" "close";
               HeaderLine "Content-Type" "text/html;charset=utf-8";
               HeaderLine "Content-Length"
                 (Str.of_nat (String.length (error_page code message))) ]
             ++ cors_headers ++ [EndOfHeaders])])
   ++ if head_only then [] else [WBody (error_page code message)])%list.

(** The two lines [send_error] prints through [log_message]. *)
Definition error_log (client : string * N) (requestline : string)
    (code : nat) (message : string) : list string :=
  [ "[请求] " ++ fst client ++ " - code " ++ Str.of_nat code
      ++ ", message " ++ message;
    "[请求] " ++ fst client ++ " - " ++ Str.dq ++ requestline ++ Str.dq
      ++ " " ++ Str.of_nat code ++ " -" ].

(** The line [send_response] prints through [log_message]. *)
Definition request_log (client : string * N) (requestline : string)
    (code : nat) : string :=
  "[请求] " ++ fst client ++ " - " ++ Str.dq ++ requestline ++ Str.dq
    ++ " " ++ Str.of_nat code ++ " -".


(** A response that begins with its one header block, the block ending in
    the three CORS headers, and has only body bytes after it. *)
Definition carries_cors (response : list chunk) : Prop :=
  exists block rest,
    response = WHeaders block :: rest
    /\ response_head block /\ Forall is_body rest.

(** Nothing written and the connection marked for closing, whatever the
    version; and the two ways the handling of a request ends. *)
Definition Open (h : handler) : Prop :=
  wfile h = [] /\ _headers_buffer h = [] /\ close_connection h = true.

Definition Settled (h : handler) : Prop :=
  Open h \/ Done (request_version h) h.

(** A field update that leaves the output side and the connection flag
    alone. *)
Definition quiet (f : handler -> handler) : Prop :=
  forall h, request_version (f h) = request_version h
            /\ wfile (f h) = wfile h
            /\ _headers_buffer (f h) = _headers_buffer h
            /\ close_connection (f h) = close_connection h.

(** The handler as [parse_request] leaves it on an accepted request. *)
Definition parsed (h : handler) (rl cmd p v : string)
    (hs : list (string * string)) : handler :=
  {| client_address := client_address h; rfile := rfile h;
     requestline := rl; request_version := v; command := Some cmd;
     path := stored_path p; headers := hs; close_connection := true;
     _headers_buffer := _headers_buffer h; wfile := wfile h;
     stdout := stdout h |}.

(** Effects of the output methods on the handler, in either protocol
    mode. *)
Definition logged (msg : string) (h : handler) : handler :=
  set_stdout
    (stdout h ++ [("[请求] " ++ fst (client_address h) ++ " - " ++ msg)%string])%list h.

Definition buffered (ls : list hline) (h : handler) : handler :=
  if request_version h =? "HTTP/0.9" then h
  else set_headers_buffer (_headers_buffer h ++ ls)%list h.

Definition flushed (h : handler) : handler :=
  if request_version h =? "HTTP/0.9" then h
  else set_headers_buffer []
         (set_wfile
            (wfile h ++ [WHeaders (_headers_buffer h ++ [EndOfHeaders])])%list h).

Definition written (data : string) (h : handler) : handler :=
  set_wfile (wfile h ++ [WBody data])%list h.

(** The reason phrase [send_response_only] uses. *)
Definition reason (code : nat) (message : option string) : string :=
  match message with
  | Some m => m
  | None => match HTTPStatus.responses code with
            | Some (phrase, _) => phrase
            | None => ""
            end
  end.

(** The lines [send_response] puts into the buffer. *)
Definition response_lines (L : pylib) (code : nat) (message : option string)
  : list hline :=
  [ StatusLine "HTTP/1.0" code (reason code message);
    HeaderLine "Server" ("SimpleHTTP/0.6 " ++ sys_version L);
    HeaderLine "Date" (formatdate L None) ].

(** The lines [send_error] puts into the buffer before [end_headers]. *)
Definition error_lines (L : pylib) (code : nat) (msg : string) : list hline :=
  [ StatusLine "HTTP/1.0" code msg;
    HeaderLine "Server" ("SimpleHTTP/0.6 " ++ sys_version L);
    HeaderLine "Date" (formatdate L None);
    HeaderLine "Connection" "close";
    HeaderLine "Content-Type" "text/html;charset=utf-8";
    HeaderLine "Content-Length"
      (Str.of_nat (String.length (error_page code msg))) ].

(** Codes for which [send_error] sends a body. *)
Definition has_body (code : nat) : bool :=
  ((200 <=? code) && negb ((code =? HTTPStatus.NO_CONTENT)
     || (code =? HTTPStatus.RESET_CONTENT)
     || (code =? HTTPStatus.NOT_MODIFIED)))%nat.

(** Every line printed while handling a connection of [client], beyond
    what [out] held before, has the form [[请求] <ip> - <message>]. *)
Definition log_form (client : string * N) (out : list string)
    (h : handler) : Prop :=
  client_address h = client
  /\ exists msgs,
      stdout h
      = (out ++ map (fun m => ("[请求] " ++ fst client ++ " - " ++ m)%string) msgs)%list.

(** *** Path names inside a directory *)

(** A path component that is a plain name. *)
Definition simple_name (w : string) : Prop :=
  w <> "" /\ w <> "." /\ w <> ".." /\ Str.contains Str.slash w = false.

(** The path names made of [dir] followed by plain names, each joined on
    as [posixpath.join] does, with or without slashes at the end: no
    component is [..], so none of them leaves [dir]. *)
Inductive inside (dir : string) : string -> Prop :=
| inside_root : inside dir dir
| inside_child q w :
    inside dir q -> simple_name w -> inside dir (posixpath.join q w)
| inside_slash q : inside dir q -> inside dir (q ++ "/").

(** The connections that [serve_forever] meets as ones that end. *)
Definition is_Conn (c : server.connection) : Prop :=
  match c with server.Conn _ _ => True | server.Stalled _ => False end.

(** An HTTP/0.9 request line as the parser accepts it: [GET] and a path,
    no version word. *)
Definition simple_request (raw : raw_request) (p : string)
    (hs : list (string * string)) : Prop :=
  (65536 <? N.of_nat (String.length (raw_requestline raw)))%N = false
  /\ Str.split_ws (Str.rstrip Str.is_crlf (raw_requestline raw)) = ["GET"; p]
  /\ raw_headers raw = HeadersOK hs.

(** A request [parse_request] accepts, with the command, path, headers and
    [request_version] it records. *)
Definition accepted_request (L : pylib) (raw : raw_request)
    (cmd p v : string) (hs : list (string * string)) : Prop :=
  versioned_request L raw cmd p v hs
  \/ (cmd = "GET" /\ v = "HTTP/0.9" /\ simple_request raw p hs).

(** The header lines of a 200 answer for a file, before the CORS
    headers. *)
Definition file_lines (L : pylib) (path : string) (size : nat) (mtime : Z)
  : list hline :=
  (response_lines L HTTPStatus.OK None
   ++ [ HeaderLine "Content-type" (http_server.guess_type L path);
        HeaderLine "Content-Length" (Str.of_nat size);
        HeaderLine "Last-Modified" (formatdate L (Some mtime)) ])%list.

(** ** A concrete installation, for the examples *)

Module Example.

(** [int(s)] on strings of ASCII digits. *)
Fixpoint digits (s : string) (acc : Z) : option Z :=
  match s with
  | "" => Some acc
  | String c s' =>
      let n := nat_of_ascii c in
      if ((48 <=? n) && (n <=? 57))%nat
      then digits s' (10 * acc + Z.of_nat (n - 48))%Z
      else None
  end.

Definition modified : Z := 1767225600.   (* 2026-01-01 00:00:00 UTC *)

(** The library as it behaves on the values of the examples: paths
    without percent escapes, words without quotes, one known date. *)
Definition lib : pylib := {|
  unquote := fun s => s;
  py_repr := fun s => "'" ++ s ++ "'";
  py_int := fun s => if s =? "" then None else digits s 0;
  sys_version := "Python/3.11.2";
  formatdate := fun t =>
    match t with
    | None => "Sun, 01 Feb 2026 00:00:00 GMT"
    | Some _ => "Thu, 01 Jan 2026 00:00:00 GMT"
    end;
  mimetypes_guess_type := fun p =>
    if posixpath.splitext_ext p =? ".html" then Some "text/html" else None;
  parsedate_utc := fun v =>
    if v =? "Thu, 01 Jan 2026 00:00:00 GMT" then Some modified else None;
  urlsplit_path := fun u => Str.before "#"%char (Str.before "?"%char u);
  urlunsplit_slash := fun u => u ++ "/";
  getfilesystemencoding := "utf-8";
  listing_page := fun _ _ _ => "<!DOCTYPE HTML>"
|}.

(** [server.py] lives in [/srv/app]; its [src] holds [index.html]. *)
Definition parent : string := "/srv/app".

Definition fs : filesystem := fun p =>
  if p =? "/srv/app/src" then
    Dir (Some [{| entry_name := "index.html"; entry_isdir := false;
                  entry_islink := false |}])
  else if p =? "/srv/app/src/index.html" then File "<h1>hi</h1>" modified
  else Missing.

(** The same, with a file outside the directory. *)
Definition fs_passwd : filesystem := fun p =>
  if p =? "/etc/passwd" then File "root:x:0:0:root:/root:/bin/bash" 0
  else fs p.


Definition client : string * N := ("127.0.0.1", 54321%N).

Definition request (line : string) (hs : list (string * string))
  : raw_request :=
  {| raw_requestline := line ++ Str.CRLF; raw_headers := HeadersOK hs |}.

(** The handler's state after one request of [client]. *)
Definition answer (files : filesystem) (line : string)
    (hs : list (string * string)) : handler :=
  server.MyHTTPRequestHandler lib files parent client [request line hs] [].

Definition free_host : socketserver.host :=
  {| socketserver.port_in_use := fun _ => false |}.


End Example.

(** ** Vocabulary of the further properties *)

(** The handler with [r] left to read and [o] printed before what it has
    printed. *)
Definition shift (r : list raw_request) (o : list string) (h : handler)
  : handler :=
  set_rfile r (set_stdout (o ++ stdout h)%list h).

(** A method that reads neither [rfile] nor what has been printed: it
    runs the same, whatever is left to read and whatever was printed
    before. *)
Definition commutes {A} (m : M A) : Prop :=
  forall r o h, m (shift r o h) = (fst (m h), shift r o (snd (m h))).

(** What a connection is answered and what is printed for it when it is
    the only one served: the handler's run on the connection's first
    request, with nothing printed before. *)
Definition alone (L : pylib) (fs : filesystem) (parent : string)
    (c : server.connection) : handler :=
  match c with
  | server.Conn peer requests =>
      server.MyHTTPRequestHandler L fs parent peer (firstn 1 requests) []
  | server.Stalled peer => server.new_handler peer [] []
  end.

(** The response [send_head] and [copyfile] make for a regular file:
    304 without body for a conditional request the file satisfies,
    otherwise the 200 header block and, unless only the head is wanted or
    the file is empty, the bytes of the file. *)
Definition file_response (L : pylib) (v path data : string) (mtime : Z)
    (hs : list (string * string)) (head_only : bool) : list chunk :=
  if http_server.not_modified_since L hs mtime then
    if v =? "HTTP/0.9" then []
    else [WHeaders (response_lines L HTTPStatus.NOT_MODIFIED None
                    ++ cors_headers ++ [EndOfHeaders])%list]
  else
    ((if v =? "HTTP/0.9" then []
      else [WHeaders (file_lines L path (String.length data) mtime
                      ++ cors_headers ++ [EndOfHeaders])%list])
     ++ if head_only || (data =? "") then [] else [WBody data])%list.

(** The header block of a redirection to [location]. *)
Definition redirect_response (L : pylib) (v location : string) : list chunk :=
  if v =? "HTTP/0.9" then []
  else [WHeaders (response_lines L HTTPStatus.MOVED_PERMANENTLY None
                  ++ [ HeaderLine "Location" location;
                       HeaderLine "Content-Length" "0" ]
                  ++ cors_headers ++ [EndOfHeaders])%list].

(** The response that carries the listing [page] of a directory. *)
Definition listing_response (L : pylib) (v page : string) (head_only : bool)
  : list chunk :=
  ((if v =? "HTTP/0.9" then []
    else [WHeaders (response_lines L HTTPStatus.OK None
                    ++ [ HeaderLine "Content-type"
                           ("text/html; charset=" ++ getfilesystemencoding L);
                         HeaderLine "Content-Length"
                           (Str.of_nat (String.length page)) ]
                    ++ cors_headers ++ [EndOfHeaders])%list])
   ++ if head_only || (page =? "") then [] else [WBody page])%list.

(** A larger installation: [src] holds [index.html], a directory
    [assets] with a script and no index file, a directory that cannot be
    listed and a file that cannot be opened. *)
Module Site.

Definition entry (name : string) (isdir : bool) : dir_entry :=
  {| entry_name := name; entry_isdir := isdir; entry_islink := false |}.

Definition fs : filesystem := fun p =>
  if (p =? "/srv/app/src") || (p =? "/srv/app/src/") then
    Dir (Some [entry "assets" true; entry "index.html" false;
               entry "locked" true; entry "secret.key" false])
  else if p =? "/srv/app/src/index.html" then
    File "<h1>hi</h1>" Example.modified
  else if (p =? "/srv/app/src/assets") || (p =? "/srv/app/src/assets/") then
    Dir (Some [entry "app.js" false])
  else if p =? "/srv/app/src/assets/app.js" then
    File "let a = 1;" Example.modified
  else if (p =? "/srv/app/src/locked") || (p =? "/srv/app/src/locked/") then
    Dir None
  else if p =? "/srv/app/src/secret.key" then NoAccess
  else Missing.

Definition answer (line : string) (hs : list (string * string)) : handler :=
  server.MyHTTPRequestHandler Example.lib fs Example.parent Example.client
    [Example.request line hs] [].

(** A request with more header lines than [http.client] reads. *)
Definition crowded : raw_request :=
  {| raw_requestline := "GET /index.html HTTP/1.1" ++ Str.CRLF;
     raw_headers := TooManyHeaders "got more than 100 headers" |}.

End Site.

(** Each kind of response is, for HEAD, the one for GET without its
    body. *)
Definition head_of (resp : bool -> list chunk) : Prop :=
  body_of (resp true) = ""
  /\ exists bodies,
      resp false = (resp true ++ bodies)%list /\ Forall is_body bodies.

(** The responses [send_head] and its caller make, each as a function of
    whether only the head is wanted. *)
Inductive response_form (L : pylib) (v : string)
  : (bool -> list chunk) -> Prop :=
| form_redirect location :
    response_form L v (fun _ => redirect_response L v location)
| form_file path data mtime hs :
    response_form L v (file_response L v path data mtime hs)
| form_listing page :
    response_form L v (listing_response L v page)
| form_error code msg :
    response_form L v (error_response L v code msg).

(** The error response whose page carries the explanation [explain]
    in place of the one [responses] has for the code. *)
Definition explained_response (L : pylib) (v : string) (code : nat)
    (message explain : string) (head_only : bool) : list chunk :=
  let page :=
    http_server.error_message_format code (Str.html_escape message)
      (Str.html_escape explain) in
  ((if v =? "HTTP/0.9" then []
    else [WHeaders
            ([ StatusLine "HTTP/1.0" code message;
               HeaderLine "Server" ("SimpleHTTP/0.6 " ++ sys_version L);
               HeaderLine "Date" (formatdate L None);
               HeaderLine "Connection" "close";
               HeaderLine "Content-Type" "text/html;charset=utf-8";
               HeaderLine "Content-Length" (Str.of_nat (String.length page)) ]
             ++ cors_headers ++ [EndOfHeaders])])
   ++ if head_only then [] else [WBody page])%list.

(** * Verification *)

Open Scope monad_scope.

Arguments String.eqb : simpl never.

(** ** Rules of the method logic *)

Lemma hoare_ret {A} (P : handler -> Prop) (Q : A -> handler -> Prop) a :
  (forall h, P h -> Q a h) -> hoare P (ret a) Q.
Proof. intros H h Hp. apply H, Hp. Qed.

Lemma hoare_bind {A B} (P : handler -> Prop) (R : A -> handler -> Prop)
    (Q : B -> handler -> Prop) (m : M A) (k : A -> M B) :
  hoare P m R -> (forall a, hoare (R a) (k a) Q) -> hoare P (bind m k) Q.
Proof.
  intros Hm Hk h Hp. unfold bind.
  specialize (Hm h Hp). destruct (m h) as [a h']. apply Hk, Hm.
Qed.

Lemma hoare_pre {A} (P P' : handler -> Prop) (m : M A) Q :
  (forall h, P h -> P' h) -> hoare P' m Q -> hoare P m Q.
Proof. intros Hi Hm h Hp. apply Hm, Hi, Hp. Qed.

Lemma hoare_post {A} (P : handler -> Prop) (m : M A)
    (Q Q' : A -> handler -> Prop) :
  (forall a h, Q a h -> Q' a h) -> hoare P m Q -> hoare P m Q'.
Proof. intros Hi Hm h Hp. apply Hi, Hm, Hp. Qed.

Lemma hoare_gets {A} (P : handler -> Prop) (f : handler -> A) :
  hoare P (gets f) (fun a h => P h /\ a = f h).
Proof. intros h Hp. split; [exact Hp | reflexivity]. Qed.

Lemma hoare_modify (P Q : handler -> Prop) (f : handler -> handler) :
  (forall h, P h -> Q (f h)) -> hoare P (modify f) (fun _ => Q).
Proof. intros H h Hp. apply H, Hp. Qed.

Lemma hoare_when (P : handler -> Prop) (b : bool) (m : M unit) :
  hoare P m (fun _ => P) -> hoare P (when b m) (fun _ => P).
Proof. intros Hm. destruct b; [exact Hm | apply hoare_ret; auto]. Qed.

(** ** Running methods by rewriting *)

Lemma bind_eq {A B} (m : M A) (k : A -> M B) h :
  bind m k h = k (fst (m h)) (snd (m h)).
Proof. unfold bind. destruct (m h); reflexivity. Qed.

Lemma run_bind {A B} (m : M A) (k : A -> M B) h a h1 r :
  m h = (a, h1) -> k a h1 = r -> bind m k h = r.
Proof. intros Hm Hk. unfold bind. rewrite Hm. exact Hk. Qed.

Lemma bind_cong {A B} (m : M A) (k1 k2 : A -> M B) h :
  (forall a h', k1 a h' = k2 a h') -> bind m k1 h = bind m k2 h.
Proof. intros Hk. unfold bind. destruct (m h). apply Hk. Qed.

Ltac fields :=
  cbn [client_address rfile requestline request_version command path headers
       close_connection _headers_buffer wfile stdout self_path
       set_rfile set_requestline set_request_version set_command set_path
       set_headers set_close_connection set_headers_buffer set_wfile
       set_stdout fst snd].

Ltac run :=
  unfold gets, modify, ret, when;
  repeat (progress (rewrite ?bind_eq; cbv beta iota zeta; cbn [negb andb]; fields)).

Ltac observe Hv :=
  unfold logged, buffered, flushed, written;
  repeat (progress (fields; rewrite ?Hv)).

Ltac setters :=
  cbv beta; cbn [negb];
  unfold set_rfile, set_requestline, set_request_version, set_command,
    set_path, set_headers, set_close_connection, set_headers_buffer,
    set_wfile, set_stdout;
  fields.

Lemma quiet_Fresh f v h : quiet f -> Fresh v h -> Fresh v (f h).
Proof.
  intros Hq (Hv & Hw & Hb & Hc). destruct (Hq h) as (E1 & E2 & E3 & E4).
  unfold Fresh. rewrite E1, E2, E3, E4. auto.
Qed.

Section Methods.

Variable L : pylib.
Variable fs : filesystem.
Variable parent : string.

Local Abbreviation sv := server.server_version.
Local Abbreviation logm := server.log_message.
Local Abbreviation endh := server.end_headers.

Lemma log_message_Fresh v msg : hoare (Fresh v) (logm msg) (fun _ => Fresh v).
Proof.
  intros h Hf. unfold server.log_message, http_server.address_string, bind, gets, modify.
  cbn. apply quiet_Fresh; [| exact Hf]. intros h'. cbn. auto.
Qed.

Lemma send_response_only_spec v code msg :
  hoare (Fresh v) (http_server.send_response_only code msg) (fun _ => Building v).
Proof.
  intros h (Hv & Hw & Hb & Hc).
  unfold http_server.send_response_only, bind, gets, when, modify, ret, Building.
  cbn. rewrite Hv. destruct (v =? "HTTP/0.9") eqn:E; cbn; rewrite ?E.
  - auto.
  - split; [auto | split; [auto | split; [auto |]]].
    rewrite Hb. cbn. do 3 eexists. exists []. split; [reflexivity | constructor].
Qed.

Lemma send_header_spec v k val :
  cors_key k = false ->
  (Str.lower k =? "connection") = false \/ Str.lower val = "close" ->
  hoare (Building v) (http_server.send_header k val) (fun _ => Building v).
Proof.
  intros Hk Hconn h (Hv & Hw & Hc & Hb).
  assert (Hcc : forall h0, Building v h0 ->
     Building v (snd (when (Str.lower k =? "connection")
        (if Str.lower val =? "close" then modify (set_close_connection true)
         else when (Str.lower val =? "keep-alive")
                (modify (set_close_connection false))) h0))).
  { intros h0 Hb0. destruct Hconn as [-> | ->]; [exact Hb0|].
    cbn. destruct (Str.lower k =? "connection"); cbn; [| exact Hb0].
    destruct Hb0 as (? & ? & ? & ?). repeat split; auto. }
  unfold http_server.send_header, bind, gets. cbn. rewrite Hv.
  destruct (v =? "HTTP/0.9") eqn:E; cbn.
  - apply Hcc. unfold Building. rewrite E. auto.
  - match goal with |- Building v (snd (when _ _ ?h0)) => apply (Hcc h0) end.
    unfold Building. cbn. rewrite E.
    split; [auto | split; [auto | split; [auto |]]].
    destruct Hb as (pv & c & m & hs & -> & Hall).
    exists pv, c, m, (hs ++ [HeaderLine k val])%list. split; [reflexivity|].
    apply Forall_app. split; [exact Hall|]. constructor; [exact Hk | constructor].
Qed.

Lemma send_header_eq k val h :
  (Str.lower k =? "connection") = false ->
  http_server.send_header k val h =
  (tt, if request_version h =? "HTTP/0.9" then h
       else set_headers_buffer (_headers_buffer h ++ [HeaderLine k val]) h).
Proof.
  intros Hk. unfold http_server.send_header, bind, gets, when, modify, ret.
  rewrite Hk. destruct (request_version h =? "HTTP/0.9"); reflexivity.
Qed.

Lemma end_headers_spec v : hoare (Building v) endh (fun _ => Done v).
Proof.
  intros h (Hv & Hw & Hc & Hb).
  assert (Hrv : (request_version h =? "HTTP/0.9") = (v =? "HTTP/0.9"))
    by (rewrite Hv; reflexivity).
  unfold server.end_headers, bind.
  rewrite !send_header_eq by reflexivity.
  unfold http_server.end_headers, http_server.flush_headers, bind, gets, when,
    modify, ret, Done.
  destruct (v =? "HTTP/0.9") eqn:E; repeat (rewrite Hrv; cbn).
  - rewrite Hw. auto.
  - split; [auto | split; [auto | split; [auto |]]].
    rewrite Hw. cbn. destruct Hb as (pv & c & m & hs & -> & Hall).
    eexists. exists []. split; [reflexivity |]. split; [| constructor].
    repeat rewrite <- app_assoc. cbn.
    apply (response_head_intro pv c m hs Hall).
Qed.

Lemma wfile_write_spec v data :
  hoare (Done v) (http_server.wfile_write data) (fun _ => Done v).
Proof.
  intros h (Hv & Hb & Hc & Hw). unfold http_server.wfile_write, modify, Done. cbn.
  split; [auto | split; [auto | split; [auto |]]].
  destruct (v =? "HTTP/0.9").
  - apply Forall_app. split; [exact Hw | constructor; [exact I | constructor]].
  - destruct Hw as (block & rest & -> & Hh & Hr).
    exists block, (rest ++ [WBody data])%list. split; [reflexivity |]. split; [exact Hh |].
    apply Forall_app. split; [exact Hr | constructor; [exact I | constructor]].
Qed.

Lemma log_request_spec v code :
  hoare (Fresh v) (http_server.log_request logm code) (fun _ => Fresh v).
Proof.
  unfold http_server.log_request.
  eapply hoare_bind; [apply hoare_gets | intros rl].
  eapply hoare_pre; [| apply log_message_Fresh]. intros h [Hf _]. exact Hf.
Qed.

Lemma send_response_spec v code msg :
  hoare (Fresh v) (http_server.send_response L sv logm code msg)
    (fun _ => Building v).
Proof.
  unfold http_server.send_response.
  eapply hoare_bind; [apply log_request_spec | intros []].
  eapply hoare_bind; [apply send_response_only_spec | intros []].
  eapply hoare_bind; [apply send_header_spec; auto | intros []].
  apply send_header_spec; auto.
Qed.

Lemma send_error_spec v code msg explain :
  hoare (Fresh v) (http_server.send_error L sv endh logm code msg explain)
    (fun _ => Done v).
Proof.
  unfold http_server.send_error.
  destruct (match HTTPStatus.responses code with Some p => p | None => ("???", "???") end)
    as [shortmsg longmsg].
  eapply hoare_bind; [apply log_message_Fresh | intros []].
  eapply hoare_bind; [apply send_response_spec | intros []].
  eapply hoare_bind; [apply send_header_spec; auto | intros []].
  match goal with |- context [if ?b then _ else _] => destruct b end.
  - eapply hoare_bind.
    { eapply hoare_bind; [apply send_header_spec; auto | intros []].
      apply send_header_spec; auto. }
    intros []. eapply hoare_bind; [apply end_headers_spec | intros []].
    eapply hoare_bind; [apply hoare_gets | intros cmd].
    eapply hoare_pre with (P' := Done v); [intros h [Hd _]; exact Hd |].
    apply hoare_when, wfile_write_spec.
  - eapply hoare_bind with (R := fun _ => Building v);
      [apply hoare_ret; auto | intros []].
    eapply hoare_bind; [apply end_headers_spec | intros []].
    eapply hoare_bind; [apply hoare_gets | intros cmd].
    apply hoare_ret. intros h [Hd _]. exact Hd.
Qed.

Lemma copyfile_spec v data :
  hoare (Done v) (http_server.copyfile data) (fun _ => Done v).
Proof. apply hoare_when, wfile_write_spec. Qed.

Lemma list_directory_spec v path :
  hoare (Fresh v) (http_server.list_directory L fs sv endh logm path)
    (fun _ => Done v).
Proof.
  unfold http_server.list_directory. destruct (os.listdir fs path) as [entries |].
  - eapply hoare_bind; [apply hoare_gets | intros reqpath].
    eapply hoare_pre with (P' := Fresh v); [intros h [Hd _]; exact Hd |].
    eapply hoare_bind; [apply send_response_spec | intros []].
    eapply hoare_bind; [apply send_header_spec; auto | intros []].
    eapply hoare_bind; [apply send_header_spec; auto | intros []].
    eapply hoare_bind; [apply end_headers_spec | intros []].
    apply hoare_ret. auto.
  - eapply hoare_bind; [apply send_error_spec | intros []]. apply hoare_ret. auto.
Qed.

Lemma send_head_file_spec v path :
  hoare (Fresh v) (http_server.send_head_file L fs sv endh logm path)
    (fun _ => Done v).
Proof.
  unfold http_server.send_head_file. destruct (Str.endswith Str.slash path).
  { eapply hoare_bind; [apply send_error_spec | intros []]. apply hoare_ret. auto. }
  destruct (os.open_rb fs path) as [[[data size] mtime] |].
  2:{ eapply hoare_bind; [apply send_error_spec | intros []]. apply hoare_ret. auto. }
  eapply hoare_bind; [apply hoare_gets | intros hs].
  eapply hoare_pre with (P' := Fresh v); [intros h [Hd _]; exact Hd |].
  match goal with |- context [if ?b then _ else _] => destruct b end.
  - eapply hoare_bind; [apply send_response_spec | intros []].
    eapply hoare_bind; [apply end_headers_spec | intros []].
    apply hoare_ret. auto.
  - eapply hoare_bind; [apply send_response_spec | intros []].
    eapply hoare_bind; [apply send_header_spec; auto | intros []].
    eapply hoare_bind; [apply send_header_spec; auto | intros []].
    eapply hoare_bind; [apply send_header_spec; auto | intros []].
    eapply hoare_bind; [apply end_headers_spec | intros []].
    apply hoare_ret. auto.
Qed.

Lemma send_head_spec v :
  hoare (Fresh v) (server.send_head L fs parent) (fun _ => Done v).
Proof.
  unfold server.send_head, http_server.send_head.
  eapply hoare_bind; [apply hoare_gets | intros reqpath].
  eapply hoare_pre with (P' := Fresh v); [intros h [Hd _]; exact Hd |].
  destruct (os.isdir fs _); [| apply send_head_file_spec].
  destruct (negb _).
  { eapply hoare_bind; [apply send_response_spec | intros []].
    eapply hoare_bind; [apply send_header_spec; auto | intros []].
    eapply hoare_bind; [apply send_header_spec; auto | intros []].
    eapply hoare_bind; [apply end_headers_spec | intros []].
    apply hoare_ret. auto. }
  destruct (os.isfile fs _); [apply send_head_file_spec |].
  destruct (os.isfile fs _); [apply send_head_file_spec |].
  apply list_directory_spec.
Qed.

Lemma do_GET_spec v : hoare (Fresh v) (server.do_GET L fs parent) (fun _ => Done v).
Proof.
  unfold server.do_GET, http_server.do_GET.
  eapply hoare_bind; [apply send_head_spec | intros [data |]].
  - apply copyfile_spec.
  - apply hoare_ret. auto.
Qed.

Lemma do_HEAD_spec v : hoare (Fresh v) (server.do_HEAD L fs parent) (fun _ => Done v).
Proof.
  unfold server.do_HEAD, http_server.do_HEAD.
  eapply hoare_bind; [apply send_head_spec | intros f]. apply hoare_ret. auto.
Qed.


Lemma hoare_any_version {A} (m : M A) :
  (forall v, hoare (Fresh v) m (fun _ => Done v)) ->
  hoare Open m (fun _ => Settled).
Proof.
  intros H h (Hw & Hb & Hc). right.
  assert (Hd := H (request_version h) h (conj eq_refl (conj Hw (conj Hb Hc)))).
  cbv beta in Hd. pose proof Hd as [Hv _]. rewrite Hv. exact Hd.
Qed.

Lemma hoare_if {A} (P : handler -> Prop) (b : bool) (m1 m2 : M A) Q :
  (b = true -> hoare P m1 Q) -> (b = false -> hoare P m2 Q) ->
  hoare P (if b then m1 else m2) Q.
Proof. destruct b; auto. Qed.

Lemma hoare_modify_then {A} (P P' : handler -> Prop) f (k : M A) Q :
  (forall h, P h -> P' (f h)) -> hoare P' k Q ->
  hoare P (modify f ;; k) Q.
Proof.
  intros Hf Hk. eapply hoare_bind; [apply (hoare_modify P P' f Hf) | intros []].
  exact Hk.
Qed.

Ltac field_update :=
  let h := fresh "h" in
  intros h; unfold Open, Idle; cbn; intuition auto.

Ltac fail_with_error :=
  eapply hoare_bind with (R := fun _ : unit => Settled);
  [ apply hoare_any_version; intros ?; apply send_error_spec
  | intros []; apply hoare_ret; auto ].

Lemma parse_request_spec raw :
  hoare Idle (server.parse_request L raw)
    (fun ok h => if ok then Open h else Settled h).
Proof.
  unfold server.parse_request, http_server.parse_request.
  apply hoare_modify_then with (P' := Idle); [field_update |].
  apply hoare_modify_then with (P' := Idle); [field_update |].
  apply hoare_modify_then with (P' := Open); [field_update |].
  cbv zeta.
  apply hoare_modify_then with (P' := Open); [field_update |].
  apply hoare_if; intros _.
  { apply hoare_ret. intros h Ho. left. exact Ho. }
  eapply hoare_bind with (R := fun (ok : bool) h => if ok then Open h else Settled h).
  { apply hoare_if; intros _; [| apply hoare_ret; auto].
    destruct (http_server.parse_version L _) as [[base vn] |];
      [| fail_with_error].
    replace (str_ge http_server.protocol_version "HTTP/1.1") with false
      by reflexivity.
    rewrite andb_false_r.
    eapply hoare_bind with (R := fun _ : unit => Open);
      [apply hoare_ret; auto | intros []].
    apply hoare_if; intros _; [fail_with_error |].
    apply hoare_modify_then with (P' := Open); [field_update |].
    apply hoare_ret; auto. }
  intros [|]; cbn [negb]; [| apply hoare_ret; auto].
  apply hoare_if; intros _; [fail_with_error |].
  eapply hoare_bind with (R := fun (ok : bool) h => if ok then Open h else Settled h).
  { apply hoare_if; intros _; [| apply hoare_ret; auto].
    apply hoare_modify_then with (P' := Open); [field_update |].
    apply hoare_if; intros _; [fail_with_error | apply hoare_ret; auto]. }
  intros [|]; cbn [negb]; [| apply hoare_ret; auto].
  apply hoare_modify_then with (P' := Open); [field_update |].
  apply hoare_modify_then with (P' := Open); [field_update |].
  eapply hoare_bind with (R := fun _ : unit => Open).
  { apply hoare_when, hoare_modify. field_update. }
  intros [].
  destruct (raw_headers raw) as [hs | err | err]; try fail_with_error.
  apply hoare_modify_then with (P' := Open); [field_update |].
  replace (str_ge http_server.protocol_version "HTTP/1.1") with false
    by reflexivity.
  rewrite !andb_false_r.
  eapply hoare_bind with (R := fun _ : unit => Open).
  { apply hoare_if; intros _; [apply hoare_modify; field_update |].
    apply hoare_ret; auto. }
  intros []. eapply hoare_bind; [apply hoare_gets | intros rv].
  rewrite andb_false_l. apply hoare_ret. intros h [Ho _]. exact Ho.
Qed.


Lemma Settled_closed h : Settled h -> close_connection h = true.
Proof. intros [(_ & _ & Hc) | (_ & _ & Hc & _)]; exact Hc. Qed.

Lemma handle_one_request_spec :
  hoare Open (server.handle_one_request L fs parent) (fun _ => Settled).
Proof.
  unfold server.handle_one_request, http_server.handle_one_request.
  eapply hoare_bind; [apply hoare_gets | intros rf].
  eapply hoare_pre with (P' := Open); [intros h [Ho _]; exact Ho |].
  destruct rf as [| raw rest].
  { apply hoare_modify. intros h Ho. left. revert h Ho. field_update. }
  apply hoare_modify_then with (P' := Open); [field_update |].
  apply hoare_if; intros _.
  { apply hoare_modify_then with (P' := Open); [field_update |].
    apply hoare_modify_then with (P' := Open); [field_update |].
    apply hoare_modify_then with (P' := Open); [field_update |].
    apply hoare_any_version. intros v. apply send_error_spec. }
  apply hoare_if; intros _.
  { apply hoare_modify. intros h Ho. left. revert h Ho. field_update. }
  eapply hoare_bind.
  { eapply hoare_pre; [| apply parse_request_spec].
    intros h (Hw & Hb & _). split; assumption. }
  intros [|]; cbn [negb]; [| apply hoare_ret; auto].
  eapply hoare_bind; [apply hoare_gets | intros cmd].
  eapply hoare_pre with (P' := Open); [intros h [Ho _]; exact Ho |].
  cbv zeta. unfold server.method.
  destruct (_ =? "GET").
  { apply hoare_any_version. intros v. apply do_GET_spec. }
  destruct (_ =? "HEAD").
  { apply hoare_any_version. intros v. apply do_HEAD_spec. }
  apply hoare_any_version. intros v. apply send_error_spec.
Qed.

Lemma handle_loop_closed fuel h :
  close_connection h = true ->
  http_server.handle_loop L sv endh logm (server.method L fs parent) fuel h
  = (tt, h).
Proof.
  intros Hc. destruct fuel; [reflexivity |].
  cbn. unfold bind, gets. rewrite Hc. reflexivity.
Qed.

(** One connection carries one request: after [handle_one_request] the
    connection is marked for closing, so the loop of [handle] does not
    run. *)
Lemma handle_eq h :
  Idle h ->
  server.handle L fs parent h
  = (tt, snd (server.handle_one_request L fs parent (set_close_connection true h)))
  /\ Settled (snd (server.handle L fs parent h)).
Proof.
  intros [Hw Hb].
  assert (Hs : Settled (snd (server.handle_one_request L fs parent
                               (set_close_connection true h)))).
  { apply handle_one_request_spec. unfold Open. cbn. auto. }
  assert (E : server.handle L fs parent h
    = (tt, snd (server.handle_one_request L fs parent (set_close_connection true h)))).
  { unfold server.handle, http_server.handle, bind, modify, gets.
    fold (server.handle_one_request L fs parent).
    destruct (server.handle_one_request L fs parent (set_close_connection true h))
      as [[] h1] eqn:E1.
    cbn [snd] in Hs. apply handle_loop_closed, Settled_closed, Hs. }
  split; [exact E |]. rewrite E. exact Hs.
Qed.


(** *** Equations *)

Lemma parse_request_versioned raw cmd p v hs h :
  versioned_request L raw cmd p v hs ->
  server.parse_request L raw h
  = (true, parsed h (Str.rstrip Str.is_crlf (raw_requestline raw)) cmd p v hs).
Proof.
  intros (Hlen & Hwords & (base & vn & Hver & Hlt) & Hhs).
  unfold server.parse_request, http_server.parse_request.
  cbv zeta. rewrite Hwords. cbn [length Nat.eqb Nat.leb last nth negb andb].
  rewrite Hver, Hlt, Hhs.
  replace (str_ge http_server.protocol_version "HTTP/1.1") with false
    by reflexivity.
  rewrite !andb_false_r.
  run. unfold parsed, stored_path.
  destruct (Str.startswith "//" p); run;
    destruct (Str.lower _ =? "close"); run; reflexivity.
Qed.

Lemma log_message_eq msg h : server.log_message msg h = (tt, logged msg h).
Proof. reflexivity. Qed.

Lemma send_response_only_eq code msg h :
  http_server.send_response_only code msg h
  = (tt, buffered [StatusLine "HTTP/1.0" code (reason code msg)] h).
Proof.
  unfold http_server.send_response_only, buffered, bind, gets, when, modify, ret.
  fields. destruct (request_version h =? "HTTP/0.9"); reflexivity.
Qed.

Lemma send_header_buffered k val h :
  (Str.lower k =? "connection") = false ->
  http_server.send_header k val h = (tt, buffered [HeaderLine k val] h).
Proof. intros Hk. rewrite send_header_eq by exact Hk. reflexivity. Qed.

Lemma send_header_close h :
  http_server.send_header "Connection" "close" h
  = (tt, set_close_connection true
           (buffered [HeaderLine "Connection" "close"] h)).
Proof.
  unfold http_server.send_header, buffered, bind, gets, when, modify, ret.
  fields. destruct (request_version h =? "HTTP/0.9"); reflexivity.
Qed.

Lemma buffered_app l1 l2 h :
  buffered l2 (buffered l1 h) = buffered (l1 ++ l2) h.
Proof.
  unfold buffered. destruct (request_version h =? "HTTP/0.9") eqn:Hv.
  - rewrite Hv. reflexivity.
  - fields. rewrite Hv. setters. rewrite <- app_assoc. reflexivity.
Qed.

Lemma base_end_headers_eq h : http_server.end_headers h = (tt, flushed h).
Proof.
  unfold http_server.end_headers, http_server.flush_headers, flushed, bind,
    gets, when, modify, ret.
  destruct (request_version h =? "HTTP/0.9"); reflexivity.
Qed.

Lemma end_headers_eq h :
  server.end_headers h = (tt, flushed (buffered cors_headers h)).
Proof.
  unfold server.end_headers.
  eapply run_bind; [apply send_header_buffered; reflexivity | cbv beta].
  eapply run_bind; [apply send_header_buffered; reflexivity | cbv beta].
  eapply run_bind; [apply send_header_buffered; reflexivity | cbv beta].
  rewrite base_end_headers_eq, !buffered_app. reflexivity.
Qed.

Lemma log_request_eq code h :
  http_server.log_request server.log_message code h
  = (tt, logged (Str.dq ++ requestline h ++ Str.dq ++ " " ++ Str.of_nat code
                 ++ " -") h).
Proof. reflexivity. Qed.

Lemma send_response_eq code msg h :
  http_server.send_response L sv logm code msg h
  = (tt, buffered (response_lines L code msg)
           (logged (Str.dq ++ requestline h ++ Str.dq ++ " " ++ Str.of_nat code
                    ++ " -") h)).
Proof.
  unfold http_server.send_response.
  eapply run_bind; [apply log_request_eq | cbv beta].
  eapply run_bind; [apply send_response_only_eq | cbv beta].
  eapply run_bind; [apply send_header_buffered; reflexivity | cbv beta].
  rewrite send_header_buffered by reflexivity.
  rewrite !buffered_app. reflexivity.
Qed.


Lemma error_page_not_empty code msg explain :
  (http_server.error_message_format code msg explain =? "") = false.
Proof. reflexivity. Qed.

Lemma buffered_closing l h :
  buffered l (set_close_connection true h)
  = set_close_connection true (buffered l h).
Proof.
  unfold buffered. fields. destruct (request_version h =? "HTTP/0.9"); reflexivity.
Qed.

Lemma flushed_closing h :
  flushed (set_close_connection true h) = set_close_connection true (flushed h).
Proof.
  unfold flushed. fields. destruct (request_version h =? "HTTP/0.9"); reflexivity.
Qed.

Lemma send_error_eq code msg h :
  has_body code = true ->
  server.send_error L code (Some msg) None h
  = (tt, let h1 := set_close_connection true
                     (flushed (buffered (error_lines L code msg ++ cors_headers)
                        (logged (Str.dq ++ requestline h ++ Str.dq ++ " "
                                 ++ Str.of_nat code ++ " -")
                           (logged ("code " ++ Str.of_nat code ++ ", message "
                                    ++ msg) h)))) in
         if http_server.is_HEAD (command h) then h1
         else written (error_page code msg) h1).
Proof.
  intros Hcode.
  unfold server.send_error, http_server.send_error.
  unfold has_body in Hcode. rewrite Hcode. unfold error_lines, error_page.
  destruct (HTTPStatus.responses code) as [[shortmsg longmsg] |]; cbv zeta.
  all: unfold http_server.log_error.
  all: eapply run_bind; [apply log_message_eq | cbv beta].
  all: eapply run_bind; [apply send_response_eq | cbv beta].
  all: eapply run_bind; [apply send_header_close | cbv beta].
  all: eapply run_bind;
    [ eapply run_bind; [apply send_header_buffered; reflexivity | cbv beta];
      apply send_header_buffered; reflexivity | cbv beta ].
  all: eapply run_bind; [apply end_headers_eq | cbv beta].
  all: rewrite !buffered_closing, flushed_closing, !buffered_app.
  all: unfold gets; rewrite bind_eq; cbv beta; cbn [fst snd].
  all: rewrite error_page_not_empty, andb_true_r.
  all: unfold http_server.error_content_type.
  all: replace (command _) with (command h)
         by (unfold flushed, buffered, logged;
             destruct (request_version h =? "HTTP/0.9") eqn:Hv; observe Hv;
             reflexivity).
  all: destruct (http_server.is_HEAD (command h)); reflexivity.
Qed.


Lemma send_error_writes code msg h :
  has_body code = true ->
  wfile h = [] -> _headers_buffer h = [] ->
  wfile (snd (server.send_error L code (Some msg) None h))
  = error_response L (request_version h) code msg
      (http_server.is_HEAD (command h))
  /\ stdout (snd (server.send_error L code (Some msg) None h))
     = (stdout h ++ error_log (client_address h) (requestline h) code msg)%list.
Proof.
  intros Hcode Hw Hb. rewrite send_error_eq by exact Hcode.
  unfold error_response, error_log, error_lines. cbv zeta. cbn [snd].
  destruct (request_version h =? "HTTP/0.9") eqn:Hv;
    destruct (http_server.is_HEAD (command h));
    observe Hv; rewrite ?Hw, ?Hb; cbn [app]; rewrite <- ?app_assoc;
    split; reflexivity.
Qed.

Lemma versioned_line_not_empty raw cmd p v hs :
  versioned_request L raw cmd p v hs -> (raw_requestline raw =? "") = false.
Proof.
  intros (_ & Hwords & _). destruct (raw_requestline raw); [discriminate | reflexivity].
Qed.

Lemma handle_one_request_versioned raw rest cmd p v hs h :
  versioned_request L raw cmd p v hs ->
  rfile h = raw :: rest ->
  server.handle_one_request L fs parent h
  = match server.method L fs parent cmd with
    | None =>
        server.send_error L HTTPStatus.NOT_IMPLEMENTED
          (Some ("Unsupported method (" ++ py_repr L cmd ++ ")")) None
    | Some method => method
    end (parsed (set_rfile rest h)
           (Str.rstrip Str.is_crlf (raw_requestline raw)) cmd p v hs).
Proof.
  intros Hreq Hrf.
  unfold server.handle_one_request, http_server.handle_one_request.
  unfold gets at 1. rewrite bind_eq. cbv beta. cbn [fst snd]. rewrite Hrf.
  unfold modify at 1. rewrite bind_eq. cbv beta. cbn [fst snd].
  pose proof Hreq as (Hlen & _). rewrite Hlen.
  rewrite (versioned_line_not_empty _ _ _ _ _ Hreq).
  eapply run_bind; [apply parse_request_versioned; exact Hreq | cbv beta].
  cbn [negb]. unfold gets. rewrite bind_eq. cbv beta. cbn [fst snd parsed command].
  reflexivity.
Qed.


(** *** One request, from the accepted request line to the response *)

Lemma send_head_file_missing path h :
  Str.endswith Str.slash path = true \/ os.open_rb fs path = None ->
  http_server.send_head_file L fs sv endh logm path h
  = (None, snd (server.send_error L HTTPStatus.NOT_FOUND
                  (Some "File not found") None h)).
Proof.
  intros Hmiss. unfold http_server.send_head_file. cbv zeta.
  fold (server.send_error L).
  destruct (Str.endswith Str.slash path).
  - rewrite bind_eq. reflexivity.
  - destruct Hmiss as [Hs | Ho]; [discriminate |]. rewrite Ho.
    rewrite bind_eq. reflexivity.
Qed.

Lemma send_head_not_dir h :
  os.isdir fs (server.translate_path L parent (path h)) = false ->
  server.send_head L fs parent h
  = http_server.send_head_file L fs sv endh logm
      (server.translate_path L parent (path h)) h.
Proof.
  intros Hd. unfold server.send_head, http_server.send_head.
  unfold gets at 1. rewrite bind_eq. cbv beta zeta. cbn [fst snd].
  unfold self_path. fold (server.translate_path L parent). rewrite Hd.
  reflexivity.
Qed.


Lemma send_head_file_found path data mtime h :
  Str.endswith Str.slash path = false ->
  fs path = File data mtime ->
  http_server.send_head_file L fs sv endh logm path h
  = if http_server.not_modified_since L (headers h) mtime then
      (None,
       flushed (buffered (response_lines L HTTPStatus.NOT_MODIFIED None
                          ++ cors_headers)
                  (logged (Str.dq ++ requestline h ++ Str.dq ++ " 304 -") h)))
    else
      (Some data,
       flushed (buffered (file_lines L path (String.length data) mtime
                          ++ cors_headers)
                  (logged (Str.dq ++ requestline h ++ Str.dq ++ " 200 -") h))).
Proof.
  intros Hs Hf. unfold http_server.send_head_file. cbv zeta.
  rewrite Hs. unfold os.open_rb. rewrite Hf.
  unfold gets at 1. rewrite bind_eq. cbv beta. cbn [fst snd].
  destruct (http_server.not_modified_since L (headers h) mtime).
  - eapply run_bind; [apply send_response_eq | cbv beta].
    eapply run_bind; [apply end_headers_eq | cbv beta].
    rewrite !buffered_app. reflexivity.
  - eapply run_bind; [apply send_response_eq | cbv beta].
    eapply run_bind; [apply send_header_buffered; reflexivity | cbv beta].
    eapply run_bind; [apply send_header_buffered; reflexivity | cbv beta].
    eapply run_bind; [apply send_header_buffered; reflexivity | cbv beta].
    eapply run_bind; [apply end_headers_eq | cbv beta].
    rewrite !buffered_app. unfold file_lines, http_server.date_time_string.
    rewrite <- !app_assoc. reflexivity.
Qed.



Lemma parse_request_simple raw p hs h :
  simple_request raw p hs ->
  server.parse_request L raw h
  = (true, parsed h (Str.rstrip Str.is_crlf (raw_requestline raw))
             "GET" p "HTTP/0.9" hs).
Proof.
  intros (Hlen & Hwords & Hhs).
  unfold server.parse_request, http_server.parse_request.
  cbv zeta. rewrite Hwords. cbn [length Nat.eqb Nat.leb last nth negb andb].
  rewrite Hhs.
  replace (str_ge http_server.protocol_version "HTTP/1.1") with false
    by reflexivity.
  replace ("GET" =? "GET") with true by reflexivity.
  rewrite !andb_false_r.
  run. unfold parsed, stored_path, http_server.default_request_version.
  destruct (Str.startswith "//" p); run;
    destruct (Str.lower _ =? "close"); run; reflexivity.
Qed.

Lemma accepted_line raw cmd p v hs :
  accepted_request L raw cmd p v hs ->
  (65536 <? N.of_nat (String.length (raw_requestline raw)))%N = false
  /\ (raw_requestline raw =? "") = false.
Proof.
  intros [Hv | (_ & _ & Hs)].
  - split; [apply Hv | eapply versioned_line_not_empty; exact Hv].
  - destruct Hs as (Hlen & Hwords & _). split; [exact Hlen |].
    destruct (raw_requestline raw); [discriminate | reflexivity].
Qed.

Lemma parse_request_accepted raw cmd p v hs h :
  accepted_request L raw cmd p v hs ->
  server.parse_request L raw h
  = (true, parsed h (Str.rstrip Str.is_crlf (raw_requestline raw)) cmd p v hs).
Proof.
  intros [Hv | (-> & -> & Hs)].
  - apply parse_request_versioned, Hv.
  - apply parse_request_simple, Hs.
Qed.

(** The whole handling of a connection whose first request is accepted:
    the method for the command runs on the parsed request. *)
Lemma handler_accepted raw rest cmd p v hs client out :
  accepted_request L raw cmd p v hs ->
  server.MyHTTPRequestHandler L fs parent client (raw :: rest) out
  = snd (match server.method L fs parent cmd with
         | None =>
             server.send_error L HTTPStatus.NOT_IMPLEMENTED
               (Some ("Unsupported method (" ++ py_repr L cmd ++ ")")) None
         | Some method => method
         end (parsed (set_rfile rest (server.new_handler client (raw :: rest) out))
                (Str.rstrip Str.is_crlf (raw_requestline raw)) cmd p v hs)).
Proof.
  intros Hreq. unfold server.MyHTTPRequestHandler, exec.
  destruct (handle_eq (server.new_handler client (raw :: rest) out)) as [E _];
    [split; reflexivity |].
  rewrite E. cbn [snd].
  unfold server.handle_one_request, http_server.handle_one_request.
  unfold gets at 1. rewrite bind_eq. cbv beta. cbn [fst snd rfile set_close_connection server.new_handler].
  unfold modify at 1. rewrite bind_eq. cbv beta. cbn [fst snd].
  destruct (accepted_line _ _ _ _ _ Hreq) as [Hlen Hne]. rewrite Hlen, Hne.
  fold (server.parse_request L).
  erewrite run_bind; [reflexivity | apply parse_request_accepted; exact Hreq |].
  cbn [negb]. unfold gets. rewrite bind_eq. cbv beta. cbn [fst snd parsed command].
  reflexivity.
Qed.

(** *** What is printed *)

Section Printed.

Variable client : string * N.
Variable out : list string.

Local Abbreviation keeps m :=
  (hoare (log_form client out) m (fun _ => log_form client out)).

Lemma keeps_ret {A} (a : A) : keeps (ret a).
Proof. apply hoare_ret. auto. Qed.

Lemma keeps_bind {A B} (m : M A) (k : A -> M B) :
  keeps m -> (forall a, keeps (k a)) -> keeps (bind m k).
Proof. intros Hm Hk. eapply hoare_bind; [exact Hm | exact Hk]. Qed.

Lemma keeps_gets {A} (f : handler -> A) : keeps (gets f).
Proof. intros h Hl. exact Hl. Qed.

Lemma keeps_modify (f : handler -> handler) :
  (forall h, client_address (f h) = client_address h
             /\ stdout (f h) = stdout h) ->
  keeps (modify f).
Proof.
  intros Hf h [Hc Hm]. destruct (Hf h) as [E1 E2]. unfold log_form, modify.
  cbn [snd]. rewrite E1, E2. auto.
Qed.

Lemma keeps_when b (m : M unit) : keeps m -> keeps (when b m).
Proof. intros Hm. destruct b; [exact Hm | apply keeps_ret]. Qed.

Lemma keeps_log_message msg : keeps (server.log_message msg).
Proof.
  intros h [Hc [msgs Hm]]. rewrite log_message_eq. unfold logged, log_form.
  fields. split; [exact Hc |]. exists (msgs ++ [msg])%list.
  rewrite Hm, Hc, map_app, app_assoc. reflexivity.
Qed.

Create HintDb logs.
#[local] Hint Resolve keeps_log_message : logs.

Ltac keeps_fields := intros ?; split; reflexivity.

Ltac keeps_step :=
  lazymatch goal with
  | |- hoare _ (ret _) _ => apply keeps_ret
  | |- hoare _ (gets _) _ => apply keeps_gets
  | |- hoare _ (modify _) _ => apply keeps_modify; keeps_fields
  | |- hoare _ (when _ _) _ => apply keeps_when
  | |- hoare _ (bind _ _) _ => apply keeps_bind; [| intros ?]
  | |- hoare _ (if ?b then _ else _) _ => destruct b
  | |- hoare _ (match ?x with _ => _ end) _ => destruct x
  | |- _ => solve [auto with logs]
  end.

Ltac keeps_auto := repeat keeps_step.

Lemma keeps_send_response_only code msg :
  keeps (http_server.send_response_only code msg).
Proof. unfold http_server.send_response_only. keeps_auto. Qed.

Lemma keeps_send_header k v : keeps (http_server.send_header k v).
Proof. unfold http_server.send_header. keeps_auto. Qed.

#[local] Hint Resolve keeps_send_response_only keeps_send_header : logs.

Lemma keeps_end_headers : keeps server.end_headers.
Proof.
  unfold server.end_headers, http_server.end_headers, http_server.flush_headers.
  keeps_auto.
Qed.

#[local] Hint Resolve keeps_end_headers : logs.

Lemma keeps_send_response code msg :
  keeps (http_server.send_response L sv logm code msg).
Proof.
  unfold http_server.send_response, http_server.log_request. keeps_auto.
Qed.

#[local] Hint Resolve keeps_send_response : logs.

Lemma keeps_send_error code msg explain :
  keeps (http_server.send_error L sv endh logm code msg explain).
Proof.
  unfold http_server.send_error, http_server.log_error, http_server.wfile_write.
  keeps_auto.
Qed.

#[local] Hint Resolve keeps_send_error : logs.

Lemma keeps_send_head : keeps (server.send_head L fs parent).
Proof.
  unfold server.send_head, http_server.send_head, http_server.send_head_file,
    http_server.list_directory.
  keeps_auto.
Qed.

#[local] Hint Resolve keeps_send_head : logs.

Lemma keeps_parse_request raw : keeps (server.parse_request L raw).
Proof.
  unfold server.parse_request, http_server.parse_request,
    http_server.handle_expect_100.
  keeps_auto.
Qed.

#[local] Hint Resolve keeps_parse_request : logs.

Lemma keeps_handle_one_request : keeps (server.handle_one_request L fs parent).
Proof.
  unfold server.handle_one_request, http_server.handle_one_request.
  fold (server.parse_request L).
  unfold server.method, server.do_GET, server.do_HEAD, http_server.do_GET,
    http_server.do_HEAD, http_server.copyfile, http_server.wfile_write.
  fold (server.send_head L fs parent).
  apply keeps_bind; [apply keeps_gets | intros rf].
  destruct rf as [| raw rest]; [keeps_auto |].
  apply keeps_bind; [keeps_auto | intros _].
  destruct (_ <? _)%N; [keeps_auto |].
  destruct (_ =? ""); [keeps_auto |].
  apply keeps_bind; [auto with logs | intros parsed].
  destruct parsed; cbn [negb]; [| keeps_auto].
  apply keeps_bind; [apply keeps_gets | intros cmd]. cbv zeta.
  destruct (_ =? "GET"); [keeps_auto |].
  destruct (_ =? "HEAD"); keeps_auto.
Qed.

Lemma printed_in_form requests :
  log_form client out
    (server.MyHTTPRequestHandler L fs parent client requests out).
Proof.
  unfold server.MyHTTPRequestHandler, exec.
  destruct (handle_eq (server.new_handler client requests out)) as [E _];
    [split; reflexivity |].
  rewrite E. cbn [snd]. apply keeps_handle_one_request.
  split; [reflexivity |]. exists []. cbn. rewrite app_nil_r. reflexivity.
Qed.

End Printed.

End Methods.

(** ** Path translation stays inside the directory *)

Lemma split_no_sep sep s w :
  In w (Str.split sep s) -> Str.contains sep w = false.
Proof.
  revert w. induction s as [| c s IH]; intros w Hin.
  - destruct Hin as [<- | []]. reflexivity.
  - cbn [Str.split] in Hin. destruct (Ascii.eqb c sep) eqn:Ec.
    + destruct Hin as [<- | Hin]; [reflexivity | apply IH, Hin].
    + destruct (Str.split sep s) as [| w0 ws] eqn:Es.
      * destruct Hin as [<- | []]. cbn. rewrite Ec. reflexivity.
      * destruct Hin as [<- | Hin].
        -- cbn. rewrite Ec. apply IH. left. reflexivity.
        -- apply IH. right. exact Hin.
Qed.

Lemma dirname_plain w :
  Str.contains Str.slash w = false -> posixpath.dirname w = "".
Proof.
  intros Hc. unfold posixpath.dirname.
  assert (E : posixpath.head_to_last_slash w = "").
  { destruct w as [| c w]; [reflexivity |].
    cbn [posixpath.head_to_last_slash]. rewrite Hc. reflexivity. }
  rewrite E. reflexivity.
Qed.

Lemma translate_step_inside dir q w :
  inside dir q -> w <> "" -> Str.contains Str.slash w = false ->
  inside dir (http_server.translate_step q w).
Proof.
  intros Hq Hne Hc. unfold http_server.translate_step.
  rewrite (dirname_plain w Hc). cbn [negb orb].
  replace ("" =? "") with true by reflexivity. cbn [negb orb].
  destruct (w =? ".") eqn:E1; [exact Hq |].
  destruct (w =? "..") eqn:E2; [exact Hq |]. cbn [orb].
  apply inside_child; [exact Hq |].
  apply String.eqb_neq in E1, E2. repeat split; assumption.
Qed.

Lemma fold_translate_inside dir words q :
  inside dir q ->
  Forall (fun w => w <> "" /\ Str.contains Str.slash w = false) words ->
  inside dir (fold_left http_server.translate_step words q).
Proof.
  revert q. induction words as [| w ws IH]; intros q Hq Hall; [exact Hq |].
  inversion Hall as [| ? ? [Hne Hc] Hrest]; subst. cbn [fold_left].
  apply IH; [apply translate_step_inside; assumption | exact Hrest].
Qed.

Lemma translate_path_inside L dir path :
  inside dir (http_server.translate_path L dir path).
Proof.
  unfold http_server.translate_path. cbv zeta.
  match goal with
  | |- inside dir (if ?b then ?x ++ "/" else ?x) =>
      assert (Hin : inside dir x); [| destruct b; [apply inside_slash |]; exact Hin]
  end.
  apply fold_translate_inside; [apply inside_root |].
  apply Forall_forall. intros w Hw. apply filter_In in Hw. destruct Hw as [Hw Hne].
  split.
  - intros ->. discriminate.
  - eapply split_no_sep. exact Hw.
Qed.

Lemma prefix_refl s : String.prefix s s = true.
Proof.
  induction s as [| c s IH]; [reflexivity |]. cbn.
  destruct (ascii_dec c c); [exact IH | contradiction].
Qed.

Lemma prefix_app a b c :
  String.prefix a b = true -> String.prefix a (b ++ c) = true.
Proof.
  revert b. induction a as [| x a IH]; intros b H;
    [destruct (b ++ c); reflexivity |].
  destruct b as [| y b]; [discriminate |]. cbn in *.
  destruct (ascii_dec x y); [apply IH, H | discriminate].
Qed.

(** A path inside [dir] has the text of [dir] as a prefix. *)
Lemma inside_prefix dir p : inside dir p -> Str.startswith dir p = true.
Proof.
  unfold Str.startswith. induction 1 as [| q w Hq IH (Hne & _ & _ & Hc) | q Hq IH].
  - apply prefix_refl.
  - unfold posixpath.join.
    assert (Hw : Str.startswith "/" w = false).
    { destruct w as [| c w]; [contradiction |].
      cbn [Str.contains] in Hc. apply orb_false_elim in Hc.
      destruct Hc as [Hc _]. apply Ascii.eqb_neq in Hc.
      unfold Str.startswith. cbn [String.prefix].
      destruct (ascii_dec "/" c) as [E | _]; [| reflexivity].
      exfalso. apply Hc. symmetry. exact E. }
    rewrite Hw. destruct ((q =? "") || Str.endswith Str.slash q);
      apply prefix_app, IH.
  - apply prefix_app, IH.
Qed.

Lemma simple_index_html : simple_name "index.html".
Proof. repeat split; try discriminate. Qed.

Lemma simple_index_htm : simple_name "index.htm".
Proof. repeat split; try discriminate. Qed.

(** ** The response depends on the files inside the directory only *)

Section Confined.

Variable L : pylib.
Variable parent : string.
Variables fs1 fs2 : filesystem.
Hypothesis agree :
  forall p, inside (server.DIRECTORY parent) p -> fs1 p = fs2 p.

Local Abbreviation sv := server.server_version.
Local Abbreviation logm := server.log_message.
Local Abbreviation endh := server.end_headers.

Lemma send_head_file_agree path h :
  fs1 path = fs2 path ->
  http_server.send_head_file L fs1 sv endh logm path h
  = http_server.send_head_file L fs2 sv endh logm path h.
Proof.
  intros E. unfold http_server.send_head_file, os.open_rb. rewrite E.
  reflexivity.
Qed.

Lemma list_directory_agree path h :
  fs1 path = fs2 path ->
  http_server.list_directory L fs1 sv endh logm path h
  = http_server.list_directory L fs2 sv endh logm path h.
Proof.
  intros E. unfold http_server.list_directory, os.listdir. rewrite E.
  reflexivity.
Qed.

Lemma send_head_agree h :
  server.send_head L fs1 parent h = server.send_head L fs2 parent h.
Proof.
  unfold server.send_head, http_server.send_head.
  rewrite !bind_eq. unfold gets. cbv beta zeta. cbn [fst snd].
  set (tp := http_server.translate_path L (server.DIRECTORY parent) (self_path h)).
  assert (Hin : inside (server.DIRECTORY parent) tp)
    by apply translate_path_inside.
  assert (E0 := agree tp Hin).
  assert (E1 := agree _ (inside_child _ tp _ Hin simple_index_html)).
  assert (E2 := agree _ (inside_child _ tp _ Hin simple_index_htm)).
  unfold os.isdir, os.isfile. rewrite E0, E1, E2.
  repeat match goal with
         | |- (if ?b then _ else _) _ = _ => destruct b
         end;
    first [ reflexivity
          | apply send_head_file_agree; assumption
          | apply list_directory_agree; assumption ].
Qed.

Lemma handle_one_request_agree h :
  server.handle_one_request L fs1 parent h
  = server.handle_one_request L fs2 parent h.
Proof.
  unfold server.handle_one_request, http_server.handle_one_request.
  apply bind_cong. intros rf h1. destruct rf as [| raw rest]; [reflexivity |].
  apply bind_cong. intros _ h2.
  destruct (_ <? _)%N; [reflexivity |].
  destruct (_ =? ""); [reflexivity |].
  apply bind_cong. intros ok h3. destruct ok; cbn [negb]; [| reflexivity].
  apply bind_cong. intros cmd h4. cbv zeta. unfold server.method.
  destruct (_ =? "GET").
  { unfold server.do_GET, http_server.do_GET.
    fold (server.send_head L fs1 parent). fold (server.send_head L fs2 parent).
    unfold bind. rewrite send_head_agree. reflexivity. }
  destruct (_ =? "HEAD"); [| reflexivity].
  unfold server.do_HEAD, http_server.do_HEAD.
  fold (server.send_head L fs1 parent). fold (server.send_head L fs2 parent).
  unfold bind. rewrite send_head_agree. reflexivity.
Qed.

Lemma handler_agree client requests out :
  server.MyHTTPRequestHandler L fs1 parent client requests out
  = server.MyHTTPRequestHandler L fs2 parent client requests out.
Proof.
  unfold server.MyHTTPRequestHandler, exec.
  destruct (handle_eq L fs1 parent (server.new_handler client requests out))
    as [E1 _]; [split; reflexivity |].
  destruct (handle_eq L fs2 parent (server.new_handler client requests out))
    as [E2 _]; [split; reflexivity |].
  rewrite E1, E2. cbn [snd]. rewrite handle_one_request_agree. reflexivity.
Qed.

End Confined.

(** ** Reading a response *)


Lemma error_response_status L v code msg head_only :
  v <> "HTTP/0.9" ->
  status_of (error_response L v code msg head_only) = Some code.
Proof.
  intros Hv. apply String.eqb_neq in Hv. unfold error_response. rewrite Hv.
  reflexivity.
Qed.

Lemma append_empty_r s : s ++ "" = s.
Proof. induction s as [| c s IH]; [reflexivity |]. cbn. rewrite IH. reflexivity. Qed.

Lemma error_response_body L v code msg :
  body_of (error_response L v code msg false) = error_page code msg.
Proof.
  unfold error_response. destruct (v =? "HTTP/0.9"); cbn [app body_of];
    apply append_empty_r.
Qed.

Lemma error_response_cors L v code msg head_only :
  v <> "HTTP/0.9" ->
  carries_cors (error_response L v code msg head_only).
Proof.
  intros Hv. apply String.eqb_neq in Hv. unfold error_response. rewrite Hv.
  eexists. eexists. split; [reflexivity |]. split.
  - apply (response_head_intro "HTTP/1.0" code msg
             [ HeaderLine "Server" ("SimpleHTTP/0.6 " ++ sys_version L);
               HeaderLine "Date" (formatdate L None);
               HeaderLine "Connection" "close";
               HeaderLine "Content-Type" "text/html;charset=utf-8";
               HeaderLine "Content-Length"
                 (Str.of_nat (String.length (error_page code msg))) ]).
    repeat constructor.
  - destruct head_only; repeat constructor.
Qed.

Lemma error_page_text code msg : error_page code msg <> "".
Proof. unfold error_page. intros E. discriminate E. Qed.

(** ** The claims *)

Lemma handler_settled L fs parent client requests out :
  Settled (server.MyHTTPRequestHandler L fs parent client requests out).
Proof.
  unfold server.MyHTTPRequestHandler, exec.
  apply (handle_eq L fs parent (server.new_handler client requests out)).
  split; reflexivity.
Qed.





Lemma example_versioned cmd p hs :
  Str.split_ws (cmd ++ " " ++ p ++ " HTTP/1.1") = [cmd; p; "HTTP/1.1"] ->
  (65536 <? N.of_nat (String.length ((cmd ++ " " ++ p ++ " HTTP/1.1") ++ Str.CRLF)))%N = false ->
  Str.rstrip Str.is_crlf ((cmd ++ " " ++ p ++ " HTTP/1.1") ++ Str.CRLF)
  = cmd ++ " " ++ p ++ " HTTP/1.1" ->
  versioned_request Example.lib
    (Example.request (cmd ++ " " ++ p ++ " HTTP/1.1") hs) cmd p "HTTP/1.1" hs.
Proof.
  intros Hw Hl Hr. unfold versioned_request, Example.request.
  cbn [raw_requestline raw_headers]. rewrite Hr.
  repeat split; try assumption.
  exists "1.1", (1, 1)%Z. split; reflexivity.
Qed.



(** A command the class has no [do_] method for is answered 501. *)
Lemma unsupported_method L fs parent raw rest cmd p v hs client out :
  accepted_request L raw cmd p v hs ->
  server.method L fs parent cmd = None ->
  let h := server.MyHTTPRequestHandler L fs parent client (raw :: rest) out in
  let msg := "Unsupported method (" ++ py_repr L cmd ++ ")" in
  wfile h = error_response L v HTTPStatus.NOT_IMPLEMENTED msg false
  /\ stdout h
     = (out ++ error_log client (Str.rstrip Str.is_crlf (raw_requestline raw))
                 HTTPStatus.NOT_IMPLEMENTED msg)%list.
Proof.
  intros Hreq Hnone h msg. subst h.
  rewrite (handler_accepted L fs parent raw rest cmd p v hs) by exact Hreq.
  rewrite Hnone.
  match goal with
  | |- context [server.send_error L ?c (Some ?m) None ?h0] =>
      destruct (send_error_writes L c m h0) as [Hw Ho];
        [reflexivity | reflexivity | reflexivity |]
  end.
  rewrite Hw, Ho. cbn [parsed request_version command requestline
                       client_address stdout set_rfile server.new_handler].
  replace (http_server.is_HEAD (Some cmd)) with false; [split; reflexivity |].
  unfold server.method in Hnone. cbn [http_server.is_HEAD].
  destruct (cmd =? "GET"); [discriminate |].
  destruct (cmd =? "HEAD"); [discriminate | reflexivity].
Qed.

(** C2 (as amended).  An OPTIONS request, on any path, is answered with the
    error 501 "Unsupported method ('OPTIONS')": the class has no
    [do_OPTIONS].  The body is the library's HTML error page, not empty;
    unless the version word is HTTP/0.9 the response has status 501 and
    carries the three CORS headers. *)
Theorem C2_options_not_implemented :
  forall L fs parent client raw rest out p v hs,
    versioned_request L raw "OPTIONS" p v hs ->
    let h := server.MyHTTPRequestHandler L fs parent client (raw :: rest) out in
    let msg := "Unsupported method (" ++ py_repr L "OPTIONS" ++ ")" in
    wfile h = error_response L v 501 msg false
    /\ body_of (wfile h) = error_page 501 msg
    /\ body_of (wfile h) <> ""
    /\ (v <> "HTTP/0.9" ->
        status_of (wfile h) = Some 501 /\ carries_cors (wfile h)).
Proof.
  intros L fs parent client raw rest out p v hs Hreq h msg.
  destruct (unsupported_method L fs parent raw rest "OPTIONS" p v hs client out)
    as [Hw _]; [left; exact Hreq | reflexivity |].
  fold h msg in Hw. change HTTPStatus.NOT_IMPLEMENTED with 501 in Hw.
  rewrite Hw. split; [reflexivity |].
  rewrite error_response_body. split; [reflexivity |].
  split; [apply error_page_text |].
  intros Hv. split; [apply error_response_status | apply error_response_cors];
    exact Hv.
Qed.

Lemma C2_options_witness :
  versioned_request Example.lib (Example.request "OPTIONS / HTTP/1.1" [])
    "OPTIONS" "/" "HTTP/1.1" []
  /\ status_of (wfile (Example.answer Example.fs "OPTIONS / HTTP/1.1" []))
     = Some 501.
Proof.
  assert (Hreq : versioned_request Example.lib
            (Example.request "OPTIONS / HTTP/1.1" []) "OPTIONS" "/" "HTTP/1.1" [])
    by (apply (example_versioned "OPTIONS" "/"); reflexivity).
  split; [exact Hreq |]. unfold Example.answer.
  apply (proj2 (proj2 (proj2 (C2_options_not_implemented
           Example.lib Example.fs Example.parent Example.client
           (Example.request "OPTIONS / HTTP/1.1" []) [] [] "/" "HTTP/1.1" []
           Hreq)))).
  discriminate.
Defined.

(** C2 as it is written fails: [OPTIONS / HTTP/1.1] gets status 501 and an
    HTML body, not status 200 and an empty body. *)
Lemma C2_counterexample :
  let response := wfile (Example.answer Example.fs "OPTIONS / HTTP/1.1" []) in
  ~ (status_of response = Some 200 /\ body_of response = "").
Proof.
  cbv zeta. intros [Hs _].
  assert (E : status_of (wfile (Example.answer Example.fs "OPTIONS / HTTP/1.1" []))
              = Some 501) by (vm_compute; reflexivity).
  rewrite E in Hs. discriminate Hs.
Qed.

(** C10 (as amended).  A POST request, on any path, is answered with the
    error 501 "Unsupported method ('POST')": the class has no [do_POST].
    Unless the version word is HTTP/0.9 the response carries the three
    CORS headers, among them the one that lists POST as allowed; under
    HTTP/0.9 the error page is sent without status line and headers. *)
Theorem C10_post_not_implemented :
  forall L fs parent client raw rest out p v hs,
    versioned_request L raw "POST" p v hs ->
    let h := server.MyHTTPRequestHandler L fs parent client (raw :: rest) out in
    let msg := "Unsupported method (" ++ py_repr L "POST" ++ ")" in
    server.method L fs parent "POST" = None
    /\ wfile h = error_response L v 501 msg false
    /\ stdout h
       = (out ++ error_log client (Str.rstrip Str.is_crlf (raw_requestline raw))
                   501 msg)%list
    /\ (v <> "HTTP/0.9" ->
        status_of (wfile h) = Some 501
        /\ carries_cors (wfile h)
        /\ In (HeaderLine "Access-Control-Allow-Methods" "GET, POST, OPTIONS")
              (headers_of (wfile h)))
    /\ (v = "HTTP/0.9" -> wfile h = [WBody (error_page 501 msg)]).
Proof.
  intros L fs parent client raw rest out p v hs Hreq h msg.
  destruct (unsupported_method L fs parent raw rest "POST" p v hs client out)
    as [Hw Ho]; [left; exact Hreq | reflexivity |].
  fold h msg in Hw, Ho. change HTTPStatus.NOT_IMPLEMENTED with 501 in Hw, Ho.
  split; [reflexivity |]. split; [exact Hw |]. split; [exact Ho |].
  rewrite Hw. split.
  - intros Hv. split; [apply error_response_status; exact Hv |].
    split; [apply error_response_cors; exact Hv |].
    apply String.eqb_neq in Hv. unfold error_response. rewrite Hv.
    cbn [app headers_of]. do 6 right. left. reflexivity.
  - intros ->. reflexivity.
Qed.

Lemma C10_post_witness :
  versioned_request Example.lib (Example.request "POST /send HTTP/1.1" [])
    "POST" "/send" "HTTP/1.1" []
  /\ status_of (wfile (Example.answer Example.fs "POST /send HTTP/1.1" []))
     = Some 501.
Proof.
  assert (Hreq : versioned_request Example.lib
            (Example.request "POST /send HTTP/1.1" []) "POST" "/send"
            "HTTP/1.1" [])
    by (apply (example_versioned "POST" "/send"); reflexivity).
  split; [exact Hreq |]. unfold Example.answer.
  pose proof (C10_post_not_implemented
           Example.lib Example.fs Example.parent Example.client
           (Example.request "POST /send HTTP/1.1" []) [] [] "/send" "HTTP/1.1"
           [] Hreq) as H.
  cbv zeta in H. destruct H as (_ & _ & _ & H & _).
  assert (Hv : "HTTP/1.1" <> "HTTP/0.9") by discriminate.
  exact (proj1 (H Hv)).
Defined.

(** C10 as it is written fails on the CORS headers: the parser accepts
    [POST /send HTTP/0.9], and its 501 answer is the error page alone. *)
Lemma C10_counterexample :
  let raw := Example.request "POST /send HTTP/0.9" [] in
  let response := wfile (Example.answer Example.fs "POST /send HTTP/0.9" []) in
  versioned_request Example.lib raw "POST" "/send" "HTTP/0.9" []
  /\ headers_of response = []
  /\ ~ incl cors_headers (headers_of response).
Proof.
  cbv zeta. split.
  - unfold versioned_request, Example.request.
    cbn [raw_requestline raw_headers].
    repeat split; try reflexivity.
    exists "0.9", (0, 9)%Z. split; reflexivity.
  - assert (E : headers_of (wfile (Example.answer Example.fs "POST /send HTTP/0.9" []))
                = []) by (vm_compute; reflexivity).
    rewrite E. split; [reflexivity |].
    intros Hincl.
    apply (Hincl (HeaderLine "Access-Control-Allow-Origin" "*")).
    left. reflexivity.
Qed.

(** What a handler has written and printed once a header block of lines
    [ls] is flushed, from a state with nothing written. *)
Lemma answered ls msg h :
  wfile h = [] -> _headers_buffer h = [] ->
  let h1 := flushed (buffered ls (logged msg h)) in
  wfile h1 = (if request_version h =? "HTTP/0.9" then []
              else [WHeaders (ls ++ [EndOfHeaders])%list])
  /\ stdout h1
     = (stdout h ++ [("[请求] " ++ fst (client_address h) ++ " - " ++ msg)%string])%list.
Proof.
  intros Hw Hb. cbv zeta.
  destruct (request_version h =? "HTTP/0.9") eqn:Hv; observe Hv;
    rewrite ?Hw, ?Hb; split; reflexivity.
Qed.

Lemma init_free os :
  socketserver.port_in_use os server.PORT = false ->
  socketserver.init os ("", server.PORT)
  = inr {| socketserver.server_address := ("", server.PORT);
           socketserver.socket := socketserver.Listening |}.
Proof.
  intros Hp. unfold socketserver.init, socketserver.server_bind.
  cbn [socketserver.server_address snd]. rewrite Hp. reflexivity.
Qed.





Lemma example_accepted cmd p hs :
  Str.split_ws (cmd ++ " " ++ p ++ " HTTP/1.1") = [cmd; p; "HTTP/1.1"] ->
  (65536 <? N.of_nat (String.length ((cmd ++ " " ++ p ++ " HTTP/1.1") ++ Str.CRLF)))%N = false ->
  Str.rstrip Str.is_crlf ((cmd ++ " " ++ p ++ " HTTP/1.1") ++ Str.CRLF)
  = cmd ++ " " ++ p ++ " HTTP/1.1" ->
  accepted_request Example.lib
    (Example.request (cmd ++ " " ++ p ++ " HTTP/1.1") hs) cmd p "HTTP/1.1" hs.
Proof. intros. left. apply example_versioned; assumption. Qed.



Lemma file_lines_head L tp n mtime :
  response_head (file_lines L tp n mtime ++ cors_headers ++ [EndOfHeaders])%list.
Proof.
  unfold file_lines, response_lines. cbn [app].
  match goal with
  | |- response_head (StatusLine ?v ?c ?m :: ?a :: ?b :: ?c1 :: ?d :: ?e :: ?r) =>
      apply (response_head_intro v c m [a; b; c1; d; e])
  end.
  repeat constructor.
Qed.




(** C4.  Whatever the request, the only names the handler looks up in the
    file system are names inside the root directory, so its response and
    its output are the same on any two file systems that agree inside the
    root directory: no byte of a file outside it reaches the response.  The
    translation of any request path, with or without [..] components,
    is a name inside the root directory, and such a name has the root
    directory as a prefix. *)
Theorem C4_no_file_outside_root :
  forall L parent fs1 fs2 client requests out,
    (forall p, inside (server.DIRECTORY parent) p -> fs1 p = fs2 p) ->
    server.MyHTTPRequestHandler L fs1 parent client requests out
    = server.MyHTTPRequestHandler L fs2 parent client requests out
    /\ (forall path,
           inside (server.DIRECTORY parent)
             (server.translate_path L parent path)
           /\ Str.startswith (server.DIRECTORY parent)
                (server.translate_path L parent path) = true).
Proof.
  intros L parent fs1 fs2 client requests out agree. split.
  - apply handler_agree. exact agree.
  - intros path.
    assert (Hin : inside (server.DIRECTORY parent)
                    (server.translate_path L parent path))
      by apply translate_path_inside.
    split; [exact Hin | apply inside_prefix; exact Hin].
Qed.

Lemma passwd_outside p :
  inside (server.DIRECTORY Example.parent) p ->
  Example.fs_passwd p = Example.fs p.
Proof.
  intros Hin. apply inside_prefix in Hin. unfold Example.fs_passwd.
  destruct (p =? "/etc/passwd") eqn:E; [| reflexivity].
  apply String.eqb_eq in E. subst p. vm_compute in Hin. discriminate.
Qed.

Lemma C4_no_file_outside_root_witness :
  (forall p, inside (server.DIRECTORY Example.parent) p ->
             Example.fs_passwd p = Example.fs p)
  /\ Example.answer Example.fs_passwd "GET /../../etc/passwd HTTP/1.1" []
     = Example.answer Example.fs "GET /../../etc/passwd HTTP/1.1" [].
Proof.
  split; [exact passwd_outside |].
  unfold Example.answer.
  exact (proj1 (C4_no_file_outside_root Example.lib Example.parent
                  Example.fs_passwd Example.fs Example.client
                  [Example.request "GET /../../etc/passwd HTTP/1.1" []] []
                  passwd_outside)).
Defined.

(** The traversal request of the example is looked up inside the root
    directory and answered 404. *)
Example traversal_request_404 :
  server.translate_path Example.lib Example.parent "/../../etc/passwd"
  = "/srv/app/src/etc/passwd"
  /\ wfile (Example.answer Example.fs_passwd "GET /../../etc/passwd HTTP/1.1" [])
     = error_response Example.lib "HTTP/1.1" 404 "File not found" false.
Proof. split; vm_compute; reflexivity. Qed.




(** ** The process *)

Lemma start_server_free L fs parent os conns interrupt :
  socketserver.port_in_use os server.PORT = false ->
  let listening :=
    {| socketserver.server_address := ("", server.PORT);
       socketserver.socket := socketserver.Listening |} in
  let r := server.serve_forever L fs parent conns (server.banner parent) [] in
  server.start_server L fs parent os conns interrupt
  = if interrupt then
      {| server.printed :=
           (fst (fst r)
            ++ [(http_server.nl ++ http_server.nl ++ "服务器已停止")%string])%list;
         server.httpd := socketserver.server_close listening;
         server.served := snd (fst r); server.state := server.Exited 0 |}
    else
      {| server.printed := fst (fst r); server.httpd := listening;
         server.served := snd (fst r);
         server.state := if snd r then server.InHandler else server.Waiting |}.
Proof.
  intros Hp. cbv zeta. unfold server.start_server. rewrite (init_free os Hp).
  destruct (server.serve_forever L fs parent conns (server.banner parent) [])
    as [[o d] held].
  reflexivity.
Qed.


(** The connections up to the first one that stalls are served, in order;
    the loop stays in the handler of that one. *)
Lemma serve_forever_stalled L fs parent peer conns2 conns1 :
  Forall is_Conn conns1 ->
  forall out done,
    server.serve_forever L fs parent (conns1 ++ server.Stalled peer :: conns2)
      out done
    = (fst (server.serve_forever L fs parent conns1 out done), true).
Proof.
  induction conns1 as [| c conns1 IH]; intros Hc out done.
  - reflexivity.
  - inversion Hc as [| c' l' Hc1 Hc2]; subst.
    destruct c as [p requests | p]; [| destruct Hc1].
    cbn. apply IH. exact Hc2.
Qed.

Lemma serve_forever_served L fs parent conns :
  Forall is_Conn conns ->
  forall out done,
    length (snd (fst (server.serve_forever L fs parent conns out done)))
    = (length done + length conns)%nat
    /\ snd (server.serve_forever L fs parent conns out done) = false.
Proof.
  induction conns as [| c conns IH]; intros Hc out done.
  - cbn. split; [lia | reflexivity].
  - inversion Hc as [| c' l' Hc1 Hc2]; subst.
    destruct c as [p requests | p]; [| destruct Hc1].
    cbn [server.serve_forever].
    destruct (IH Hc2 (stdout (server.MyHTTPRequestHandler L fs parent p requests out))
                (done ++ [wfile (server.MyHTTPRequestHandler L fs parent p requests out)])%list)
      as [E1 E2].
    rewrite E1, E2, length_app. cbn. split; [lia | reflexivity].
Qed.




(** C7.  [socketserver.TCPServer] handles the connections one after the
    other, inside [serve_forever] itself: a connection is handled when the
    handler of the one before has returned.  The connections before the
    first one that stalls are served, each once; the loop then stays in
    the handler of the stalled one and nothing after it is served. *)
Theorem C7_connections_served_in_sequence :
  forall L fs parent os conns1 peer conns2,
    socketserver.port_in_use os server.PORT = false ->
    Forall is_Conn conns1 ->
    let pr :=
      server.start_server L fs parent os
        (conns1 ++ server.Stalled peer :: conns2) false in
    server.state pr = server.InHandler
    /\ server.served pr
       = server.served (server.start_server L fs parent os conns1 false)
    /\ length (server.served pr) = length conns1
    /\ (forall client requests rest out done,
           let h := server.MyHTTPRequestHandler L fs parent client requests out in
           server.serve_forever L fs parent
             (server.Conn client requests :: rest) out done
           = server.serve_forever L fs parent rest (stdout h)
               (done ++ [wfile h])%list).
Proof.
  intros L fs parent os conns1 peer conns2 Hp Hc pr. subst pr.
  rewrite !(start_server_free L fs parent os _ false Hp). cbv zeta.
  cbn [server.state server.served].
  rewrite (serve_forever_stalled L fs parent peer conns2 conns1 Hc).
  cbn [fst snd].
  destruct (serve_forever_served L fs parent conns1 Hc (server.banner parent) [])
    as [E _].
  repeat split. exact E.
Qed.

Lemma C7_connections_witness :
  (socketserver.port_in_use Example.free_host server.PORT = false
   /\ Forall is_Conn
        [server.Conn Example.client
           [Example.request "GET /index.html HTTP/1.1" []]])
  /\ server.state
       (server.start_server Example.lib Example.fs Example.parent
          Example.free_host
          ([server.Conn Example.client
              [Example.request "GET /index.html HTTP/1.1" []]]
           ++ server.Stalled ("10.0.0.7", 40000%N)
           :: [server.Conn Example.client
                 [Example.request "GET /index.html HTTP/1.1" []]])
          false)
     = server.InHandler.
Proof.
  assert (Hc : Forall is_Conn
                 [server.Conn Example.client
                    [Example.request "GET /index.html HTTP/1.1" []]])
    by (constructor; [exact I | constructor]).
  split; [split; [reflexivity | exact Hc] |].
  pose proof (C7_connections_served_in_sequence Example.lib Example.fs
                Example.parent Example.free_host _
                ("10.0.0.7", 40000%N)
                [server.Conn Example.client
                   [Example.request "GET /index.html HTTP/1.1" []]]
                eq_refl Hc) as H.
  cbv zeta in H. exact (proj1 H).
Defined.

(** The claim as worded fails with one slow client ahead of a quick one:
    the quick one, answered at once when alone, is not answered at all. *)
Lemma C7_counterexample :
  let slow := server.Stalled ("10.0.0.7", 40000%N) in
  let quick :=
    server.Conn Example.client
      [Example.request "GET /index.html HTTP/1.1" []] in
  let run conns :=
    server.start_server Example.lib Example.fs Example.parent
      Example.free_host conns false in
  server.served (run [quick])
  = [wfile (Example.answer Example.fs "GET /index.html HTTP/1.1" [])]
  /\ server.served (run [slow; quick]) = []
  /\ server.state (run [slow; quick]) = server.InHandler.
Proof. cbv zeta. repeat split; vm_compute; reflexivity. Qed.



(** * Further properties of the handler and of the process *)

(** ** Methods that do not read the input or the output *)

Section Commutes.

Variable L : pylib.
Variable fs : filesystem.
Variable parent : string.

Local Abbreviation sv := server.server_version.
Local Abbreviation logm := server.log_message.
Local Abbreviation endh := server.end_headers.

Lemma commutes_ret {A} (a : A) : commutes (ret a).
Proof. intros r o h. reflexivity. Qed.

Lemma commutes_bind {A B} (m : M A) (k : A -> M B) :
  commutes m -> (forall a, commutes (k a)) -> commutes (bind m k).
Proof.
  intros Hm Hk r o h. rewrite !bind_eq, Hm. cbn [fst snd]. apply Hk.
Qed.

Lemma commutes_gets {A} (f : handler -> A) :
  (forall r o h, f (shift r o h) = f h) -> commutes (gets f).
Proof. intros Hf r o h. unfold gets. rewrite Hf. reflexivity. Qed.

Lemma commutes_modify (f : handler -> handler) :
  (forall r o h, f (shift r o h) = shift r o (f h)) -> commutes (modify f).
Proof. intros Hf r o h. unfold modify. rewrite Hf. reflexivity. Qed.

Lemma commutes_when b (m : M unit) : commutes m -> commutes (when b m).
Proof. intros Hm. destruct b; [exact Hm | apply commutes_ret]. Qed.

Lemma commutes_log_message msg : commutes (server.log_message msg).
Proof.
  intros r o h. rewrite !log_message_eq. unfold logged, shift. fields.
  unfold set_rfile, set_stdout. fields. rewrite app_assoc. reflexivity.
Qed.

Create HintDb shifts.
#[local] Hint Resolve commutes_log_message : shifts.

Ltac commutes_step :=
  lazymatch goal with
  | |- commutes (ret _) => apply commutes_ret
  | |- commutes (gets _) => apply commutes_gets; reflexivity
  | |- commutes (modify _) => apply commutes_modify; reflexivity
  | |- commutes (when _ _) => apply commutes_when
  | |- commutes (bind _ _) => apply commutes_bind; [| intros ?]
  | |- commutes (if ?b then _ else _) => destruct b
  | |- commutes (match ?x with _ => _ end) => destruct x
  | |- _ => solve [auto with shifts]
  end.

Ltac commutes_auto := repeat commutes_step.

Lemma commutes_send_response_only code msg :
  commutes (http_server.send_response_only code msg).
Proof. unfold http_server.send_response_only. commutes_auto. Qed.

Lemma commutes_send_header k v : commutes (http_server.send_header k v).
Proof. unfold http_server.send_header. commutes_auto. Qed.

#[local] Hint Resolve commutes_send_response_only commutes_send_header : shifts.

Lemma commutes_end_headers : commutes server.end_headers.
Proof.
  unfold server.end_headers, http_server.end_headers, http_server.flush_headers.
  commutes_auto.
Qed.

#[local] Hint Resolve commutes_end_headers : shifts.

Lemma commutes_send_response code msg :
  commutes (http_server.send_response L sv logm code msg).
Proof.
  unfold http_server.send_response, http_server.log_request. commutes_auto.
Qed.

#[local] Hint Resolve commutes_send_response : shifts.

Lemma commutes_send_error code msg explain :
  commutes (http_server.send_error L sv endh logm code msg explain).
Proof.
  unfold http_server.send_error, http_server.log_error, http_server.wfile_write.
  commutes_auto.
Qed.

#[local] Hint Resolve commutes_send_error : shifts.

Lemma commutes_send_head : commutes (server.send_head L fs parent).
Proof.
  unfold server.send_head, http_server.send_head, http_server.send_head_file,
    http_server.list_directory.
  commutes_auto.
Qed.

#[local] Hint Resolve commutes_send_head : shifts.

Lemma commutes_parse_request raw : commutes (server.parse_request L raw).
Proof.
  unfold server.parse_request, http_server.parse_request,
    http_server.handle_expect_100.
  commutes_auto.
Qed.

#[local] Hint Resolve commutes_parse_request : shifts.

(** Once the request line is read, [handle_one_request] goes on with a
    method that reads no more input. *)
Lemma handle_one_request_read raw :
  exists K : M unit,
    (forall rest h,
        rfile h = raw :: rest ->
        server.handle_one_request L fs parent h = K (set_rfile rest h))
    /\ commutes K.
Proof.
  eexists. split.
  - intros rest h Hr.
    unfold server.handle_one_request, http_server.handle_one_request.
    unfold gets at 1. rewrite bind_eq. cbv beta. cbn [fst snd]. rewrite Hr.
    unfold modify at 1. rewrite bind_eq. cbv beta. cbn [fst snd].
    match goal with |- ?f ?x = _ => instantiate (1 := f) end.
    reflexivity.
  - fold (server.parse_request L).
    unfold server.method, server.do_GET, server.do_HEAD, http_server.do_GET,
      http_server.do_HEAD, http_server.copyfile, http_server.wfile_write.
    fold (server.send_head L fs parent).
    destruct (_ <? _)%N; [commutes_auto |].
    destruct (_ =? ""); [commutes_auto |].
    apply commutes_bind; [auto with shifts | intros ok].
    destruct ok; cbn [negb]; [| commutes_auto].
    apply commutes_bind; [commutes_auto | intros cmd]. cbv zeta.
    destruct (_ =? "GET"); [commutes_auto |].
    destruct (_ =? "HEAD"); commutes_auto.
Qed.

Lemma handle_one_request_shift raw rest rest' o h :
  rfile h = raw :: rest ->
  server.handle_one_request L fs parent (shift (raw :: rest') o h)
  = (tt, shift rest' o (snd (server.handle_one_request L fs parent h))).
Proof.
  intros Hr. destruct (handle_one_request_read raw) as (K & E & HK).
  rewrite (E rest h Hr), (E rest' (shift (raw :: rest') o h) eq_refl).
  change (set_rfile rest' (shift (raw :: rest') o h))
    with (shift rest' o (set_rfile rest h)).
  rewrite HK. destruct (fst (K (set_rfile rest h))). reflexivity.
Qed.

Lemma handler_shift client raw rest out :
  server.MyHTTPRequestHandler L fs parent client (raw :: rest) out
  = shift rest out (server.MyHTTPRequestHandler L fs parent client [raw] []).
Proof.
  unfold server.MyHTTPRequestHandler, exec.
  destruct (handle_eq L fs parent (server.new_handler client (raw :: rest) out))
    as [E1 _]; [split; reflexivity |].
  destruct (handle_eq L fs parent (server.new_handler client [raw] []))
    as [E2 _]; [split; reflexivity |].
  rewrite E1, E2. cbn [snd].
  replace (set_close_connection true (server.new_handler client (raw :: rest) out))
    with (shift (raw :: rest) out
            (set_close_connection true (server.new_handler client [raw] [])))
    by (unfold shift; cbn; rewrite app_nil_r; reflexivity).
  rewrite (handle_one_request_shift raw [] rest) by reflexivity.
  reflexivity.
Qed.

Lemma handler_nothing_sent client out :
  server.MyHTTPRequestHandler L fs parent client [] out
  = set_close_connection true (server.new_handler client [] out).
Proof.
  unfold server.MyHTTPRequestHandler, exec.
  destruct (handle_eq L fs parent (server.new_handler client [] out))
    as [E _]; [split; reflexivity |].
  rewrite E. reflexivity.
Qed.

End Commutes.

(** ** Request lines the parser rejects *)

Lemma modify_eq f h : modify f h = (tt, f h).
Proof. reflexivity. Qed.

Lemma run_unit (m : M unit) h : m h = (tt, snd (m h)).
Proof. destruct (m h) as [[] h1]. reflexivity. Qed.

Ltac step_modify := eapply run_bind; [apply modify_eq | cbv beta].

Section Rejected.

Variable L : pylib.
Variable fs : filesystem.
Variable parent : string.

(** The handler's fields when [parse_request] has looked at the request
    line and not yet at its words. *)
Local Abbreviation started rl h :=
  (set_requestline rl
     (set_close_connection true
        (set_request_version "HTTP/0.9" (set_command None h)))).

Lemma split_ws_not_empty s : Str.split_ws s <> [] -> (s =? "") = false.
Proof. destruct s; [intros H; destruct H; reflexivity | reflexivity]. Qed.

Lemma rstrip_not_empty p s : Str.rstrip p s <> "" -> (s =? "") = false.
Proof. destruct s; [intros H; destruct H; reflexivity | reflexivity]. Qed.

Lemma words_line_not_empty raw :
  Str.split_ws (Str.rstrip Str.is_crlf (raw_requestline raw)) <> [] ->
  (raw_requestline raw =? "") = false.
Proof.
  intros H. apply (rstrip_not_empty Str.is_crlf).
  intros E. rewrite E in H. apply H. reflexivity.
Qed.

(** A request line [parse_request] does not accept: the handler ends as
    [parse_request] leaves it. *)
Lemma handler_unparsed client raw rest out (h1 : handler -> handler) :
  (65536 <? N.of_nat (String.length (raw_requestline raw)))%N = false ->
  (raw_requestline raw =? "") = false ->
  (forall h, server.parse_request L raw h = (false, h1 h)) ->
  server.MyHTTPRequestHandler L fs parent client (raw :: rest) out
  = h1 (set_rfile rest
          (set_close_connection true
             (server.new_handler client (raw :: rest) out))).
Proof.
  intros Hlen Hne Hp.
  unfold server.MyHTTPRequestHandler, exec.
  destruct (handle_eq L fs parent (server.new_handler client (raw :: rest) out))
    as [E _]; [split; reflexivity |].
  rewrite E. cbn [snd].
  unfold server.handle_one_request, http_server.handle_one_request.
  unfold gets at 1. rewrite bind_eq. cbv beta.
  cbn [fst snd rfile set_close_connection server.new_handler].
  unfold modify at 1. rewrite bind_eq. cbv beta. cbn [fst snd].
  rewrite Hlen, Hne. fold (server.parse_request L).
  erewrite run_bind; [| apply Hp | reflexivity]. reflexivity.
Qed.

(** A request line for which [parse_request] sends an error: the response
    is that error response and nothing else. *)
Lemma handler_rejected client raw rest out h1 code msg :
  (65536 <? N.of_nat (String.length (raw_requestline raw)))%N = false ->
  (raw_requestline raw =? "") = false ->
  (forall h, server.parse_request L raw h
             = (false, snd (server.send_error L code (Some msg) None (h1 h)))) ->
  has_body code = true ->
  (forall h, wfile (h1 h) = wfile h /\ _headers_buffer (h1 h) = _headers_buffer h
             /\ stdout (h1 h) = stdout h
             /\ client_address (h1 h) = client_address h) ->
  let h0 := set_rfile rest
              (set_close_connection true
                 (server.new_handler client (raw :: rest) out)) in
  let h := server.MyHTTPRequestHandler L fs parent client (raw :: rest) out in
  wfile h = error_response L (request_version (h1 h0)) code msg
              (http_server.is_HEAD (command (h1 h0)))
  /\ stdout h = (out ++ error_log client (requestline (h1 h0)) code msg)%list.
Proof.
  intros Hlen Hne Hp Hcode Hq h0 h. subst h.
  rewrite (handler_unparsed client raw rest out _ Hlen Hne Hp). fold h0.
  destruct (Hq h0) as (Hw & Hb & Ho & Hc).
  destruct (send_error_writes L code msg (h1 h0) Hcode) as [E1 E2];
    [rewrite Hw; reflexivity | rewrite Hb; reflexivity |].
  rewrite E1, E2, Ho, Hc. split; reflexivity.
Qed.

Lemma parse_request_bad_version raw words h :
  Str.split_ws (Str.rstrip Str.is_crlf (raw_requestline raw)) = words ->
  (3 <= length words)%nat ->
  http_server.parse_version L (last words "") = None ->
  server.parse_request L raw h
  = (false,
     snd (server.send_error L HTTPStatus.BAD_REQUEST
            (Some ("Bad request version (" ++ py_repr L (last words "") ++ ")"))
            None (started (Str.rstrip Str.is_crlf (raw_requestline raw)) h))).
Proof.
  intros Hwords Hn Hver.
  unfold server.parse_request, http_server.parse_request.
  cbv zeta. rewrite Hwords.
  replace (length words =? 0)%nat with false
    by (symmetry; apply Nat.eqb_neq; lia).
  replace (3 <=? length words)%nat with true
    by (symmetry; apply Nat.leb_le; exact Hn).
  rewrite Hver. fold (server.send_error L).
  do 4 step_modify.
  eapply run_bind;
    [eapply run_bind; [apply run_unit | reflexivity] | cbv beta].
  reflexivity.
Qed.

Lemma protocol_is_1_0 : str_ge http_server.protocol_version "HTTP/1.1" = false.
Proof. reflexivity. Qed.

Lemma parse_request_unsupported_version raw words base vn h :
  Str.split_ws (Str.rstrip Str.is_crlf (raw_requestline raw)) = words ->
  (3 <= length words)%nat ->
  http_server.parse_version L (last words "") = Some (base, vn) ->
  pair_ge vn (2, 0)%Z = true ->
  server.parse_request L raw h
  = (false,
     snd (server.send_error L HTTPStatus.HTTP_VERSION_NOT_SUPPORTED
            (Some ("Invalid HTTP version (" ++ base ++ ")"))
            None (started (Str.rstrip Str.is_crlf (raw_requestline raw)) h))).
Proof.
  intros Hwords Hn Hver Hge.
  unfold server.parse_request, http_server.parse_request.
  cbv zeta. rewrite Hwords.
  replace (length words =? 0)%nat with false
    by (symmetry; apply Nat.eqb_neq; lia).
  replace (3 <=? length words)%nat with true
    by (symmetry; apply Nat.leb_le; exact Hn).
  rewrite Hver, Hge, protocol_is_1_0, andb_false_r.
  fold (server.send_error L).
  do 4 step_modify.
  eapply run_bind;
    [ eapply run_bind; [reflexivity | cbv beta];
      eapply run_bind; [apply run_unit | reflexivity]
    | cbv beta ].
  reflexivity.
Qed.

Lemma parse_request_one_word raw w h :
  Str.split_ws (Str.rstrip Str.is_crlf (raw_requestline raw)) = [w] ->
  server.parse_request L raw h
  = (false,
     snd (server.send_error L HTTPStatus.BAD_REQUEST
            (Some ("Bad request syntax ("
                   ++ py_repr L (Str.rstrip Str.is_crlf (raw_requestline raw))
                   ++ ")"))
            None (started (Str.rstrip Str.is_crlf (raw_requestline raw)) h))).
Proof.
  intros Hwords.
  unfold server.parse_request, http_server.parse_request.
  cbv zeta. rewrite Hwords. cbn [length Nat.eqb Nat.leb negb andb].
  fold (server.send_error L).
  do 4 step_modify.
  eapply run_bind; [reflexivity | cbv beta]. cbn [negb].
  eapply run_bind; [apply run_unit | reflexivity].
Qed.

Lemma parse_request_bad_type raw cmd p h :
  Str.split_ws (Str.rstrip Str.is_crlf (raw_requestline raw)) = [cmd; p] ->
  (cmd =? "GET") = false ->
  server.parse_request L raw h
  = (false,
     snd (server.send_error L HTTPStatus.BAD_REQUEST
            (Some ("Bad HTTP/0.9 request type (" ++ py_repr L cmd ++ ")"))
            None (started (Str.rstrip Str.is_crlf (raw_requestline raw)) h))).
Proof.
  intros Hwords Hcmd.
  unfold server.parse_request, http_server.parse_request.
  cbv zeta. rewrite Hwords. cbn [length Nat.eqb Nat.leb negb andb nth].
  rewrite Hcmd. cbn [negb].
  fold (server.send_error L).
  do 4 step_modify.
  eapply run_bind; [reflexivity | cbv beta]. cbn [negb].
  eapply run_bind;
    [ eapply run_bind; [apply modify_eq | cbv beta];
      eapply run_bind; [apply run_unit | reflexivity]
    | cbv beta ].
  reflexivity.
Qed.

Lemma parse_request_extra_words raw words v base vn h :
  Str.split_ws (Str.rstrip Str.is_crlf (raw_requestline raw)) = words ->
  (4 <= length words)%nat ->
  last words "" = v ->
  http_server.parse_version L v = Some (base, vn) ->
  pair_ge vn (2, 0)%Z = false ->
  server.parse_request L raw h
  = (false,
     snd (server.send_error L HTTPStatus.BAD_REQUEST
            (Some ("Bad request syntax ("
                   ++ py_repr L (Str.rstrip Str.is_crlf (raw_requestline raw))
                   ++ ")"))
            None
            (set_request_version v
               (started (Str.rstrip Str.is_crlf (raw_requestline raw)) h)))).
Proof.
  intros Hwords Hn Hlast Hver Hlt.
  unfold server.parse_request, http_server.parse_request.
  cbv zeta. rewrite Hwords, Hlast.
  replace (length words =? 0)%nat with false
    by (symmetry; apply Nat.eqb_neq; lia).
  replace (3 <=? length words)%nat with true
    by (symmetry; apply Nat.leb_le; lia).
  replace (length words <=? 3)%nat with false
    by (symmetry; apply Nat.leb_gt; lia).
  rewrite Hver, Hlt, protocol_is_1_0, !andb_false_r.
  fold (server.send_error L).
  do 4 step_modify.
  eapply run_bind;
    [ eapply run_bind; [reflexivity | cbv beta];
      eapply run_bind; [apply modify_eq | reflexivity]
    | cbv beta ].
  cbn [negb].
  eapply run_bind; [apply run_unit | reflexivity].
Qed.

Lemma parse_request_blank raw h :
  Str.split_ws (Str.rstrip Str.is_crlf (raw_requestline raw)) = [] ->
  server.parse_request L raw h
  = (false, started (Str.rstrip Str.is_crlf (raw_requestline raw)) h).
Proof.
  intros Hwords.
  unfold server.parse_request, http_server.parse_request.
  cbv zeta. rewrite Hwords. cbn [length Nat.eqb].
  do 4 step_modify. reflexivity.
Qed.

Lemma send_error_default code short long h :
  HTTPStatus.responses code = Some (short, long) ->
  server.send_error L code None None h
  = server.send_error L code (Some short) None h.
Proof.
  intros Hr. unfold server.send_error, http_server.send_error.
  rewrite Hr. reflexivity.
Qed.

(** A request line longer than 65536 bytes. *)
Lemma handler_uri_too_long client raw rest out :
  (65536 <? N.of_nat (String.length (raw_requestline raw)))%N = true ->
  server.MyHTTPRequestHandler L fs parent client (raw :: rest) out
  = snd (server.send_error L HTTPStatus.REQUEST_URI_TOO_LONG
           (Some "Request-URI Too Long") None
           (set_command (Some "")
              (set_request_version ""
                 (set_requestline ""
                    (set_rfile rest
                       (set_close_connection true
                          (server.new_handler client (raw :: rest) out))))))).
Proof.
  intros Hlen.
  unfold server.MyHTTPRequestHandler, exec.
  destruct (handle_eq L fs parent (server.new_handler client (raw :: rest) out))
    as [E _]; [split; reflexivity |].
  rewrite E. cbn [snd].
  unfold server.handle_one_request, http_server.handle_one_request.
  unfold gets at 1. rewrite bind_eq. cbv beta.
  cbn [fst snd rfile set_close_connection server.new_handler].
  unfold modify at 1. rewrite bind_eq. cbv beta. cbn [fst snd].
  rewrite Hlen. fold (server.send_error L). apply (f_equal snd).
  do 3 step_modify.
  rewrite (send_error_default _ "Request-URI Too Long" "URI is too long")
    by reflexivity.
  reflexivity.
Qed.

(** [readline] returns nothing: the stream has ended. *)
Lemma handler_end_of_stream client raw rest out :
  (65536 <? N.of_nat (String.length (raw_requestline raw)))%N = false ->
  (raw_requestline raw =? "") = true ->
  server.MyHTTPRequestHandler L fs parent client (raw :: rest) out
  = set_close_connection true
      (set_rfile rest
         (set_close_connection true
            (server.new_handler client (raw :: rest) out))).
Proof.
  intros Hlen Hne.
  unfold server.MyHTTPRequestHandler, exec.
  destruct (handle_eq L fs parent (server.new_handler client (raw :: rest) out))
    as [E _]; [split; reflexivity |].
  rewrite E. cbn [snd].
  unfold server.handle_one_request, http_server.handle_one_request.
  unfold gets at 1. rewrite bind_eq. cbv beta.
  cbn [fst snd rfile set_close_connection server.new_handler].
  unfold modify at 1. rewrite bind_eq. cbv beta. cbn [fst snd].
  rewrite Hlen, Hne. reflexivity.
Qed.

End Rejected.

(** X1.  A connection on which no request line arrives before it ends, or on
    which the line is blank, gets no response at all and leaves no line
    on standard output. *)
Theorem no_request_no_response :
  forall L fs parent client requests out,
    (requests = []
     \/ exists raw rest,
         requests = raw :: rest
         /\ (65536 <? N.of_nat (String.length (raw_requestline raw)))%N = false
         /\ Str.split_ws (Str.rstrip Str.is_crlf (raw_requestline raw)) = []) ->
    let h := server.MyHTTPRequestHandler L fs parent client requests out in
    wfile h = [] /\ stdout h = out /\ close_connection h = true.
Proof.
  intros L fs parent client requests out [-> | (raw & rest & -> & Hlen & Hw)] h;
    subst h.
  - rewrite handler_nothing_sent. repeat split.
  - destruct (raw_requestline raw =? "") eqn:Hne.
    + rewrite (handler_end_of_stream L fs parent client raw rest out Hlen Hne).
      repeat split.
    + rewrite (handler_unparsed L fs parent client raw rest out _ Hlen Hne
                 (fun h => parse_request_blank L raw h Hw)).
      repeat split.
Qed.

Lemma no_request_no_response_witness :
  ([Example.request "" []] = []
   \/ exists raw rest,
       [Example.request "" []] = raw :: rest
       /\ (65536 <? N.of_nat (String.length (raw_requestline raw)))%N = false
       /\ Str.split_ws (Str.rstrip Str.is_crlf (raw_requestline raw)) = [])
  /\ wfile (Example.answer Example.fs "" []) = [].
Proof.
  assert (H : [Example.request "" []] = []
              \/ exists raw rest,
                  [Example.request "" []] = raw :: rest
                  /\ (65536 <? N.of_nat
                        (String.length (raw_requestline raw)))%N = false
                  /\ Str.split_ws
                       (Str.rstrip Str.is_crlf (raw_requestline raw)) = []).
  { right. exists (Example.request "" []), []. repeat split. }
  split; [exact H |].
  unfold Example.answer.
  pose proof (no_request_no_response Example.lib Example.fs Example.parent
                Example.client [Example.request "" []] [] H) as R.
  cbv zeta in R. exact (proj1 R).
Defined.

(** X2.  A request line of three or more words whose last word is not a
    well-formed HTTP version is answered 400 "Bad request version", and
    one whose version is 2.0 or higher 505 "Invalid HTTP version".  The
    version word is not recorded in either case, so the response is the
    error page alone: no status line and no headers. *)
Theorem version_errors_have_no_headers :
  forall L fs parent client raw rest out words,
    (65536 <? N.of_nat (String.length (raw_requestline raw)))%N = false ->
    Str.split_ws (Str.rstrip Str.is_crlf (raw_requestline raw)) = words ->
    (3 <= length words)%nat ->
    let rl := Str.rstrip Str.is_crlf (raw_requestline raw) in
    let h := server.MyHTTPRequestHandler L fs parent client (raw :: rest) out in
    (http_server.parse_version L (last words "") = None ->
     let msg := "Bad request version (" ++ py_repr L (last words "") ++ ")" in
     wfile h = [WBody (error_page 400 msg)]
     /\ stdout h = (out ++ error_log client rl 400 msg)%list)
    /\ (forall base vn,
           http_server.parse_version L (last words "") = Some (base, vn) ->
           pair_ge vn (2, 0)%Z = true ->
           let msg := "Invalid HTTP version (" ++ base ++ ")" in
           wfile h = [WBody (error_page 505 msg)]
           /\ stdout h = (out ++ error_log client rl 505 msg)%list).
Proof.
  intros L fs parent client raw rest out words Hlen Hwords Hn rl h.
  assert (Hne : (raw_requestline raw =? "") = false).
  { apply words_line_not_empty. rewrite Hwords.
    destruct words; [cbn in Hn; lia | discriminate]. }
  split.
  - intros Hver msg.
    apply (handler_rejected L fs parent client raw rest out
             (fun h => set_requestline rl
                         (set_close_connection true
                            (set_request_version "HTTP/0.9"
                               (set_command None h))))
             400 msg Hlen Hne).
    + intros h'. apply (parse_request_bad_version L raw words h' Hwords Hn Hver).
    + reflexivity.
    + intros h'. repeat split.
  - intros base vn Hver Hge msg.
    apply (handler_rejected L fs parent client raw rest out
             (fun h => set_requestline rl
                         (set_close_connection true
                            (set_request_version "HTTP/0.9"
                               (set_command None h))))
             505 msg Hlen Hne).
    + intros h'.
      apply (parse_request_unsupported_version L raw words base vn h'
               Hwords Hn Hver Hge).
    + reflexivity.
    + intros h'. repeat split.
Qed.

Lemma version_errors_witness :
  ((65536 <? N.of_nat (String.length
      (raw_requestline (Example.request "GET /index.html HTTP/2.0" []))))%N
   = false
   /\ Str.split_ws (Str.rstrip Str.is_crlf
        (raw_requestline (Example.request "GET /index.html HTTP/2.0" [])))
      = ["GET"; "/index.html"; "HTTP/2.0"]
   /\ (3 <= length ["GET"; "/index.html"; "HTTP/2.0"])%nat
   /\ http_server.parse_version Example.lib "HTTP/2.0" = Some ("2.0", (2, 0)%Z)
   /\ pair_ge (2, 0)%Z (2, 0)%Z = true)
  /\ wfile (Example.answer Example.fs "GET /index.html HTTP/2.0" [])
     = [WBody (error_page 505 "Invalid HTTP version (2.0)")].
Proof.
  assert (Hlen : (65536 <? N.of_nat (String.length
            (raw_requestline (Example.request "GET /index.html HTTP/2.0" []))))%N
          = false) by reflexivity.
  assert (Hw : Str.split_ws (Str.rstrip Str.is_crlf
            (raw_requestline (Example.request "GET /index.html HTTP/2.0" [])))
          = ["GET"; "/index.html"; "HTTP/2.0"]) by reflexivity.
  assert (Hn : (3 <= length ["GET"; "/index.html"; "HTTP/2.0"])%nat)
    by (cbn; lia).
  assert (Hv : http_server.parse_version Example.lib
                 (last ["GET"; "/index.html"; "HTTP/2.0"] "")
               = Some ("2.0", (2, 0)%Z)) by reflexivity.
  split; [repeat split; assumption |].
  unfold Example.answer.
  pose proof (version_errors_have_no_headers Example.lib Example.fs
                Example.parent Example.client
                (Example.request "GET /index.html HTTP/2.0" []) [] []
                ["GET"; "/index.html"; "HTTP/2.0"] Hlen Hw Hn) as H.
  cbv zeta in H. destruct H as [_ H].
  exact (proj1 (H "2.0" (2, 0)%Z Hv eq_refl)).
Defined.

(** X3.  A request line of one word is answered 400 "Bad request syntax", and
    one of two words whose first is not [GET] 400 "Bad HTTP/0.9 request
    type"; both responses are the error page alone, without status line
    or headers. *)
Theorem short_request_lines_are_rejected :
  forall L fs parent client raw rest out,
    (65536 <? N.of_nat (String.length (raw_requestline raw)))%N = false ->
    let rl := Str.rstrip Str.is_crlf (raw_requestline raw) in
    let h := server.MyHTTPRequestHandler L fs parent client (raw :: rest) out in
    (forall w,
        Str.split_ws rl = [w] ->
        let msg := "Bad request syntax (" ++ py_repr L rl ++ ")" in
        wfile h = [WBody (error_page 400 msg)]
        /\ stdout h = (out ++ error_log client rl 400 msg)%list)
    /\ (forall cmd p,
           Str.split_ws rl = [cmd; p] -> cmd <> "GET" ->
           let msg := "Bad HTTP/0.9 request type (" ++ py_repr L cmd ++ ")" in
           wfile h = [WBody (error_page 400 msg)]
           /\ stdout h = (out ++ error_log client rl 400 msg)%list).
Proof.
  intros L fs parent client raw rest out Hlen rl h. split.
  - intros w Hwords msg.
    assert (Hne : (raw_requestline raw =? "") = false)
      by (apply words_line_not_empty; fold rl; rewrite Hwords; discriminate).
    apply (handler_rejected L fs parent client raw rest out
             (fun h => set_requestline rl
                         (set_close_connection true
                            (set_request_version "HTTP/0.9"
                               (set_command None h))))
             400 msg Hlen Hne).
    + intros h'. apply (parse_request_one_word L raw w h' Hwords).
    + reflexivity.
    + intros h'. repeat split.
  - intros cmd p Hwords Hcmd msg.
    assert (Hne : (raw_requestline raw =? "") = false)
      by (apply words_line_not_empty; fold rl; rewrite Hwords; discriminate).
    apply (handler_rejected L fs parent client raw rest out
             (fun h => set_requestline rl
                         (set_close_connection true
                            (set_request_version "HTTP/0.9"
                               (set_command None h))))
             400 msg Hlen Hne).
    + intros h'. apply (parse_request_bad_type L raw cmd p h' Hwords).
      apply String.eqb_neq. exact Hcmd.
    + reflexivity.
    + intros h'. repeat split.
Qed.

Lemma short_request_lines_witness :
  ((65536 <? N.of_nat (String.length
      (raw_requestline (Example.request "POST /send" []))))%N = false
   /\ Str.split_ws (Str.rstrip Str.is_crlf
        (raw_requestline (Example.request "POST /send" [])))
      = ["POST"; "/send"]
   /\ "POST" <> "GET")
  /\ wfile (Example.answer Example.fs "POST /send" [])
     = [WBody (error_page 400 "Bad HTTP/0.9 request type ('POST')")].
Proof.
  assert (Hlen : (65536 <? N.of_nat (String.length
            (raw_requestline (Example.request "POST /send" []))))%N = false)
    by reflexivity.
  assert (Hw : Str.split_ws (Str.rstrip Str.is_crlf
            (raw_requestline (Example.request "POST /send" [])))
          = ["POST"; "/send"]) by reflexivity.
  assert (Hc : "POST" <> "GET") by discriminate.
  split; [repeat split; assumption |].
  unfold Example.answer.
  pose proof (short_request_lines_are_rejected Example.lib Example.fs
                Example.parent Example.client
                (Example.request "POST /send" []) [] [] Hlen) as H.
  cbv zeta in H. destruct H as [_ H].
  exact (proj1 (H "POST" "/send" Hw Hc)).
Defined.

(** X4.  A request line of four or more words (a request target with a blank
    in it) that ends in a version below 2.0 is answered 400 "Bad request
    syntax"; the version is recorded by then, so the response has its
    status line and the CORS headers. *)
Theorem extra_words_are_bad_syntax :
  forall L fs parent client raw rest out words v base vn,
    (65536 <? N.of_nat (String.length (raw_requestline raw)))%N = false ->
    Str.split_ws (Str.rstrip Str.is_crlf (raw_requestline raw)) = words ->
    (4 <= length words)%nat ->
    last words "" = v ->
    http_server.parse_version L v = Some (base, vn) ->
    pair_ge vn (2, 0)%Z = false ->
    let rl := Str.rstrip Str.is_crlf (raw_requestline raw) in
    let h := server.MyHTTPRequestHandler L fs parent client (raw :: rest) out in
    let msg := "Bad request syntax (" ++ py_repr L rl ++ ")" in
    wfile h = error_response L v 400 msg false
    /\ stdout h = (out ++ error_log client rl 400 msg)%list
    /\ (v <> "HTTP/0.9" ->
        status_of (wfile h) = Some 400 /\ carries_cors (wfile h)).
Proof.
  intros L fs parent client raw rest out words v base vn Hlen Hwords Hn Hlast
    Hver Hlt rl h msg.
  assert (Hne : (raw_requestline raw =? "") = false).
  { apply words_line_not_empty. rewrite Hwords.
    destruct words; [cbn in Hn; lia | discriminate]. }
  destruct (handler_rejected L fs parent client raw rest out
              (fun h => set_request_version v
                          (set_requestline rl
                             (set_close_connection true
                                (set_request_version "HTTP/0.9"
                                   (set_command None h)))))
              400 msg Hlen Hne) as [Hw Ho].
  - intros h'.
    apply (parse_request_extra_words L raw words v base vn h'
             Hwords Hn Hlast Hver Hlt).
  - reflexivity.
  - intros h'. repeat split.
  - cbn [request_version command set_request_version http_server.is_HEAD]
      in Hw.
    cbn [requestline set_request_version set_requestline] in Ho.
    fold h in Hw, Ho. split; [exact Hw |]. split; [exact Ho |].
    intros Hv. rewrite Hw.
    split; [apply error_response_status | apply error_response_cors]; exact Hv.
Qed.

Lemma extra_words_witness :
  ((65536 <? N.of_nat (String.length
      (raw_requestline (Example.request "GET /my file.js HTTP/1.1" []))))%N
   = false
   /\ Str.split_ws (Str.rstrip Str.is_crlf
        (raw_requestline (Example.request "GET /my file.js HTTP/1.1" [])))
      = ["GET"; "/my"; "file.js"; "HTTP/1.1"]
   /\ (4 <= length ["GET"; "/my"; "file.js"; "HTTP/1.1"])%nat
   /\ last ["GET"; "/my"; "file.js"; "HTTP/1.1"] "" = "HTTP/1.1"
   /\ http_server.parse_version Example.lib "HTTP/1.1" = Some ("1.1", (1, 1)%Z)
   /\ pair_ge (1, 1)%Z (2, 0)%Z = false)
  /\ status_of (wfile (Example.answer Example.fs "GET /my file.js HTTP/1.1" []))
     = Some 400.
Proof.
  assert (Hlen : (65536 <? N.of_nat (String.length
            (raw_requestline (Example.request "GET /my file.js HTTP/1.1" []))))%N
          = false) by reflexivity.
  assert (Hw : Str.split_ws (Str.rstrip Str.is_crlf
            (raw_requestline (Example.request "GET /my file.js HTTP/1.1" [])))
          = ["GET"; "/my"; "file.js"; "HTTP/1.1"]) by reflexivity.
  assert (Hn : (4 <= length ["GET"; "/my"; "file.js"; "HTTP/1.1"])%nat)
    by (cbn; lia).
  assert (Hv : http_server.parse_version Example.lib "HTTP/1.1"
               = Some ("1.1", (1, 1)%Z)) by reflexivity.
  split; [repeat split; assumption |].
  unfold Example.answer.
  pose proof (extra_words_are_bad_syntax Example.lib Example.fs
                Example.parent Example.client
                (Example.request "GET /my file.js HTTP/1.1" []) [] []
                ["GET"; "/my"; "file.js"; "HTTP/1.1"] "HTTP/1.1" "1.1"
                (1, 1)%Z Hlen Hw Hn eq_refl Hv eq_refl) as H.
  cbv zeta in H. destruct H as (_ & _ & H).
  assert (Hne : "HTTP/1.1" <> "HTTP/0.9") by discriminate.
  exact (proj1 (H Hne)).
Defined.

(** X5.  A request line of more than 65536 bytes is not parsed: the response
    is 414 "Request-URI Too Long", with status line and CORS headers, and
    the log shows an empty request line. *)
Theorem long_request_line_is_414 :
  forall L fs parent client raw rest out,
    (65536 <? N.of_nat (String.length (raw_requestline raw)))%N = true ->
    let h := server.MyHTTPRequestHandler L fs parent client (raw :: rest) out in
    wfile h = error_response L "" 414 "Request-URI Too Long" false
    /\ status_of (wfile h) = Some 414
    /\ carries_cors (wfile h)
    /\ stdout h = (out ++ error_log client "" 414 "Request-URI Too Long")%list.
Proof.
  intros L fs parent client raw rest out Hlen h. subst h.
  rewrite (handler_uri_too_long L fs parent client raw rest out Hlen).
  match goal with
  | |- context [server.send_error L ?c (Some ?m) None ?h0] =>
      destruct (send_error_writes L c m h0) as [Hw Ho];
        [reflexivity | reflexivity | reflexivity |]
  end.
  rewrite Hw, Ho.
  split; [reflexivity |].
  split; [apply error_response_status; discriminate |].
  split; [apply error_response_cors; discriminate | reflexivity].
Qed.

Lemma long_request_line_witness :
  (65536 <? N.of_nat (String.length
     (raw_requestline (Example.request ("GET /" ++ Str.repeat "a" 65536) []))))%N
  = true
  /\ status_of
       (wfile (Example.answer Example.fs ("GET /" ++ Str.repeat "a" 65536) []))
     = Some 414.
Proof.
  assert (Hlen : (65536 <? N.of_nat (String.length
            (raw_requestline
               (Example.request ("GET /" ++ Str.repeat "a" 65536) []))))%N
          = true) by (vm_compute; reflexivity).
  split; [exact Hlen |].
  unfold Example.answer.
  pose proof (long_request_line_is_414 Example.lib Example.fs Example.parent
                Example.client
                (Example.request ("GET /" ++ Str.repeat "a" 65536) []) [] []
                Hlen) as H.
  cbv zeta in H. exact (proj1 (proj2 H)).
Defined.

(** X6.  Only the first request of a connection is handled.  Whatever follows
    it on the connection, and whatever was printed before, the response
    and the lines printed are those of the first request taken alone; the
    requests that follow are left unread and the connection is closed. *)
Theorem only_the_first_request_is_handled :
  forall L fs parent client raw rest out,
    let h := server.MyHTTPRequestHandler L fs parent client (raw :: rest) out in
    let first := server.MyHTTPRequestHandler L fs parent client [raw] [] in
    wfile h = wfile first
    /\ stdout h = (out ++ stdout first)%list
    /\ rfile h = rest
    /\ close_connection h = true.
Proof.
  intros L fs parent client raw rest out h first. subst h first.
  rewrite (handler_shift L fs parent client raw rest out).
  repeat split.
  apply Settled_closed, handler_settled.
Qed.

Lemma handler_alone L fs parent peer requests out :
  let h := server.MyHTTPRequestHandler L fs parent peer requests out in
  let a := alone L fs parent (server.Conn peer requests) in
  wfile h = wfile a /\ stdout h = (out ++ stdout a)%list.
Proof.
  cbv zeta. destruct requests as [| raw rest].
  - cbn [alone firstn]. rewrite !handler_nothing_sent. cbn.
    rewrite app_nil_r. split; reflexivity.
  - cbn [alone firstn]. rewrite (handler_shift L fs parent peer raw rest out).
    split; reflexivity.
Qed.

Lemma serve_forever_alone L fs parent conns :
  Forall is_Conn conns ->
  forall out done,
    server.serve_forever L fs parent conns out done
    = ((out ++ flat_map (fun c => stdout (alone L fs parent c)) conns)%list,
       (done ++ map (fun c => wfile (alone L fs parent c)) conns)%list,
       false).
Proof.
  induction conns as [| c conns IH]; intros Hc out done.
  - cbn. rewrite !app_nil_r. reflexivity.
  - inversion Hc as [| c' l' Hc1 Hc2]; subst.
    destruct c as [peer requests | peer]; [| destruct Hc1].
    cbn [server.serve_forever]. rewrite (IH Hc2).
    destruct (handler_alone L fs parent peer requests out) as [Ew Eo].
    rewrite Ew, Eo. cbn [flat_map map]. rewrite <- !app_assoc. reflexivity.
Qed.

(** X7.  The server keeps nothing from one connection to the next.  When every
    connection ends, each is answered exactly as if it were the only one,
    one response per connection in the order of arrival; standard output
    is the banner followed by the lines of each connection in turn; and
    the server is then waiting for the next connection. *)
Theorem connections_are_served_independently :
  forall L fs parent os conns,
    socketserver.port_in_use os server.PORT = false ->
    Forall is_Conn conns ->
    let pr := server.start_server L fs parent os conns false in
    server.served pr = map (fun c => wfile (alone L fs parent c)) conns
    /\ server.printed pr
       = (server.banner parent
          ++ flat_map (fun c => stdout (alone L fs parent c)) conns)%list
    /\ server.state pr = server.Waiting.
Proof.
  intros L fs parent os conns Hp Hc pr. subst pr.
  rewrite (start_server_free L fs parent os conns false Hp). cbv zeta.
  rewrite (serve_forever_alone L fs parent conns Hc).
  cbn [fst snd server.served server.printed server.state]. repeat split.
Qed.

Lemma connections_independent_witness :
  (socketserver.port_in_use Example.free_host server.PORT = false
   /\ Forall is_Conn
        [server.Conn Example.client
           [Example.request "GET /nothing.js HTTP/1.1" []];
         server.Conn Example.client
           [Example.request "GET /index.html HTTP/1.1" []]])
  /\ server.served
       (server.start_server Example.lib Example.fs Example.parent
          Example.free_host
          [server.Conn Example.client
             [Example.request "GET /nothing.js HTTP/1.1" []];
           server.Conn Example.client
             [Example.request "GET /index.html HTTP/1.1" []]] false)
     = map (fun c => wfile (alone Example.lib Example.fs Example.parent c))
         [server.Conn Example.client
            [Example.request "GET /nothing.js HTTP/1.1" []];
          server.Conn Example.client
            [Example.request "GET /index.html HTTP/1.1" []]].
Proof.
  assert (Hc : Forall is_Conn
                 [server.Conn Example.client
                    [Example.request "GET /nothing.js HTTP/1.1" []];
                  server.Conn Example.client
                    [Example.request "GET /index.html HTTP/1.1" []]])
    by (repeat constructor).
  split; [split; [reflexivity | exact Hc] |].
  pose proof (connections_are_served_independently Example.lib Example.fs
                Example.parent Example.free_host _ eq_refl Hc) as H.
  cbv zeta in H. exact (proj1 H).
Defined.

(** ** Files and directories *)

Section Files.

Variable L : pylib.
Variable fs : filesystem.
Variable parent : string.

Local Abbreviation sv := server.server_version.
Local Abbreviation logm := server.log_message.
Local Abbreviation endh := server.end_headers.

Lemma do_HEAD_eq h :
  server.do_HEAD L fs parent h = (tt, snd (server.send_head L fs parent h)).
Proof.
  unfold server.do_HEAD, http_server.do_HEAD.
  fold (server.send_head L fs parent). rewrite bind_eq. reflexivity.
Qed.

Lemma do_GET_eq h :
  server.do_GET L fs parent h
  = (tt,
     match fst (server.send_head L fs parent h) with
     | Some data =>
         if data =? "" then snd (server.send_head L fs parent h)
         else written data (snd (server.send_head L fs parent h))
     | None => snd (server.send_head L fs parent h)
     end).
Proof.
  unfold server.do_GET, http_server.do_GET.
  fold (server.send_head L fs parent). rewrite bind_eq.
  destruct (fst (server.send_head L fs parent h)) as [data |];
    [| reflexivity].
  unfold http_server.copyfile, when, http_server.wfile_write, modify, ret,
    written.
  destruct (data =? ""); reflexivity.
Qed.

Lemma handler_get raw rest p v hs client out :
  accepted_request L raw "GET" p v hs ->
  server.MyHTTPRequestHandler L fs parent client (raw :: rest) out
  = snd (server.do_GET L fs parent
           (parsed (set_rfile rest (server.new_handler client (raw :: rest) out))
              (Str.rstrip Str.is_crlf (raw_requestline raw)) "GET" p v hs)).
Proof.
  intros Hreq.
  rewrite (handler_accepted L fs parent raw rest "GET" p v hs) by exact Hreq.
  reflexivity.
Qed.

Lemma handler_head raw rest p v hs client out :
  accepted_request L raw "HEAD" p v hs ->
  server.MyHTTPRequestHandler L fs parent client (raw :: rest) out
  = snd (server.send_head L fs parent
           (parsed (set_rfile rest (server.new_handler client (raw :: rest) out))
              (Str.rstrip Str.is_crlf (raw_requestline raw)) "HEAD" p v hs)).
Proof.
  intros Hreq.
  rewrite (handler_accepted L fs parent raw rest "HEAD" p v hs) by exact Hreq.
  replace (server.method L fs parent "HEAD")
    with (Some (server.do_HEAD L fs parent)) by reflexivity.
  rewrite do_HEAD_eq. reflexivity.
Qed.

(** [send_head] on a directory named without the slash at its end. *)
Lemma send_head_redirect h :
  os.isdir fs (server.translate_path L parent (path h)) = true ->
  Str.endswith Str.slash (urlsplit_path L (path h)) = false ->
  server.send_head L fs parent h
  = (None,
     flushed
       (buffered
          (response_lines L HTTPStatus.MOVED_PERMANENTLY None
           ++ [ HeaderLine "Location" (urlunsplit_slash L (path h));
                HeaderLine "Content-Length" "0" ]
           ++ cors_headers)
          (logged (Str.dq ++ requestline h ++ Str.dq ++ " 301 -") h))).
Proof.
  intros Hd Hs. unfold server.send_head, http_server.send_head.
  unfold gets at 1. rewrite bind_eq. cbv beta zeta. cbn [fst snd].
  unfold self_path. fold (server.translate_path L parent). rewrite Hd, Hs.
  cbn [negb].
  eapply run_bind; [apply send_response_eq | cbv beta].
  eapply run_bind; [apply send_header_buffered; reflexivity | cbv beta].
  eapply run_bind; [apply send_header_buffered; reflexivity | cbv beta].
  eapply run_bind; [apply end_headers_eq | cbv beta].
  rewrite !buffered_app, <- ?app_assoc. reflexivity.
Qed.

(** [send_head] on a directory named with the slash: the index file if
    there is one, the listing otherwise. *)
Lemma send_head_directory h :
  os.isdir fs (server.translate_path L parent (path h)) = true ->
  Str.endswith Str.slash (urlsplit_path L (path h)) = true ->
  let tp := server.translate_path L parent (path h) in
  server.send_head L fs parent h
  = if os.isfile fs (posixpath.join tp "index.html") then
      http_server.send_head_file L fs sv endh logm
        (posixpath.join tp "index.html") h
    else if os.isfile fs (posixpath.join tp "index.htm") then
      http_server.send_head_file L fs sv endh logm
        (posixpath.join tp "index.htm") h
    else http_server.list_directory L fs sv endh logm tp h.
Proof.
  intros Hd Hs tp. unfold server.send_head, http_server.send_head.
  unfold gets at 1. rewrite bind_eq. cbv beta zeta. cbn [fst snd].
  unfold self_path. fold (server.translate_path L parent). fold tp.
  unfold tp at 1. rewrite Hd, Hs. cbn [negb].
  destruct (os.isfile fs (posixpath.join tp "index.html")); [reflexivity |].
  destruct (os.isfile fs (posixpath.join tp "index.htm")); reflexivity.
Qed.

Lemma list_directory_listed tp entries h :
  os.listdir fs tp = Some entries ->
  let page := listing_page L (path h) tp entries in
  http_server.list_directory L fs sv endh logm tp h
  = (Some page,
     flushed
       (buffered
          (response_lines L HTTPStatus.OK None
           ++ [ HeaderLine "Content-type"
                  ("text/html; charset=" ++ getfilesystemencoding L);
                HeaderLine "Content-Length" (Str.of_nat (String.length page)) ]
           ++ cors_headers)
          (logged (Str.dq ++ requestline h ++ Str.dq ++ " 200 -") h))).
Proof.
  intros Hl page. unfold http_server.list_directory. rewrite Hl.
  unfold gets at 1. rewrite bind_eq. cbv beta zeta. cbn [fst snd].
  unfold self_path. fold page.
  eapply run_bind; [apply send_response_eq | cbv beta].
  eapply run_bind; [apply send_header_buffered; reflexivity | cbv beta].
  eapply run_bind; [apply send_header_buffered; reflexivity | cbv beta].
  eapply run_bind; [apply end_headers_eq | cbv beta].
  rewrite !buffered_app, <- ?app_assoc. reflexivity.
Qed.

Lemma list_directory_denied tp h :
  os.listdir fs tp = None ->
  http_server.list_directory L fs sv endh logm tp h
  = (None,
     snd (server.send_error L HTTPStatus.NOT_FOUND
            (Some "No permission to list directory") None h)).
Proof.
  intros Hl. unfold http_server.list_directory. rewrite Hl.
  fold (server.send_error L). rewrite bind_eq. reflexivity.
Qed.

Lemma endswith_app c s1 s2 :
  s2 <> "" -> Str.endswith c (s1 ++ s2) = Str.endswith c s2.
Proof.
  intros Hne. induction s1 as [| a s1 IH]; [reflexivity |].
  cbn [String.append]. cbn [Str.endswith].
  destruct (s1 ++ s2) eqn:E.
  - destruct s1; [cbn in E; contradiction | discriminate].
  - exact IH.
Qed.

Lemma join_index_no_slash tp name :
  name <> "" -> Str.startswith "/" name = false ->
  Str.endswith Str.slash name = false ->
  Str.endswith Str.slash (posixpath.join tp name) = false.
Proof.
  intros Hne Hs He. unfold posixpath.join. rewrite Hs.
  destruct ((tp =? "") || Str.endswith Str.slash tp).
  - rewrite endswith_app by exact Hne. exact He.
  - rewrite endswith_app by discriminate.
    rewrite (endswith_app _ "/" name) by exact Hne. exact He.
Qed.

(** The handler's state after an accepted GET or HEAD, from what
    [send_head] returns. *)
Lemma handler_get_or_head cmd raw rest p v hs client out :
  cmd = "GET" \/ cmd = "HEAD" ->
  accepted_request L raw cmd p v hs ->
  let s := parsed (set_rfile rest (server.new_handler client (raw :: rest) out))
             (Str.rstrip Str.is_crlf (raw_requestline raw)) cmd p v hs in
  server.MyHTTPRequestHandler L fs parent client (raw :: rest) out
  = match fst (server.send_head L fs parent s) with
    | Some data =>
        if (cmd =? "HEAD") || (data =? "")
        then snd (server.send_head L fs parent s)
        else written data (snd (server.send_head L fs parent s))
    | None => snd (server.send_head L fs parent s)
    end.
Proof.
  intros [-> | ->] Hreq s.
  - rewrite (handler_get raw rest p v hs client out Hreq). fold s.
    rewrite do_GET_eq. cbn [snd].
    replace ("GET" =? "HEAD") with false by reflexivity. reflexivity.
  - rewrite (handler_head raw rest p v hs client out Hreq). fold s.
    replace ("HEAD" =? "HEAD") with true by reflexivity.
    destruct (fst (server.send_head L fs parent s)); reflexivity.
Qed.

End Files.

(** X8.  Only GET and HEAD are implemented, and the names are matched as
    written: a request accepted with any other command word, [get] in
    lower case among them, is answered 501 "Unsupported method". *)
Theorem only_get_and_head_are_implemented :
  forall L fs parent client raw rest out cmd p v hs,
    accepted_request L raw cmd p v hs ->
    cmd <> "GET" -> cmd <> "HEAD" ->
    let h := server.MyHTTPRequestHandler L fs parent client (raw :: rest) out in
    let msg := "Unsupported method (" ++ py_repr L cmd ++ ")" in
    server.method L fs parent cmd = None
    /\ wfile h = error_response L v 501 msg false
    /\ stdout h
       = (out ++ error_log client (Str.rstrip Str.is_crlf (raw_requestline raw))
                   501 msg)%list
    /\ (v <> "HTTP/0.9" -> status_of (wfile h) = Some 501).
Proof.
  intros L fs parent client raw rest out cmd p v hs Hreq Hg Hh h msg.
  assert (Hm : server.method L fs parent cmd = None).
  { unfold server.method. apply String.eqb_neq in Hg, Hh. rewrite Hg, Hh.
    reflexivity. }
  destruct (unsupported_method L fs parent raw rest cmd p v hs client out
              Hreq Hm) as [Hw Ho].
  fold h msg in Hw, Ho.
  split; [exact Hm |]. split; [exact Hw |]. split; [exact Ho |].
  intros Hv. rewrite Hw. apply error_response_status, Hv.
Qed.

Lemma only_get_and_head_witness :
  (accepted_request Example.lib (Example.request "get /index.html HTTP/1.1" [])
     "get" "/index.html" "HTTP/1.1" []
   /\ "get" <> "GET" /\ "get" <> "HEAD")
  /\ status_of (wfile (Example.answer Example.fs "get /index.html HTTP/1.1" []))
     = Some 501.
Proof.
  assert (Hreq : accepted_request Example.lib
            (Example.request "get /index.html HTTP/1.1" [])
            "get" "/index.html" "HTTP/1.1" [])
    by (apply (example_accepted "get" "/index.html"); reflexivity).
  assert (Hg : "get" <> "GET") by discriminate.
  assert (Hh : "get" <> "HEAD") by discriminate.
  split; [repeat split; assumption |].
  unfold Example.answer.
  pose proof (only_get_and_head_are_implemented Example.lib Example.fs
                Example.parent Example.client
                (Example.request "get /index.html HTTP/1.1" []) [] []
                "get" "/index.html" "HTTP/1.1" [] Hreq Hg Hh) as H.
  cbv zeta in H. destruct H as (_ & _ & _ & H).
  assert (Hv : "HTTP/1.1" <> "HTTP/0.9") by discriminate.
  exact (H Hv).
Defined.

(** ** Reading the responses *)

Lemma redirect_response_facts L v location :
  body_of (redirect_response L v location) = ""
  /\ (v <> "HTTP/0.9" ->
      status_of (redirect_response L v location) = Some 301
      /\ In (HeaderLine "Location" location)
           (headers_of (redirect_response L v location))
      /\ carries_cors (redirect_response L v location)).
Proof.
  unfold redirect_response. split.
  - destruct (v =? "HTTP/0.9"); reflexivity.
  - intros Hv. apply String.eqb_neq in Hv. rewrite Hv.
    split; [reflexivity |]. split; [cbn; auto |].
    eexists _, []. split; [reflexivity |]. split; [| constructor].
    unfold response_lines. cbn [app].
    match goal with
    | |- response_head (StatusLine ?a ?c ?m :: ?x :: ?y :: ?z :: ?w :: ?r) =>
        apply (response_head_intro a c m [x; y; z; w])
    end.
    repeat constructor.
Qed.

Lemma listing_response_facts L v page head_only :
  body_of (listing_response L v page head_only)
  = (if head_only then "" else page)
  /\ (v <> "HTTP/0.9" ->
      status_of (listing_response L v page head_only) = Some 200
      /\ In (HeaderLine "Content-Length" (Str.of_nat (String.length page)))
           (headers_of (listing_response L v page head_only))
      /\ carries_cors (listing_response L v page head_only)).
Proof.
  unfold listing_response. split.
  - destruct (v =? "HTTP/0.9"), head_only; cbn [orb app body_of];
      try reflexivity;
      destruct (page =? "") eqn:Hp;
      try (apply String.eqb_eq in Hp; subst page);
      cbn [app body_of]; rewrite ?append_empty_r; reflexivity.
  - intros Hv. apply String.eqb_neq in Hv. rewrite Hv.
    split; [reflexivity |]. split; [cbn; auto |].
    eexists _, _. split; [reflexivity |]. split.
    + unfold response_lines. cbn [app].
      match goal with
      | |- response_head (StatusLine ?a ?c ?m :: ?x :: ?y :: ?z :: ?w :: ?r) =>
          apply (response_head_intro a c m [x; y; z; w])
      end.
      repeat constructor.
    + destruct (head_only || (page =? "")); repeat constructor.
Qed.

Lemma file_response_facts L v path data mtime hs head_only :
  http_server.not_modified_since L hs mtime = false ->
  body_of (file_response L v path data mtime hs head_only)
  = (if head_only then "" else data)
  /\ (v <> "HTTP/0.9" ->
      status_of (file_response L v path data mtime hs head_only) = Some 200
      /\ In (HeaderLine "Content-type" (http_server.guess_type L path))
           (headers_of (file_response L v path data mtime hs head_only))
      /\ In (HeaderLine "Content-Length" (Str.of_nat (String.length data)))
           (headers_of (file_response L v path data mtime hs head_only))
      /\ carries_cors (file_response L v path data mtime hs head_only)).
Proof.
  intros Hn. unfold file_response. rewrite Hn. split.
  - destruct (v =? "HTTP/0.9"), head_only; cbn [orb app body_of];
      try reflexivity;
      destruct (data =? "") eqn:Hp;
      try (apply String.eqb_eq in Hp; subst data);
      cbn [app body_of]; rewrite ?append_empty_r; reflexivity.
  - intros Hv. apply String.eqb_neq in Hv. rewrite Hv. cbn [app].
    split; [reflexivity |]. split; [cbn; auto |]. split; [cbn; auto |].
    eexists _, _. split; [reflexivity |].
    split; [apply file_lines_head |].
    destruct (head_only || (data =? "")); repeat constructor.
Qed.

Section Answers.

Variable L : pylib.
Variable fs : filesystem.
Variable parent : string.
Variable client : string * N.
Variable raw : raw_request.
Variable rest : list raw_request.
Variable out : list string.
Variables cmd p v : string.
Variable hs : list (string * string).

Hypothesis Hcmd : cmd = "GET" \/ cmd = "HEAD".
Hypothesis Hreq : accepted_request L raw cmd p v hs.

Local Abbreviation rl := (Str.rstrip Str.is_crlf (raw_requestline raw)).
Local Abbreviation s :=
  (parsed (set_rfile rest (server.new_handler client (raw :: rest) out))
     rl cmd p v hs).
Local Abbreviation h :=
  (server.MyHTTPRequestHandler L fs parent client (raw :: rest) out).

(** [send_head] has sent a header block of lines [ls]. *)
Lemma answer_sent f ls m :
  server.send_head L fs parent s = (f, flushed (buffered ls (logged m s))) ->
  wfile h
  = ((if v =? "HTTP/0.9" then []
      else [WHeaders (ls ++ [EndOfHeaders])%list])
     ++ match f with
        | Some data =>
            if (cmd =? "HEAD") || (data =? "") then [] else [WBody data]
        | None => []
        end)%list
  /\ stdout h = (out ++ [("[请求] " ++ fst client ++ " - " ++ m)%string])%list.
Proof.
  intros Hs.
  rewrite (handler_get_or_head L fs parent cmd raw rest p v hs client out
             Hcmd Hreq).
  rewrite Hs. cbn [fst snd].
  destruct (answered ls m s) as [Hw Ho]; [reflexivity | reflexivity |].
  change (request_version s) with v in Hw.
  change (stdout s) with out in Ho.
  change (client_address s) with client in Ho.
  destruct f as [data |].
  - destruct ((cmd =? "HEAD") || (data =? "")).
    + rewrite Hw, Ho, app_nil_r. split; reflexivity.
    + unfold written. cbn [wfile stdout set_wfile]. rewrite Hw, Ho.
      split; reflexivity.
  - rewrite Hw, Ho, app_nil_r. split; reflexivity.
Qed.

(** [send_head] has sent an error. *)
Lemma answer_error code msg :
  server.send_head L fs parent s
  = (None, snd (server.send_error L code (Some msg) None s)) ->
  has_body code = true ->
  wfile h = error_response L v code msg (cmd =? "HEAD")
  /\ stdout h = (out ++ error_log client rl code msg)%list.
Proof.
  intros Hs Hcode.
  rewrite (handler_get_or_head L fs parent cmd raw rest p v hs client out
             Hcmd Hreq).
  rewrite Hs. cbn [fst snd].
  destruct (send_error_writes L code msg s Hcode) as [Hw Ho];
    [reflexivity | reflexivity |].
  rewrite Hw, Ho. split; reflexivity.
Qed.

Local Abbreviation tp := (server.translate_path L parent (stored_path p)).

Lemma answer_file path data mtime :
  server.send_head L fs parent s
  = http_server.send_head_file L fs server.server_version server.end_headers
      server.log_message path s ->
  Str.endswith Str.slash path = false ->
  fs path = File data mtime ->
  wfile h = file_response L v path data mtime hs (cmd =? "HEAD")
  /\ stdout h
     = (out ++ [request_log client rl
                  (if http_server.not_modified_since L hs mtime
                   then 304 else 200)])%list.
Proof.
  intros Hs He Hf.
  rewrite (send_head_file_found L fs path data mtime s He Hf) in Hs.
  change (headers s) with hs in Hs. unfold file_response.
  destruct (http_server.not_modified_since L hs mtime).
  - destruct (answer_sent _ _ _ Hs) as [Hw Ho]. rewrite Hw, Ho.
    rewrite app_nil_r, <- app_assoc. split; reflexivity.
  - destruct (answer_sent _ _ _ Hs) as [Hw Ho]. rewrite Hw, Ho.
    rewrite <- app_assoc. split; reflexivity.
Qed.

Lemma answer_no_file path :
  server.send_head L fs parent s
  = http_server.send_head_file L fs server.server_version server.end_headers
      server.log_message path s ->
  Str.endswith Str.slash path = true \/ os.open_rb fs path = None ->
  wfile h = error_response L v 404 "File not found" (cmd =? "HEAD")
  /\ stdout h = (out ++ error_log client rl 404 "File not found")%list.
Proof.
  intros Hs Hm.
  rewrite (send_head_file_missing L fs path s Hm) in Hs.
  apply (answer_error _ _ Hs). reflexivity.
Qed.

End Answers.

Lemma head_of_redirect L v location :
  head_of (fun _ => redirect_response L v location).
Proof.
  split; [apply redirect_response_facts |].
  exists []. rewrite app_nil_r. split; [reflexivity | constructor].
Qed.

Lemma head_of_error L v code msg :
  head_of (error_response L v code msg).
Proof.
  unfold head_of, error_response. split.
  - destruct (v =? "HTTP/0.9"); reflexivity.
  - exists [WBody (error_page code msg)]. rewrite app_nil_r.
    split; [reflexivity | repeat constructor].
Qed.

Lemma head_of_file L v path data mtime hs :
  head_of (file_response L v path data mtime hs).
Proof.
  unfold head_of, file_response.
  destruct (http_server.not_modified_since L hs mtime).
  - split; [destruct (v =? "HTTP/0.9"); reflexivity |].
    exists []. rewrite app_nil_r. split; [reflexivity | constructor].
  - cbn [orb]. rewrite app_nil_r.
    split; [destruct (v =? "HTTP/0.9"); reflexivity |].
    eexists. split; [reflexivity |].
    destruct (data =? ""); repeat constructor.
Qed.

Lemma head_of_listing L v page :
  head_of (listing_response L v page).
Proof.
  unfold head_of, listing_response. cbn [orb]. rewrite app_nil_r.
  split; [destruct (v =? "HTTP/0.9"); reflexivity |].
  eexists. split; [reflexivity |].
  destruct (page =? ""); repeat constructor.
Qed.

Lemma form_head_of L v resp : response_form L v resp -> head_of resp.
Proof.
  intros [location | path data mtime hs | page | code msg];
    [ apply head_of_redirect | apply head_of_file | apply head_of_listing
    | apply head_of_error ].
Qed.

(** The response to an accepted GET or HEAD is settled by the path, the
    version, the headers and the files; the command only decides whether
    the body is sent. *)
Lemma response_shape L fs parent p v hs :
  exists resp : bool -> list chunk,
    response_form L v resp
    /\ forall client raw rest out cmd,
        cmd = "GET" \/ cmd = "HEAD" ->
        accepted_request L raw cmd p v hs ->
        wfile (server.MyHTTPRequestHandler L fs parent client (raw :: rest) out)
        = resp (cmd =? "HEAD").
Proof.
  set (tp := server.translate_path L parent (stored_path p)).
  assert (file_case : forall path,
    (forall client raw rest out cmd,
        cmd = "GET" \/ cmd = "HEAD" ->
        accepted_request L raw cmd p v hs ->
        server.send_head L fs parent
          (parsed (set_rfile rest (server.new_handler client (raw :: rest) out))
             (Str.rstrip Str.is_crlf (raw_requestline raw)) cmd p v hs)
        = http_server.send_head_file L fs server.server_version
            server.end_headers server.log_message path
            (parsed (set_rfile rest
                       (server.new_handler client (raw :: rest) out))
               (Str.rstrip Str.is_crlf (raw_requestline raw)) cmd p v hs)) ->
    exists resp : bool -> list chunk,
      response_form L v resp
      /\ forall client raw rest out cmd,
          cmd = "GET" \/ cmd = "HEAD" ->
          accepted_request L raw cmd p v hs ->
          wfile (server.MyHTTPRequestHandler L fs parent client
                   (raw :: rest) out)
          = resp (cmd =? "HEAD")).
  { intros path Hs.
    destruct (Str.endswith Str.slash path) eqn:He.
    - exists (error_response L v 404 "File not found").
      split; [constructor |].
      intros client raw rest out cmd Hcmd Hreq.
      apply (answer_no_file L fs parent client raw rest out cmd p v hs
               Hcmd Hreq path (Hs _ _ _ _ _ Hcmd Hreq)).
      left. exact He.
    - destruct (fs path) as [| data mtime | | listing] eqn:Hf.
      2: { exists (file_response L v path data mtime hs).
           split; [constructor |].
           intros client raw rest out cmd Hcmd Hreq.
           apply (answer_file L fs parent client raw rest out cmd p v hs
                    Hcmd Hreq path data mtime (Hs _ _ _ _ _ Hcmd Hreq) He Hf). }
      all: exists (error_response L v 404 "File not found");
        (split; [constructor |]);
        intros client raw rest out cmd Hcmd Hreq;
        apply (answer_no_file L fs parent client raw rest out cmd p v hs
                 Hcmd Hreq path (Hs _ _ _ _ _ Hcmd Hreq));
        right; unfold os.open_rb; rewrite Hf; reflexivity. }
  destruct (os.isdir fs tp) eqn:Hd.
  - destruct (Str.endswith Str.slash (urlsplit_path L (stored_path p))) eqn:Hsl.
    + destruct (os.isfile fs (posixpath.join tp "index.html")) eqn:Hi1;
        [| destruct (os.isfile fs (posixpath.join tp "index.htm")) eqn:Hi2].
      * apply (file_case (posixpath.join tp "index.html")).
        intros client raw rest out cmd Hcmd Hreq.
        rewrite send_head_directory by assumption.
        cbv zeta. change (path (parsed _ _ _ _ _ _)) with (stored_path p).
        fold tp. rewrite Hi1. reflexivity.
      * apply (file_case (posixpath.join tp "index.htm")).
        intros client raw rest out cmd Hcmd Hreq.
        rewrite send_head_directory by assumption.
        cbv zeta. change (path (parsed _ _ _ _ _ _)) with (stored_path p).
        fold tp. rewrite Hi1, Hi2. reflexivity.
      * destruct (os.listdir fs tp) as [entries |] eqn:Hl.
        -- exists (listing_response L v
                     (listing_page L (stored_path p) tp entries)).
           split; [constructor |].
           intros client raw rest out cmd Hcmd Hreq.
           edestruct (answer_sent L fs parent client raw rest out cmd p v hs
                        Hcmd Hreq) as [Hw _].
           { rewrite send_head_directory by assumption.
             cbv zeta. change (path (parsed _ _ _ _ _ _)) with (stored_path p).
             fold tp. rewrite Hi1, Hi2.
             apply (list_directory_listed L fs tp entries _ Hl). }
           rewrite Hw. unfold listing_response.
           change (path (parsed _ _ _ _ _ _)) with (stored_path p).
           rewrite <- !app_assoc. reflexivity.
        -- exists (error_response L v 404 "No permission to list directory").
           split; [constructor |].
           intros client raw rest out cmd Hcmd Hreq.
           refine (proj1 (answer_error L fs parent client raw rest out cmd p v hs
                            Hcmd Hreq _ _ _ _)); [| reflexivity].
           rewrite send_head_directory by assumption.
           cbv zeta. change (path (parsed _ _ _ _ _ _)) with (stored_path p).
           fold tp. rewrite Hi1, Hi2.
           apply (list_directory_denied L fs tp _ Hl).
    + exists (fun _ => redirect_response L v
                         (urlunsplit_slash L (stored_path p))).
      split; [constructor |].
      intros client raw rest out cmd Hcmd Hreq.
      edestruct (answer_sent L fs parent client raw rest out cmd p v hs
                   Hcmd Hreq) as [Hw _].
      { apply send_head_redirect; assumption. }
      rewrite Hw. unfold redirect_response.
      change (path (parsed _ _ _ _ _ _)) with (stored_path p).
      rewrite app_nil_r, <- !app_assoc. reflexivity.
  - apply (file_case tp).
    intros client raw rest out cmd Hcmd Hreq.
    apply send_head_not_dir. exact Hd.
Qed.

Lemma bodies_after response bodies :
  Forall is_body bodies ->
  status_of (response ++ bodies) = status_of response
  /\ headers_of (response ++ bodies) = headers_of response.
Proof.
  intros Hb. destruct response as [| [block | data] response].
  - destruct Hb as [| [block | data] bodies Hx _];
      [split; reflexivity | destruct Hx | split; reflexivity].
  - destruct block as [| [] block]; split; reflexivity.
  - split; reflexivity.
Qed.

(** X9.  The response to a HEAD request is the response to the GET request
    for the same path, version and headers without its body: the same
    status line and headers, [Content-Length] included, and no body
    bytes, whether the answer is a file, a listing, a redirection or an
    error. *)
Theorem head_is_get_without_body :
  forall L fs parent p v hs client raw rest out client' raw' rest' out',
    accepted_request L raw "GET" p v hs ->
    accepted_request L raw' "HEAD" p v hs ->
    let get := server.MyHTTPRequestHandler L fs parent client (raw :: rest) out in
    let head :=
      server.MyHTTPRequestHandler L fs parent client' (raw' :: rest') out' in
    body_of (wfile head) = ""
    /\ (exists bodies,
           wfile get = (wfile head ++ bodies)%list /\ Forall is_body bodies)
    /\ status_of (wfile head) = status_of (wfile get)
    /\ headers_of (wfile head) = headers_of (wfile get).
Proof.
  intros L fs parent p v hs client raw rest out client' raw' rest' out'
    Hg Hh get head.
  destruct (response_shape L fs parent p v hs) as (resp & Hform & Hresp).
  destruct (form_head_of L v resp Hform) as (Hbody & bodies & Hsplit & Hb).
  assert (Eg : wfile get = resp false)
    by (apply (Hresp client raw rest out "GET"); [left; reflexivity | exact Hg]).
  assert (Eh : wfile head = resp true)
    by (apply (Hresp client' raw' rest' out' "HEAD");
        [right; reflexivity | exact Hh]).
  rewrite Eg, Eh, Hsplit.
  split; [exact Hbody |]. split; [exists bodies; split; [reflexivity | exact Hb] |].
  destruct (bodies_after (resp true) bodies Hb) as [E1 E2].
  rewrite E1, E2. split; reflexivity.
Qed.

Lemma head_is_get_without_body_witness :
  (accepted_request Example.lib (Example.request "GET /index.html HTTP/1.1" [])
     "GET" "/index.html" "HTTP/1.1" []
   /\ accepted_request Example.lib
        (Example.request "HEAD /index.html HTTP/1.1" [])
        "HEAD" "/index.html" "HTTP/1.1" [])
  /\ body_of (wfile (Example.answer Example.fs "HEAD /index.html HTTP/1.1" []))
     = "".
Proof.
  assert (Hg : accepted_request Example.lib
            (Example.request "GET /index.html HTTP/1.1" [])
            "GET" "/index.html" "HTTP/1.1" [])
    by (apply (example_accepted "GET" "/index.html"); reflexivity).
  assert (Hh : accepted_request Example.lib
            (Example.request "HEAD /index.html HTTP/1.1" [])
            "HEAD" "/index.html" "HTTP/1.1" [])
    by (apply (example_accepted "HEAD" "/index.html"); reflexivity).
  split; [split; assumption |].
  unfold Example.answer.
  pose proof (head_is_get_without_body Example.lib Example.fs Example.parent
                "/index.html" "HTTP/1.1" []
                Example.client (Example.request "GET /index.html HTTP/1.1" [])
                [] []
                Example.client (Example.request "HEAD /index.html HTTP/1.1" [])
                [] [] Hg Hh) as H.
  cbv zeta in H. exact (proj1 H).
Defined.



(** X11.  A GET or HEAD for a directory named with the slash at its end is
    answered from the directory's [index.html], or from [index.htm] when
    there is no [index.html]: the response is the one for that file. *)
Theorem directory_index_is_served :
  forall L fs parent client raw rest out cmd p v hs data mtime,
    cmd = "GET" \/ cmd = "HEAD" ->
    accepted_request L raw cmd p v hs ->
    let tp := server.translate_path L parent (stored_path p) in
    os.isdir fs tp = true ->
    Str.endswith Str.slash (urlsplit_path L (stored_path p)) = true ->
    let index :=
      if os.isfile fs (posixpath.join tp "index.html")
      then posixpath.join tp "index.html"
      else posixpath.join tp "index.htm" in
    fs index = File data mtime ->
    let h := server.MyHTTPRequestHandler L fs parent client (raw :: rest) out in
    wfile h = file_response L v index data mtime hs (cmd =? "HEAD")
    /\ stdout h
       = (out ++ [request_log client
                    (Str.rstrip Str.is_crlf (raw_requestline raw))
                    (if http_server.not_modified_since L hs mtime
                     then 304 else 200)])%list
    /\ (http_server.not_modified_since L hs mtime = false ->
        body_of (wfile h) = (if cmd =? "HEAD" then "" else data)
        /\ (v <> "HTTP/0.9" ->
            status_of (wfile h) = Some 200
            /\ In (HeaderLine "Content-type" (http_server.guess_type L index))
                 (headers_of (wfile h)))).
Proof.
  intros L fs parent client raw rest out cmd p v hs data mtime Hcmd Hreq tp
    Hd Hs index Hf h.
  assert (He : Str.endswith Str.slash index = false).
  { subst index. destruct (os.isfile fs (posixpath.join tp "index.html"));
      apply join_index_no_slash; (discriminate || reflexivity). }
  destruct (answer_file L fs parent client raw rest out cmd p v hs Hcmd Hreq
              index data mtime) as [Hw Ho]; [| exact He | exact Hf |].
  { rewrite send_head_directory by assumption.
    cbv zeta. change (path (parsed _ _ _ _ _ _)) with (stored_path p).
    fold tp. subst index.
    destruct (os.isfile fs (posixpath.join tp "index.html")) eqn:Hi1;
      [reflexivity |].
    replace (os.isfile fs (posixpath.join tp "index.htm")) with true
      by (unfold os.isfile; rewrite Hf; reflexivity).
    reflexivity. }
  fold h in Hw, Ho. split; [exact Hw |]. split; [exact Ho |].
  intros Hn. rewrite Hw.
  destruct (file_response_facts L v index data mtime hs (cmd =? "HEAD") Hn)
    as [Hb Hfacts].
  split; [exact Hb |]. intros Hv. destruct (Hfacts Hv) as (H1 & H2 & _).
  split; assumption.
Qed.

Lemma directory_index_witness :
  (("GET" = "GET" \/ "GET" = "HEAD")
   /\ accepted_request Example.lib (Example.request "GET / HTTP/1.1" [])
        "GET" "/" "HTTP/1.1" []
   /\ os.isdir Site.fs
        (server.translate_path Example.lib Example.parent (stored_path "/"))
      = true
   /\ Str.endswith Str.slash (urlsplit_path Example.lib (stored_path "/"))
      = true
   /\ Site.fs
        (if os.isfile Site.fs
              (posixpath.join
                 (server.translate_path Example.lib Example.parent
                    (stored_path "/")) "index.html")
         then posixpath.join
                (server.translate_path Example.lib Example.parent
                   (stored_path "/")) "index.html"
         else posixpath.join
                (server.translate_path Example.lib Example.parent
                   (stored_path "/")) "index.htm")
      = File "<h1>hi</h1>" Example.modified)
  /\ body_of (wfile (Site.answer "GET / HTTP/1.1" [])) = "<h1>hi</h1>".
Proof.
  assert (Hc : "GET" = "GET" \/ "GET" = "HEAD") by (left; reflexivity).
  assert (Hreq : accepted_request Example.lib
            (Example.request "GET / HTTP/1.1" []) "GET" "/" "HTTP/1.1" [])
    by (apply (example_accepted "GET" "/"); reflexivity).
  assert (Hd : os.isdir Site.fs
                 (server.translate_path Example.lib Example.parent
                    (stored_path "/")) = true)
    by (vm_compute; reflexivity).
  assert (Hs : Str.endswith Str.slash
                 (urlsplit_path Example.lib (stored_path "/")) = true)
    by (vm_compute; reflexivity).
  assert (Hf : Site.fs
        (if os.isfile Site.fs
              (posixpath.join
                 (server.translate_path Example.lib Example.parent
                    (stored_path "/")) "index.html")
         then posixpath.join
                (server.translate_path Example.lib Example.parent
                   (stored_path "/")) "index.html"
         else posixpath.join
                (server.translate_path Example.lib Example.parent
                   (stored_path "/")) "index.htm")
      = File "<h1>hi</h1>" Example.modified)
    by (vm_compute; reflexivity).
  split; [repeat split; assumption |].
  unfold Site.answer.
  pose proof (directory_index_is_served Example.lib Site.fs
                Example.parent Example.client
                (Example.request "GET / HTTP/1.1" []) [] []
                "GET" "/" "HTTP/1.1" [] "<h1>hi</h1>" Example.modified
                Hc Hreq Hd Hs Hf) as H.
  cbv zeta in H. destruct H as (_ & _ & H).
  exact (proj1 (H eq_refl)).
Defined.





Lemma form_length L v resp :
  response_form L v resp ->
  v <> "HTTP/0.9" ->
  body_of (resp false) = ""
  \/ In (HeaderLine "Content-Length"
           (Str.of_nat (String.length (body_of (resp false)))))
        (headers_of (resp false)).
Proof.
  intros [location | path data mtime hs | page | code msg] Hv.
  - left. apply redirect_response_facts.
  - destruct (http_server.not_modified_since L hs mtime) eqn:Hn.
    + left. unfold file_response. rewrite Hn.
      destruct (v =? "HTTP/0.9"); reflexivity.
    + right.
      destruct (file_response_facts L v path data mtime hs false Hn)
        as [Hb Hfacts].
      rewrite Hb. apply (Hfacts Hv).
  - right. destruct (listing_response_facts L v page false) as [Hb Hfacts].
    rewrite Hb. apply (Hfacts Hv).
  - right. rewrite error_response_body. unfold error_response.
    apply String.eqb_neq in Hv. rewrite Hv. cbn. auto 10.
Qed.

(** X14.  Whenever the response to an accepted request has body bytes and a
    header block, the block has a [Content-Length] header that states
    their number, be the response a file, a listing or an error page. *)
Theorem content_length_is_the_body_length :
  forall L fs parent client raw rest out cmd p v hs,
    accepted_request L raw cmd p v hs ->
    v <> "HTTP/0.9" ->
    let h := server.MyHTTPRequestHandler L fs parent client (raw :: rest) out in
    body_of (wfile h) = ""
    \/ In (HeaderLine "Content-Length"
             (Str.of_nat (String.length (body_of (wfile h)))))
          (headers_of (wfile h)).
Proof.
  intros L fs parent client raw rest out cmd p v hs Hreq Hv h.
  destruct (response_shape L fs parent p v hs) as (resp & Hform & Hresp).
  destruct (cmd =? "GET") eqn:Hg; [apply String.eqb_eq in Hg; subst cmd |].
  - subst h. rewrite (Hresp client raw rest out "GET");
      [| left; reflexivity | exact Hreq].
    apply (form_length L v resp Hform Hv).
  - destruct (cmd =? "HEAD") eqn:Hh; [apply String.eqb_eq in Hh; subst cmd |].
    + left. subst h. rewrite (Hresp client raw rest out "HEAD");
        [| right; reflexivity | exact Hreq].
      apply (form_head_of L v resp Hform).
    + right.
      assert (Hm : server.method L fs parent cmd = None)
        by (unfold server.method; rewrite Hg, Hh; reflexivity).
      destruct (unsupported_method L fs parent raw rest cmd p v hs client out
                  Hreq Hm) as [Hw _].
      subst h. rewrite Hw.
      destruct (form_length L v _ (form_error L v 501
                  ("Unsupported method (" ++ py_repr L cmd ++ ")")) Hv)
        as [Hb | Hb]; [| exact Hb].
      rewrite error_response_body in Hb.
      destruct (error_page_text 501
                  ("Unsupported method (" ++ py_repr L cmd ++ ")") Hb).
Qed.

Lemma content_length_witness :
  (accepted_request Example.lib (Example.request "GET /index.html HTTP/1.1" [])
     "GET" "/index.html" "HTTP/1.1" []
   /\ "HTTP/1.1" <> "HTTP/0.9")
  /\ (body_of (wfile (Example.answer Example.fs "GET /index.html HTTP/1.1" []))
      = ""
      \/ In (HeaderLine "Content-Length"
               (Str.of_nat (String.length
                  (body_of (wfile (Example.answer Example.fs
                                     "GET /index.html HTTP/1.1" []))))))
            (headers_of (wfile (Example.answer Example.fs
                                  "GET /index.html HTTP/1.1" [])))).
Proof.
  assert (Hreq : accepted_request Example.lib
            (Example.request "GET /index.html HTTP/1.1" [])
            "GET" "/index.html" "HTTP/1.1" [])
    by (apply (example_accepted "GET" "/index.html"); reflexivity).
  assert (Hv : "HTTP/1.1" <> "HTTP/0.9") by discriminate.
  split; [split; assumption |].
  unfold Example.answer.
  exact (content_length_is_the_body_length Example.lib Example.fs
           Example.parent Example.client
           (Example.request "GET /index.html HTTP/1.1" []) [] []
           "GET" "/index.html" "HTTP/1.1" [] Hreq Hv).
Defined.

(** ** Standard output of the process *)

Lemma log_line_prefix ip m :
  Str.startswith "[请求] " ("[请求] " ++ ip ++ " - " ++ m) = true.
Proof. apply prefix_app, prefix_refl. Qed.

Lemma serve_forever_prints L fs parent conns :
  forall out done,
    exists lines,
      fst (fst (server.serve_forever L fs parent conns out done))
      = (out ++ lines)%list
      /\ Forall (fun line => Str.startswith "[请求] " line = true) lines.
Proof.
  induction conns as [| [peer requests | peer] conns IH]; intros out done.
  - exists []. rewrite app_nil_r. split; [reflexivity | constructor].
  - cbn [server.serve_forever].
    destruct (printed_in_form L fs parent peer out requests) as [_ [msgs Hm]].
    destruct (IH (stdout (server.MyHTTPRequestHandler L fs parent peer
                            requests out))
                (done ++ [wfile (server.MyHTTPRequestHandler L fs parent peer
                                   requests out)])%list)
      as (lines & E & Hl).
    exists (map (fun m => ("[请求] " ++ fst peer ++ " - " ++ m)%string) msgs
            ++ lines)%list.
    rewrite E, Hm, <- app_assoc. split; [reflexivity |].
    apply Forall_app. split; [| exact Hl].
    apply Forall_forall. intros line Hin. apply in_map_iff in Hin.
    destruct Hin as (m & <- & _). apply log_line_prefix.
  - exists []. cbn. rewrite app_nil_r. split; [reflexivity | constructor].
Qed.

(** X15.  With the port free, standard output begins with the eight lines of
    the banner; every line after it is a handler's line, which starts
    with [[请求] ], up to the line that reports the stop when the server is
    interrupted. *)
Theorem standard_output_is_banner_then_requests :
  forall L fs parent os conns interrupt,
    socketserver.port_in_use os server.PORT = false ->
    let pr := server.start_server L fs parent os conns interrupt in
    length (server.banner parent) = 8
    /\ exists lines,
        server.printed pr
        = (server.banner parent ++ lines
           ++ if interrupt
              then [(http_server.nl ++ http_server.nl ++ "服务器已停止")%string]
              else [])%list
        /\ Forall (fun line => Str.startswith "[请求] " line = true) lines.
Proof.
  intros L fs parent os conns interrupt Hp pr. subst pr.
  split; [reflexivity |].
  rewrite (start_server_free L fs parent os conns interrupt Hp). cbv zeta.
  destruct (serve_forever_prints L fs parent conns (server.banner parent) [])
    as (lines & E & Hl).
  exists lines. split; [| exact Hl].
  destruct interrupt; cbn [server.printed]; rewrite E.
  - rewrite <- app_assoc. reflexivity.
  - rewrite app_nil_r. reflexivity.
Qed.

Lemma standard_output_witness :
  socketserver.port_in_use Example.free_host server.PORT = false
  /\ length (server.banner Example.parent) = 8.
Proof.
  split; [reflexivity |].
  exact (proj1 (standard_output_is_banner_then_requests Example.lib Example.fs
                  Example.parent Example.free_host [] false eq_refl)).
Defined.



(** ** Query strings and fragments *)

Lemma before_app c s t :
  Str.contains c s = false ->
  Str.before c (s ++ t) = s ++ Str.before c t.
Proof.
  induction s as [| a s IH]; intros Hc; [reflexivity |].
  cbn [Str.contains] in Hc. apply orb_false_iff in Hc. destruct Hc as [Ha Hs].
  cbn [String.append Str.before]. rewrite Ha, (IH Hs). reflexivity.
Qed.

Lemma before_absent c s : Str.contains c s = false -> Str.before c s = s.
Proof.
  intros Hc. rewrite <- (append_empty_r s) at 1.
  rewrite (before_app c s "" Hc). apply append_empty_r.
Qed.

Lemma before_cut c s t :
  Str.contains c s = false -> Str.before c (s ++ String c t) = s.
Proof.
  intros Hc. rewrite (before_app c s _ Hc). cbn [Str.before].
  rewrite Ascii.eqb_refl. apply append_empty_r.
Qed.

(** X17.  The file a request path names does not depend on its query string or
    fragment: [translate_path] drops what follows the first [?] and the
    first [#]. *)
Theorem query_and_fragment_are_ignored :
  forall L dir p q,
    Str.contains "?"%char p = false ->
    Str.contains "#"%char p = false ->
    http_server.translate_path L dir (p ++ "?" ++ q)
    = http_server.translate_path L dir p
    /\ http_server.translate_path L dir (p ++ "#" ++ q)
       = http_server.translate_path L dir p.
Proof.
  intros L dir p q Hq Hf. unfold http_server.translate_path. split.
  - change (p ++ "?" ++ q) with (p ++ String "?"%char q).
    rewrite (before_cut "?"%char p q Hq), (before_absent "?"%char p Hq).
    reflexivity.
  - change (p ++ "#" ++ q) with (p ++ String "#"%char q).
    rewrite (before_app "?"%char p _ Hq), (before_absent "?"%char p Hq).
    replace (Str.before "#"%char (p ++ Str.before "?"%char (String "#"%char q)))
      with (Str.before "#"%char p).
    + reflexivity.
    + cbn [Str.before]. replace (Ascii.eqb "#"%char "?"%char) with false
        by reflexivity.
      rewrite (before_cut "#"%char p _ Hf), (before_absent "#"%char p Hf).
      reflexivity.
Qed.

Lemma query_and_fragment_witness :
  (Str.contains "?"%char "/index.html" = false
   /\ Str.contains "#"%char "/index.html" = false)
  /\ server.translate_path Example.lib Example.parent "/index.html?v=2"
     = server.translate_path Example.lib Example.parent "/index.html".
Proof.
  split; [split; reflexivity |].
  exact (proj1 (query_and_fragment_are_ignored Example.lib
                  (server.DIRECTORY Example.parent) "/index.html" "v=2"
                  eq_refl eq_refl)).
Defined.

(** ** Header sections that do not parse *)

Section Headers.

Variable L : pylib.
Variable fs : filesystem.
Variable parent : string.

Lemma send_error_explained code msg explain h :
  has_body code = true ->
  wfile h = [] -> _headers_buffer h = [] ->
  let h1 := snd (server.send_error L code (Some msg) (Some explain) h) in
  wfile h1 = explained_response L (request_version h) code msg explain
               (http_server.is_HEAD (command h))
  /\ stdout h1
     = (stdout h ++ error_log (client_address h) (requestline h) code msg)%list.
Proof.
  intros Hcode Hw Hb. cbv zeta.
  assert (E : server.send_error L code (Some msg) (Some explain) h
    = (tt, let page := http_server.error_message_format code
                         (Str.html_escape msg) (Str.html_escape explain) in
           let h1 := set_close_connection true
                       (flushed
                          (buffered
                             ([ StatusLine "HTTP/1.0" code msg;
                                HeaderLine "Server"
                                  ("SimpleHTTP/0.6 " ++ sys_version L);
                                HeaderLine "Date" (formatdate L None);
                                HeaderLine "Connection" "close";
                                HeaderLine "Content-Type"
                                  "text/html;charset=utf-8";
                                HeaderLine "Content-Length"
                                  (Str.of_nat (String.length page)) ]
                              ++ cors_headers)
                             (logged (Str.dq ++ requestline h ++ Str.dq ++ " "
                                      ++ Str.of_nat code ++ " -")
                                (logged ("code " ++ Str.of_nat code
                                         ++ ", message " ++ msg) h)))) in
           if http_server.is_HEAD (command h) then h1
           else written page h1)).
  { unfold server.send_error, http_server.send_error.
    unfold has_body in Hcode. rewrite Hcode.
    destruct (HTTPStatus.responses code) as [[shortmsg longmsg] |]; cbv zeta.
    all: unfold http_server.log_error.
    all: eapply run_bind; [apply log_message_eq | cbv beta].
    all: eapply run_bind; [apply send_response_eq | cbv beta].
    all: eapply run_bind; [apply send_header_close | cbv beta].
    all: eapply run_bind;
      [ eapply run_bind; [apply send_header_buffered; reflexivity | cbv beta];
        apply send_header_buffered; reflexivity | cbv beta ].
    all: eapply run_bind; [apply end_headers_eq | cbv beta].
    all: rewrite !buffered_closing, flushed_closing, !buffered_app.
    all: unfold gets; rewrite bind_eq; cbv beta; cbn [fst snd].
    all: rewrite error_page_not_empty, andb_true_r.
    all: unfold http_server.error_content_type.
    all: replace (command _) with (command h)
           by (unfold flushed, buffered, logged;
               destruct (request_version h =? "HTTP/0.9") eqn:Hv; observe Hv;
               reflexivity).
    all: destruct (http_server.is_HEAD (command h)); reflexivity. }
  rewrite E. unfold explained_response, error_log. cbv zeta. cbn [snd].
  destruct (request_version h =? "HTTP/0.9") eqn:Hv;
    destruct (http_server.is_HEAD (command h));
    observe Hv; rewrite ?Hw, ?Hb; cbn [app]; rewrite <- ?app_assoc;
    split; reflexivity.
Qed.

(** [parse_request] up to the header section of a request line of three
    words with a version below 2.0. *)
Lemma parse_request_headers raw cmd p v base vn h :
  Str.split_ws (Str.rstrip Str.is_crlf (raw_requestline raw)) = [cmd; p; v] ->
  http_server.parse_version L v = Some (base, vn) ->
  pair_ge vn (2, 0)%Z = false ->
  forall msg err,
    raw_headers raw = LineTooLong err /\ msg = "Line too long"
    \/ raw_headers raw = TooManyHeaders err /\ msg = "Too many headers" ->
    server.parse_request L raw h
    = (false,
       snd (server.send_error L HTTPStatus.REQUEST_HEADER_FIELDS_TOO_LARGE
              (Some msg) (Some err)
              (set_path (stored_path p)
                 (set_command (Some cmd)
                    (set_request_version v
                       (set_requestline
                          (Str.rstrip Str.is_crlf (raw_requestline raw))
                          (set_close_connection true
                             (set_request_version "HTTP/0.9"
                                (set_command None h))))))))).
Proof.
  intros Hwords Hver Hlt msg err Hh.
  unfold server.parse_request, http_server.parse_request.
  cbv zeta. rewrite Hwords. cbn [length Nat.eqb Nat.leb last nth negb andb].
  rewrite Hver, Hlt, protocol_is_1_0, !andb_false_r.
  fold (server.send_error L).
  do 4 step_modify.
  eapply run_bind;
    [ eapply run_bind; [reflexivity | cbv beta];
      eapply run_bind; [apply modify_eq | reflexivity]
    | cbv beta ].
  cbn [negb].
  eapply run_bind; [reflexivity | cbv beta]. cbn [negb].
  do 2 step_modify.
  assert (Hpath : forall h',
    when (Str.startswith "//" p)
      (modify (set_path ("/" ++ Str.lstrip Str.is_slash p))) (set_path p h')
    = (tt, set_path (stored_path p) h')).
  { intros h'. unfold stored_path. destruct (Str.startswith "//" p); reflexivity. }
  eapply run_bind; [apply Hpath | cbv beta].
  destruct Hh as [[-> ->] | [-> ->]];
    (eapply run_bind; [apply run_unit | reflexivity]).
Qed.

End Headers.

(** X18.  A request whose header section has an over-long line or too many
    headers is answered 431 with the message "Line too long" or "Too many
    headers", the error's own text as the explanation on the page.  The
    command is not looked at: a method the server does not know gets 431
    too, not 501. *)
Theorem header_section_errors_are_431 :
  forall L fs parent client raw rest out cmd p v base vn msg err,
    (65536 <? N.of_nat (String.length (raw_requestline raw)))%N = false ->
    Str.split_ws (Str.rstrip Str.is_crlf (raw_requestline raw)) = [cmd; p; v] ->
    http_server.parse_version L v = Some (base, vn) ->
    pair_ge vn (2, 0)%Z = false ->
    (raw_headers raw = LineTooLong err /\ msg = "Line too long"
     \/ raw_headers raw = TooManyHeaders err /\ msg = "Too many headers") ->
    let h := server.MyHTTPRequestHandler L fs parent client (raw :: rest) out in
    wfile h = explained_response L v 431 msg err (cmd =? "HEAD")
    /\ stdout h
       = (out ++ error_log client
                   (Str.rstrip Str.is_crlf (raw_requestline raw)) 431 msg)%list
    /\ (v <> "HTTP/0.9" -> status_of (wfile h) = Some 431).
Proof.
  intros L fs parent client raw rest out cmd p v base vn msg err Hlen Hwords
    Hver Hlt Hh h.
  assert (Hne : (raw_requestline raw =? "") = false)
    by (apply words_line_not_empty; rewrite Hwords; discriminate).
  subst h.
  rewrite (handler_unparsed L fs parent client raw rest out _ Hlen Hne
             (fun h => parse_request_headers L raw cmd p v base vn h
                         Hwords Hver Hlt msg err Hh)).
  match goal with
  | |- context [server.send_error L ?c (Some msg) (Some err) ?h0] =>
      destruct (send_error_explained L c msg err h0) as [Hw Ho];
        [reflexivity | reflexivity | reflexivity |]
  end.
  rewrite Hw, Ho. split; [reflexivity |]. split; [reflexivity |].
  intros Hv. apply String.eqb_neq in Hv. unfold explained_response.
  cbn [request_version set_path set_command set_request_version].
  rewrite Hv. reflexivity.
Qed.

Lemma header_section_errors_witness :
  ((65536 <? N.of_nat (String.length (raw_requestline Site.crowded)))%N = false
   /\ Str.split_ws (Str.rstrip Str.is_crlf (raw_requestline Site.crowded))
      = ["GET"; "/index.html"; "HTTP/1.1"]
   /\ http_server.parse_version Example.lib "HTTP/1.1" = Some ("1.1", (1, 1)%Z)
   /\ pair_ge (1, 1)%Z (2, 0)%Z = false
   /\ (raw_headers Site.crowded = LineTooLong "got more than 100 headers"
       /\ "Too many headers" = "Line too long"
       \/ raw_headers Site.crowded = TooManyHeaders "got more than 100 headers"
          /\ "Too many headers" = "Too many headers"))
  /\ status_of
       (wfile (server.MyHTTPRequestHandler Example.lib Example.fs
                 Example.parent Example.client [Site.crowded] []))
     = Some 431.
Proof.
  assert (Hh : raw_headers Site.crowded = LineTooLong "got more than 100 headers"
               /\ "Too many headers" = "Line too long"
               \/ raw_headers Site.crowded
                  = TooManyHeaders "got more than 100 headers"
                  /\ "Too many headers" = "Too many headers")
    by (right; split; reflexivity).
  split; [repeat split; (reflexivity || exact Hh) |].
  pose proof (header_section_errors_are_431 Example.lib Example.fs
                Example.parent Example.client Site.crowded
                [] [] "GET" "/index.html" "HTTP/1.1" "1.1" (1, 1)%Z
                "Too many headers" "got more than 100 headers"
                eq_refl eq_refl eq_refl eq_refl Hh) as H.
  cbv zeta in H. destruct H as (_ & _ & H).
  assert (Hv : "HTTP/1.1" <> "HTTP/0.9") by discriminate.
  exact (H Hv).
Defined.
